(** * Date and time builtins of Mathics: [mathics/builtin/datentime.py]

    A shallow embedding of the date resolution ([_DateFormat.to_datelist]),
    the calendar value ([_Date]), formatting ([DateString]), absolute time
    ([AbsoluteTime]) and date arithmetic ([DatePlus], [DateDifference]).

    The module is Python 2.7 code ([basestring], [unicode], a [map] that
    returns a list, [timedelta.total_seconds]): [/] on two integers is floor
    division, and [datetime(...)] refuses a float where it expects an integer.

    Conventions of the embedding.
    - A Python [int] is a [Z]; [datetime(...)] takes its arguments as C
      ints and raises [OverflowError] on one that does not fit.
    - A Python [float] is a finite IEEE 754 binary64 number, kept as the
      rational it denotes; every operation on floats rounds its exact
      result to the nearest double, ties to even ([Binary64.double]).
      Infinities and NaN are outside the model: they arise only from a
      product that overflows binary64.
    - A Python exception is a value of [pyexn]; a builtin's [apply] yields the
      messages it issued through [evaluation.message] together with either a
      raised exception or what it returned ([None] or a value).
    - The standard [datetime] and [timedelta] types are modelled by their
      documented meaning: a proleptic Gregorian instant with microsecond
      resolution in years 1..9999, and a signed count of microseconds.
    - What the host supplies ([time.gmtime], [dateutil.parser.parse],
      [datetime.strptime], the current year) is a record of functions. *)

From Stdlib Require Import ZArith QArith Qround Qabs Qpower Qreduction Lia Lqa.
From Stdlib Require Import List String Ascii Bool.
Import ListNotations.
#[local] Set Warnings "-register-all".
Local Open Scope Z_scope.

(** ** IEEE 754 binary64 *)

Module Binary64.

(** [floor (log2 |q|)] for [q] other than 0. *)
Definition ilog2 (q : Q) : Z :=
  let k := Z.log2 (Z.abs (Qnum q)) - Z.log2 (Zpos (Qden q)) in
  if Qle_bool (2 ^ k) (Qabs q) then k else k - 1.

(** The nearest integer, ties to even. *)
Definition round_half_even (m : Q) : Z :=
  let f := Qfloor m in
  match Qcompare (m - inject_Z f) (1 # 2) with
  | Lt => f
  | Gt => f + 1
  | Eq => if Z.even f then f else f + 1
  end.

(** The exponent of the unit in the last place of the doubles around [q]:
    53 significant bits, and no less than 2^-1074. *)
Definition ulp_exponent (q : Q) : Z := Z.max (ilog2 q - 52) (-1074).

(** The double nearest to [q]: round to nearest, ties to even. *)
Definition double (q : Q) : Q :=
  let q := Qred q in
  if Qeq_bool q 0 then 0
  else
    let e := ulp_exponent q in
    Qred (inject_Z (round_half_even (q * 2 ^ (- e))) * 2 ^ e).

End Binary64.
Export Binary64.

(** ** Python numbers *)

Module PyNum.

Inductive pynum : Type :=
| PInt (n : Z)
| PFloat (q : Q).

Definition to_Q (x : pynum) : Q :=
  match x with
  | PInt n => inject_Z n
  | PFloat q => q
  end.

Definition is_int (x : pynum) : bool :=
  match x with PInt _ => true | PFloat _ => false end.

Definition is_float (x : pynum) : bool :=
  match x with PInt _ => false | PFloat _ => true end.

(** [int(q)] on a float truncates toward zero. *)
Definition Qtrunc (q : Q) : Z :=
  if Qle_bool 0 q then Qfloor q else Qceiling q.

(** C's [fmod(a, b)]: exact, with the sign of [a]. *)
Definition fmod (a b : Q) : Q := (a - b * inject_Z (Qtrunc (a / b)))%Q.

(** [a % b] on floats: [fmod(a, b)], moved by [b] (a float addition) when
    it is not 0 and its sign is not that of [b]. *)
Definition Qmod (a b : Q) : Q :=
  let m := fmod a b in
  if negb (Qeq_bool m 0) && xorb (Qle_bool 0 b) (Qle_bool 0 m)
  then double (m + b)
  else m.

(** [float(x)]: an integer becomes the double nearest to it. *)
Definition as_double (x : pynum) : Q :=
  match x with
  | PInt n => double (inject_Z n)
  | PFloat q => q
  end.

Definition add (a b : pynum) : pynum :=
  match a, b with
  | PInt x, PInt y => PInt (x + y)
  | _, _ => PFloat (double (as_double a + as_double b))
  end.

Definition sub (a b : pynum) : pynum :=
  match a, b with
  | PInt x, PInt y => PInt (x - y)
  | _, _ => PFloat (double (as_double a - as_double b))
  end.

Definition mul (a b : pynum) : pynum :=
  match a, b with
  | PInt x, PInt y => PInt (x * y)
  | _, _ => PFloat (double (as_double a * as_double b))
  end.

(** Python 2 [/]: floor division on two integers, true division otherwise.
    Every divisor in the module is a non-zero constant. *)
Definition div (a b : pynum) : pynum :=
  match a, b with
  | PInt x, PInt y => PInt (x / y)
  | _, _ => PFloat (double (as_double a / as_double b))
  end.

Definition modulo (a b : pynum) : pynum :=
  match a, b with
  | PInt x, PInt y => PInt (x mod y)
  | _, _ => PFloat (Qmod (as_double a) (as_double b))
  end.

(** [int(x)] *)
Definition int (x : pynum) : Z :=
  match x with
  | PInt n => n
  | PFloat q => Qtrunc q
  end.

(** [float(x)] *)
Definition float (x : pynum) : pynum := PFloat (as_double x).

(** Python's [==] on numbers compares the values, whatever the types. *)
Definition eqb (a b : pynum) : bool := Qeq_bool (to_Q a) (to_Q b).

End PyNum.
Export PyNum.

(** ** The proleptic Gregorian calendar of [datetime] *)

Module Calendar.

Definition MINYEAR : Z := 1.
Definition MAXYEAR : Z := 9999.

Definition is_leap (y : Z) : bool :=
  (y mod 4 =? 0) && (negb (y mod 100 =? 0) || (y mod 400 =? 0)).

Definition days_in_month (y m : Z) : Z :=
  match m with
  | 1 => 31 | 2 => if is_leap y then 29 else 28 | 3 => 31 | 4 => 30
  | 5 => 31 | 6 => 30 | 7 => 31 | 8 => 31 | 9 => 30 | 10 => 31
  | 11 => 30 | 12 => 31 | _ => 0
  end.

(** Days in the months of the year before month [m], leap day not counted. *)
Definition DAYS_BEFORE_MONTH (m : Z) : Z :=
  match m with
  | 1 => 0 | 2 => 31 | 3 => 59 | 4 => 90 | 5 => 120 | 6 => 151
  | 7 => 181 | 8 => 212 | 9 => 243 | 10 => 273 | 11 => 304 | 12 => 334
  | _ => 0
  end.

Definition days_before_month (y m : Z) : Z :=
  DAYS_BEFORE_MONTH m + (if (2 <? m) && is_leap y then 1 else 0).

Definition days_before_year (y : Z) : Z :=
  let p := y - 1 in p * 365 + p / 4 - p / 100 + p / 400.

(** Ordinal of a date: 1 January of year 1 is day 1. *)
Definition ymd2ord (y m d : Z) : Z :=
  days_before_year y + days_before_month y m + d.

Definition DI400Y : Z := 146097.
Definition DI100Y : Z := 36524.
Definition DI4Y : Z := 1461.

(** Month and day of the [n]-th day (counted from 0) of a year. *)
Definition month_day (leap : bool) (n : Z) : Z * Z :=
  let month := Z.shiftr (n + 50) 5 in
  let preceding := DAYS_BEFORE_MONTH month + (if (2 <? month) && leap then 1 else 0) in
  if n <? preceding then
    let month' := month - 1 in
    let dim := match month' with
               | 2 => if leap then 29 else 28
               | 4 | 6 | 9 | 11 => 30
               | _ => 31
               end in
    (month', n - (preceding - dim) + 1)
  else (month, n - preceding + 1).

(** The inverse of [ymd2ord], by 400-, 100-, 4- and 1-year cycles. *)
Definition ord2ymd (ord : Z) : Z * Z * Z :=
  let n := ord - 1 in
  let n400 := n / DI400Y in
  let n := n mod DI400Y in
  let n100 := n / DI100Y in
  let n := n mod DI100Y in
  let n4 := n / DI4Y in
  let n := n mod DI4Y in
  let n1 := n / 365 in
  let n := n mod 365 in
  let year := n400 * 400 + 1 + n100 * 100 + n4 * 4 + n1 in
  if (n1 =? 4) || (n100 =? 4) then (year - 1, 12, 31)
  else
    let leapyear := (n1 =? 3) && (negb (n4 =? 24) || (n100 =? 3)) in
    let '(m, d) := month_day leapyear n in
    (year, m, d).

Definition valid_ymd (y m d : Z) : bool :=
  (MINYEAR <=? y) && (y <=? MAXYEAR) && (1 <=? m) && (m <=? 12)
  && (1 <=? d) && (d <=? days_in_month y m).

Definition MAXORDINAL : Z := 3652059.

(** Monday is 0. *)
Definition weekday (y m d : Z) : Z := (ymd2ord y m d + 6) mod 7.

End Calendar.
Export Calendar.

(** ** [datetime] and [timedelta] *)

Module Datetime.

Inductive pyexn : Type :=
| ValueError | TypeError | OverflowError | NameError | UnboundLocalError
| AttributeError | IndexError.

Record datetime : Type := mkdatetime {
  year : Z; month : Z; day : Z;
  hour : Z; minute : Z; second : Z; microsecond : Z
}.

Definition valid (d : datetime) : bool :=
  valid_ymd (year d) (month d) (day d)
  && (0 <=? hour d) && (hour d <? 24)
  && (0 <=? minute d) && (minute d <? 60)
  && (0 <=? second d) && (second d <? 60)
  && (0 <=? microsecond d) && (microsecond d <? 1000000).

Definition INT_MIN : Z := - 2147483648.
Definition INT_MAX : Z := 2147483647.

(** Whether a Python integer fits a C int. *)
Definition fits_int (n : Z) : bool := (INT_MIN <=? n) && (n <=? INT_MAX).

(** [datetime(y, m, d, h, mi, s, us)] on integers: the arguments are
    converted to C ints first, with [OverflowError] for one that does not
    fit; then [ValueError] outside the calendar. *)
Definition datetime_new (y m d h mi s us : Z) : pyexn + datetime :=
  let r := mkdatetime y m d h mi s us in
  if forallb fits_int [y; m; d; h; mi; s; us]
  then if valid r then inr r else inl ValueError
  else inl OverflowError.

Definition US_PER_SECOND : Z := 1000000.
Definition US_PER_MINUTE : Z := 60 * US_PER_SECOND.
Definition US_PER_HOUR : Z := 3600 * US_PER_SECOND.
Definition US_PER_DAY : Z := 86400 * US_PER_SECOND.

(** Microseconds elapsed since 0001-01-01T00:00:00. *)
Definition to_us (d : datetime) : Z :=
  (ymd2ord (year d) (month d) (day d) - 1) * US_PER_DAY
  + hour d * US_PER_HOUR + minute d * US_PER_MINUTE
  + second d * US_PER_SECOND + microsecond d.

Definition of_us (t : Z) : datetime :=
  let '(y, m, d) := ord2ymd (t / US_PER_DAY + 1) in
  let r := t mod US_PER_DAY in
  mkdatetime y m d
    (r / US_PER_HOUR) (r mod US_PER_HOUR / US_PER_MINUTE)
    (r mod US_PER_MINUTE / US_PER_SECOND) (r mod US_PER_SECOND).

(** The first instant after 9999-12-31T23:59:59.999999. *)
Definition US_END : Z := MAXORDINAL * US_PER_DAY.

(** A [timedelta] is a signed number of microseconds; Python keeps it as
    normalised (days, seconds, microseconds). *)
Definition timedelta : Type := Z.

Definition td_days (t : timedelta) : Z := t / US_PER_DAY.
Definition td_seconds (t : timedelta) : Z := t mod US_PER_DAY / US_PER_SECOND.
Definition td_microseconds (t : timedelta) : Z := t mod US_PER_SECOND.

(** [timedelta.total_seconds()]: the true division of the microseconds by
    10^6, a float. *)
Definition total_seconds (t : timedelta) : pynum :=
  PFloat (double (inject_Z t / inject_Z US_PER_SECOND)).

Definition MAX_DELTA_DAYS : Z := 999999999.

(** [round_to_long] of the C implementation: [floor(x + 0.5)] or
    [ceil(x - 0.5)], the sum being a float addition. *)
Definition round_to_long (x : Q) : Z :=
  if Qle_bool 0 x then Qfloor (double (x + (1 # 2)))
  else Qceiling (double (x - (1 # 2))).

(** [accum] of the C implementation, for one keyword argument [x] of
    [timedelta(...)] counted in units of [factor] microseconds.  The state is
    the running sum of whole microseconds and the float [leftover_us].  An
    integer is added exactly.  A float is split by [modf]; its integer part
    is added exactly; its fraction times [factor], a float product, is split
    again, into whole microseconds and a fraction that goes to
    [leftover_us] by a float addition. *)
Definition accum (st : Z * Q) (x : pynum) (factor : Z) : Z * Q :=
  let '(sofar, leftover) := st in
  match x with
  | PInt n => (sofar + n * factor, leftover)
  | PFloat q =>
      let intpart := Qtrunc q in
      let fracpart := (q - inject_Z intpart)%Q in
      let sum := sofar + intpart * factor in
      if Qeq_bool fracpart 0 then (sum, leftover)
      else
        let dnum := double (inject_Z factor * fracpart) in
        let intpart2 := Qtrunc dnum in
        (sum + intpart2, double (leftover + (dnum - inject_Z intpart2)))
  end.

(** The microseconds of [timedelta(days=d, hours=h, minutes=mi, seconds=s)]:
    the C implementation accumulates the seconds, the minutes, the hours and
    the days, in this order, and rounds what is left over once. *)
Definition delta_us (d h mi s : pynum) : Z :=
  let st := accum (0, 0%Q) s US_PER_SECOND in
  let st := accum st mi US_PER_MINUTE in
  let st := accum st h US_PER_HOUR in
  let '(x, leftover) := accum st d US_PER_DAY in
  if Qeq_bool leftover 0 then x else x + round_to_long leftover.

(** [timedelta(days=d, hours=h, minutes=mi, seconds=s)]: [OverflowError]
    beyond 999999999 days. *)
Definition timedelta_new (d h mi s : pynum) : pyexn + timedelta :=
  let t := delta_us d h mi s in
  if (- MAX_DELTA_DAYS <=? td_days t) && (td_days t <=? MAX_DELTA_DAYS)
  then inr t else inl OverflowError.

(** [d + t]: [OverflowError] when the sum leaves years 1..9999. *)
Definition add_delta (d : datetime) (t : timedelta) : pyexn + datetime :=
  let u := to_us d + t in
  if (0 <=? u) && (u <? US_END) then inr (of_us u) else inl OverflowError.

(** [a - b] *)
Definition diff (a b : datetime) : timedelta := to_us a - to_us b.

End Datetime.
Export Datetime.

(** ** Python strings *)

Module Str.

Local Open Scope string_scope.

(** The double quote that [String.to_python] keeps around a string. *)
Definition dquote : ascii := "034"%char.

Definition quoted (s : string) : string :=
  String dquote (s ++ String dquote EmptyString).

(** [s.lstrip(c)] *)
Fixpoint lstrip (c : ascii) (s : string) : string :=
  match s with
  | EmptyString => EmptyString
  | String a s' => if Ascii.eqb a c then lstrip c s' else s
  end.

(** [s.rstrip(c)] *)
Fixpoint rstrip (c : ascii) (s : string) : string :=
  match s with
  | EmptyString => EmptyString
  | String a s' =>
      match rstrip c s' with
      | EmptyString => if Ascii.eqb a c then EmptyString else String a EmptyString
      | r => String a r
      end
  end.

(** [s.strip(c)] *)
Definition strip (c : ascii) (s : string) : string := lstrip c (rstrip c s).

(** [s.strip(c)] with [c] the double quote. *)
Definition unquote (s : string) : string := strip dquote s.

(** [s.split(c)]: always at least one piece. *)
Fixpoint split (c : ascii) (s : string) : list string :=
  match s with
  | EmptyString => [EmptyString]
  | String a s' =>
      if Ascii.eqb a c then EmptyString :: split c s'
      else match split c s' with
           | p :: ps => String a p :: ps
           | [] => [String a EmptyString]
           end
  end.

(** [sep.join(l)] *)
Definition join (sep : string) (l : list string) : string := String.concat sep l.

(** [s.endswith(suf)] *)
Fixpoint endswith (suf s : string) : bool :=
  String.eqb s suf
  || match s with
     | EmptyString => false
     | String _ s' => endswith suf s'
     end.

(** [k in l] for a list of strings. *)
Definition mem (k : string) (l : list string) : bool :=
  existsb (String.eqb k) l.

(** [d[k]] for a read-only table with string keys. *)
Fixpoint lookup {A : Type} (k : string) (t : list (string * A)) : option A :=
  match t with
  | [] => None
  | (k', v) :: t' => if String.eqb k k' then Some v else lookup k t'
  end.

Definition keys {A : Type} (t : list (string * A)) : list string := map fst t.

End Str.

(** ** Python values, messages and the outcome of a builtin *)

Module PyVal.

Inductive pyval : Type :=
| VNum (x : pynum)
| VStr (s : string)
| VList (l : list pyval)
| VNone
| VExpr (head : string) (args : list pyval).

Definition VI (n : Z) : pyval := VNum (PInt n).
Definition VF (q : Q) : pyval := VNum (PFloat q).

(** Python's [==]. *)
Fixpoint veqb (a b : pyval) : bool :=
  let fix all2 (l m : list pyval) : bool :=
    match l, m with
    | [], [] => true
    | x :: l', y :: m' => veqb x y && all2 l' m'
    | _, _ => false
    end in
  match a, b with
  | VNum x, VNum y => PyNum.eqb x y
  | VStr s, VStr t => String.eqb s t
  | VList l, VList m => all2 l m
  | VNone, VNone => true
  | VExpr h l, VExpr k m => String.eqb h k && all2 l m
  | _, _ => false
  end.

Definition is_str (v : pyval) : bool :=
  match v with VStr _ => true | _ => false end.

(** [evaluation.message(symbol, tag, args...)] *)
Inductive message : Type :=
| Msg (symbol tag : string) (args : list pyval).

(** How a call ends: [return v], a bare [return] (the expression stays
    unevaluated), or an exception that nothing in the module catches. *)
Inductive result (A : Type) : Type :=
| Return (a : A)
| ReturnNone
| Raise (e : pyexn).
Arguments Return {A} a.
Arguments ReturnNone {A}.
Arguments Raise {A} e.

(** The messages issued, in order, and how the call ended. *)
Definition run (A : Type) : Type := (list message * result A)%type.

End PyVal.
Export PyVal.

(** ** The module's tables *)

Module Tables.

Local Open Scope string_scope.

Definition TIME_INCREMENTS : list (string * list Z) :=
  [ ("Year",    [1; 0; 0; 0; 0; 0]);
    ("Quarter", [0; 3; 0; 0; 0; 0]);
    ("Month",   [0; 1; 0; 0; 0; 0]);
    ("Week",    [0; 0; 7; 0; 0; 0]);
    ("Day",     [0; 0; 1; 0; 0; 0]);
    ("Hour",    [0; 0; 0; 1; 0; 0]);
    ("Minute",  [0; 0; 0; 0; 1; 0]);
    ("Second",  [0; 0; 0; 0; 0; 1]) ].

Definition DATE_STRING_FORMATS : list (string * string) :=
  [ ("Date", "%c");
    ("DateShort", "%a %d %b %Y");
    ("Time", "%X");
    ("DateTime", "%c %X");
    ("DateTimeShort", "%a %d %b %Y %X");
    ("Year", "%Y");
    ("YearShort", "%y");
    ("MonthName", "%B");
    ("MonthNameShort", "%b");
    ("Month", "%m");
    ("MonthShort", "%m");
    ("DayName", "%A");
    ("DayNameShort", "%a");
    ("Day", "%d");
    ("DayShort", "%d");
    ("Hour", "%H");
    ("Hour12", "%I");
    ("Hour24", "%H");
    ("HourShort", "%H");
    ("Hour12Short", "%I");
    ("Hour24Short", "%H");
    ("AMPM", "%p");
    ("Minute", "%M");
    ("MinuteShort", "%M");
    ("Second", "%S");
    ("SecondShort", "%S");
    ("SecondExact", "%S.%f") ].

(** The default date [[1900, 1, 1, 0, 0, 0.]]. *)
Definition default_date : list pyval := [VI 1900; VI 1; VI 1; VI 0; VI 0; VF 0].

(** Seconds from 1900-01-01 to 1970-01-01. *)
Definition EPOCH_OFFSET : Z := 2208988800.

End Tables.
Export Tables.

(** ** What the host supplies *)

Record Host : Type := mkHost {
  (** [time.gmtime(t)[:6]]; [None] is its [ValueError]. *)
  gmtime : pynum -> option (Z * Z * Z * Z * Z * Z);
  (** [dateutil.parser.parse(s)]; [None] is its [ValueError]. *)
  dateutil_parse : string -> option datetime;
  (** [datetime.strptime(s, form)]; [None] is its [ValueError]. *)
  strptime : string -> string -> option datetime;
  (** [datetime.today().year] *)
  today_year : Z
}.

(** ** Exceptions as a sum *)

Definition bind {A B : Type} (m : pyexn + A) (f : A -> pyexn + B) : pyexn + B :=
  match m with
  | inl e => inl e
  | inr a => f a
  end.

Notation "x <- m ;; k" := (bind m (fun x => k))
  (at level 61, m at next level, right associativity).
Notation "' p <- m ;; k" := (bind m (fun x => match x with p => k end))
  (at level 61, p pattern, m at next level, right associativity).

(** ** [class _Date] *)

Module Date.

Local Open Scope string_scope.
Local Open Scope Z_scope.

(** [datelist += [1900, 1, 1, 0, 0, 0.][len(datelist):]] *)
Definition pad (datelist : list pyval) : list pyval :=
  (datelist ++ skipn (List.length datelist) default_date)%list.

(** An argument of [datetime(...)] has to be an integer, and one that fits
    a C int. *)
Definition int_arg (v : pyval) : pyexn + Z :=
  match v with
  | VNum (PInt n) => if fits_int n then inr n else inl OverflowError
  | _ => inl TypeError
  end.

(** [int(v)] and [int(1e6 * (v % 1.))] for the seconds field [v]; [int] of a
    quoted string is a [ValueError]. *)
Definition second_args (v : pyval) : pyexn + (Z * Z) :=
  match v with
  | VNum x =>
      inr (PyNum.int x,
           PyNum.int (mul (PFloat (inject_Z 1000000)) (modulo x (PFloat 1))))
  | VStr _ => inl ValueError
  | _ => inl TypeError
  end.

Section WithHost.

Variable H : Host.

(** [_Date.__init__(datelist, absolute, datestr)]: the value of [self.date]. *)
Definition init (datelist : list pyval) (absolute : option pynum)
    (datestr : option string) : pyexn + datetime :=
  match pad datelist with
  | v0 :: v1 :: v2 :: v3 :: v4 :: v5 :: _ =>
      '(sec, us) <- second_args v5 ;;
      y <- int_arg v0 ;;
      m <- int_arg v1 ;;
      d <- int_arg v2 ;;
      h <- int_arg v3 ;;
      mi <- int_arg v4 ;;
      date <- datetime_new y m d h mi sec us ;;
      date <- match absolute with
              | Some a =>
                  td <- timedelta_new (PInt 0) (PInt 0) (PInt 0) a ;;
                  add_delta date td
              | None => inr date
              end ;;
      match datestr with
      | Some s =>
          match absolute with
          | Some _ => inl ValueError
          | None =>
              match dateutil_parse H s with
              | Some parsed => inr parsed
              | None => inl ValueError
              end
          end
      | None => inr date
      end
  | _ => inl IndexError
  end.

End WithHost.

(** An integer argument of [datetime(...)] given as a Python number. *)
Definition int_num (x : pynum) : pyexn + Z :=
  match x with
  | PInt n => if fits_int n then inr n else inl OverflowError
  | PFloat _ => inl TypeError
  end.

(** The carry of [addself]: [years] and [months] as line 543 receives them. *)
Definition addself_carry (d : datetime) (t0 t1 : pynum) : pynum * pynum :=
  let total := add (PInt (month d)) t1 in
  let years := add (add (PInt (year d)) t0)
                   (PInt (PyNum.int (div total (PInt 12)))) in
  let months := modulo total (PInt 12) in
  if PyNum.eqb months (PInt 0)
  then (sub years (PInt 1), add months (PInt 12))
  else (years, months).

(** The calendar-field phase of [addself]: [self.date] after line 543. *)
Definition addself_fields (d : datetime) (t0 t1 : pynum) : pyexn + datetime :=
  let '(years, months) := addself_carry d t0 t1 in
  y <- int_num years ;;
  m <- int_num months ;;
  datetime_new y m (day d) (hour d) (minute d) (second d) 0.

(** [_Date.addself(timevec)]: the new value of [self.date]. *)
Definition addself (d : datetime) (timevec : list pynum) : pyexn + datetime :=
  match timevec with
  | t0 :: t1 :: t2 :: t3 :: t4 :: t5 :: _ =>
      date <- addself_fields d t0 t1 ;;
      tdelta <- timedelta_new t2 t3 t4 t5 ;;
      add_delta date tdelta
  | _ => inl IndexError
  end.

(** The float literal [1e-6]. *)
Definition MICRO : Q := double (1 # 1000000).

(** [second + 1e-6 * microsecond] *)
Definition float_second (d : datetime) : Q :=
  to_Q (add (PInt (second d)) (mul (PFloat MICRO) (PInt (microsecond d)))).

(** [_Date.to_list()] *)
Definition to_list (d : datetime) : list pyval :=
  [VI (year d); VI (month d); VI (day d); VI (hour d); VI (minute d);
   VF (float_second d)].

End Date.

(** ** [class _DateFormat] *)

Module DateFormat.

Local Open Scope string_scope.
Local Open Scope Z_scope.

(** [(isinstance(val, float) and i > 1) or isinstance(val, int)] for every
    item, [i] being the index of the first item of [l]. *)
Fixpoint numeric_items (i : nat) (l : list pyval) : bool :=
  match l with
  | [] => true
  | VNum (PInt _) :: l' => numeric_items (S i) l'
  | VNum (PFloat _) :: l' => (1 <? i)%nat && numeric_items (S i) l'
  | _ :: _ => false
  end.

Definition separators : list string := [""; " "; "/"; "-"; "."; ","; ":"].

Definition format_of (s : string) : string :=
  match Str.lookup s DATE_STRING_FORMATS with
  | Some f => f
  | None => s
  end.

Definition str_of (v : pyval) : string :=
  match v with VStr s => s | _ => "" end.

(** The candidate [strptime] formats of a list of element names. *)
Definition forms_of (names : list string) : list string :=
  let is_spec := map (fun s => Str.mem s (Str.keys DATE_STRING_FORMATS)) names in
  if forallb (fun b => b) is_spec
  then map (fun sep => Str.join sep (map format_of names)) separators
  else [String.concat "" (map format_of names)].

Section WithHost.

Variable H : Host.

(** The first form that parses. *)
Fixpoint first_parse (text : string) (forms : list string) : option datetime :=
  match forms with
  | [] => None
  | form :: rest =>
      match strptime H text form with
      | Some d => Some d
      | None => first_parse text rest
      end
  end.

(** [to_datelist] on a list of 1 to 6 numbers. *)
Definition numeric_datelist (form_name : string) (etime : list pyval)
  : run (list pyval) :=
  match Date.pad etime with
  | VNum (PInt y) :: VNum (PInt m) :: VNum d :: VNum h :: VNum mi :: VNum s :: _ =>
      match datetime_new y m 1 0 0 0 0 with
      | inl ValueError => ([Msg form_name "arg" [VList etime]], ReturnNone)
      | inl e => ([], Raise e)
      | inr dtime =>
          match (tdelta <- timedelta_new (sub d (PInt 1)) h mi s ;;
                 add_delta dtime tdelta) with
          | inl e => ([], Raise e)
          | inr dtime => ([], Return (Date.to_list dtime))
          end
      end
  | _ => ([], Raise TypeError)
  end.

(** [to_datelist] on a string with a list of element names. *)
Definition text_datelist (form_name : string) (text : string)
    (specs : list pyval) : run (list pyval) :=
  let names := map (fun v => Str.unquote (str_of v)) specs in
  match first_parse (Str.unquote text) (forms_of names) with
  | None =>
      ([Msg form_name "str" [VStr text; VList (map VStr names)]], ReturnNone)
  | Some date =>
      let datelist := Date.to_list date in
      if negb (Str.mem "Year" names) && negb (Str.mem "YearShort" names)
      then ([], Return (VI (today_year H) :: tl datelist))
      else ([], Return datelist)
  end.

(** [_DateFormat.to_datelist(epochtime, evaluation)], [etime] being
    [epochtime.to_python()]. *)
Definition to_datelist (form_name : string) (etime : pyval) : run (list pyval) :=
  match etime with
  | VNum x =>
      match gmtime H (sub x (PInt EPOCH_OFFSET)) with
      | None => ([], ReturnNone)
      | Some (y, mo, d, h, mi, s) =>
          ([], Return [VI y; VI mo; VI d; VI h; VI mi;
                       VNum (add (PInt s) (modulo x (PFloat 1)))])
      end
  | VStr s =>
      match dateutil_parse H (Str.unquote s) with
      | None => ([], Raise ValueError)
      | Some date => ([], Return (Date.to_list date))
      end
  | VList l =>
      if (1 <=? List.length l)%nat && (List.length l <=? 6)%nat
         && numeric_items 0 l
      then numeric_datelist form_name l
      else
        match l with
        | [e0; e1] =>
            match e0, e1 with
            | VStr text, VList specs =>
                if forallb is_str specs
                then text_datelist form_name text specs
                else ([Msg form_name "str" [e0; e1]], ReturnNone)
            | _, _ => ([Msg form_name "str" [e0; e1]], ReturnNone)
            end
        | _ => ([Msg form_name "arg" [etime]], ReturnNone)
        end
  | _ => ([Msg form_name "arg" [etime]], ReturnNone)
  end.

(** [DateList.apply] *)
Definition DateList_apply (epochtime : pyval) : run pyval :=
  match to_datelist "DateList" epochtime with
  | (msgs, Return datelist) => (msgs, Return (VList datelist))
  | (msgs, ReturnNone) => (msgs, ReturnNone)
  | (msgs, Raise e) => (msgs, Raise e)
  end.

End WithHost.

End DateFormat.

(** ** [datetime.strftime] in the C locale, for the directives of
    [DATE_STRING_FORMATS] *)

Module Strftime.

Local Open Scope string_scope.
Local Open Scope Z_scope.

Definition digit (n : Z) : ascii := ascii_of_nat (48 + Z.to_nat (n mod 10)).

Definition pad2 (n : Z) : string :=
  String (digit (n / 10)) (String (digit n) EmptyString).

Definition pad4 (n : Z) : string := pad2 (n / 100) ++ pad2 (n mod 100).

Definition pad6 (n : Z) : string := pad2 (n / 10000) ++ pad4 (n mod 10000).

(** [%e]: the day of the month padded with a space. *)
Definition space2 (n : Z) : string :=
  if n <? 10 then String " "%char (String (digit n) EmptyString) else pad2 n.

Definition day_names : list string :=
  ["Monday"; "Tuesday"; "Wednesday"; "Thursday"; "Friday"; "Saturday"; "Sunday"].

Definition month_names : list string :=
  ["January"; "February"; "March"; "April"; "May"; "June"; "July"; "August";
   "September"; "October"; "November"; "December"].

Definition day_name (d : datetime) : string :=
  nth (Z.to_nat (weekday (year d) (month d) (day d))) day_names "".

Definition month_name (d : datetime) : string :=
  nth (Z.to_nat (month d - 1)) month_names "".

Definition abbrev (s : string) : string := substring 0 3 s.

Definition hour12 (d : datetime) : Z :=
  let h := hour d mod 12 in if h =? 0 then 12 else h.

Definition clock (d : datetime) : string :=
  pad2 (hour d) ++ ":" ++ pad2 (minute d) ++ ":" ++ pad2 (second d).

Definition directive (d : datetime) (c : ascii) : string :=
  match c with
  | "a"%char => abbrev (day_name d)
  | "A"%char => day_name d
  | "b"%char => abbrev (month_name d)
  | "B"%char => month_name d
  | "c"%char => abbrev (day_name d) ++ " " ++ abbrev (month_name d) ++ " "
                ++ space2 (day d) ++ " " ++ clock d ++ " " ++ pad4 (year d)
  | "d"%char => pad2 (day d)
  | "f"%char => pad6 (microsecond d)
  | "H"%char => pad2 (hour d)
  | "I"%char => pad2 (hour12 d)
  | "m"%char => pad2 (month d)
  | "M"%char => pad2 (minute d)
  | "p"%char => if hour d <? 12 then "AM" else "PM"
  | "S"%char => pad2 (second d)
  | "X"%char => clock d
  | "y"%char => pad2 (year d mod 100)
  | "Y"%char => pad4 (year d)
  | _ => String "%"%char (String c EmptyString)
  end.

Fixpoint expand (d : datetime) (form : string) : string :=
  match form with
  | EmptyString => EmptyString
  | String "%"%char (String c rest) => directive d c ++ expand d rest
  | String a rest => String a (expand d rest)
  end.

(** Python 2 refuses to format a year before 1900. *)
Definition strftime (d : datetime) (form : string) : pyexn + string :=
  if year d <? 1900 then inl ValueError else inr (expand d form).

End Strftime.

(** ** [class DateString] *)

Module DateString.

Local Open Scope string_scope.
Local Open Scope Z_scope.

(** The test of line 383: the element names whose leading zeros go. *)
Definition strips_leading_zero (p : string) : bool :=
  Str.endswith "Short" p && negb (String.eqb p "YearShort").

(** Lines 385-388: [lstrip('0')] on the space-delimited fields; on all but
    the last one for [DateTimeShort]. *)
Definition strip_fields (p tmp : string) : string :=
  let parts := Str.split " "%char tmp in
  if String.eqb p "DateTimeShort" then
    Str.join " " (map (Str.lstrip "0"%char) (removelast parts)
                  ++ [last parts ""])%list
  else
    Str.join " " (map (Str.lstrip "0"%char) parts).

(** The body of the loop of [DateString.apply] for one element [p]. *)
Definition render_token (date : datetime) (p : string) : pyexn + string :=
  if Str.mem p (Str.keys DATE_STRING_FORMATS) then
    tmp <- Strftime.strftime date (DateFormat.format_of p) ;;
    if strips_leading_zero p then inr (strip_fields p tmp) else inr tmp
  else inr p.

(** The loop of [DateString.apply] and the final [''.join(datestrs)]. *)
Fixpoint render (date : datetime) (pyform : list string) : pyexn + string :=
  match pyform with
  | [] => inr ""
  | p :: rest =>
      tmp <- render_token date p ;;
      tail <- render date rest ;;
      inr (tmp ++ tail)
  end.

(** [map(lambda x: x.strip(...), pyform)]: only a string has [strip]. *)
Fixpoint strip_all (pyform : list pyval) : pyexn + list string :=
  match pyform with
  | [] => inr []
  | VStr s :: rest => l <- strip_all rest ;; inr (Str.unquote s :: l)
  | _ :: _ => inl AttributeError
  end.

Section WithHost.

Variable H : Host.

(** [DateString.apply(epochtime, form, evaluation)].  After [strip_all]
    every element is a string, so the [fmt] message is never issued. *)
Definition apply (epochtime form : pyval) : run pyval :=
  match DateFormat.to_datelist H "DateString" epochtime with
  | (msgs, Return datelist) =>
      match (date <- Date.init H datelist None None ;;
             pyform <- strip_all (match form with VList l => l | v => [v] end) ;;
             render date pyform) with
      | inl e => (msgs, Raise e)
      | inr s => (msgs, Return (VStr s))
      end
  | (msgs, ReturnNone) => (msgs, ReturnNone)
  | (msgs, Raise e) => (msgs, Raise e)
  end.

End WithHost.

End DateString.

(** ** [class AbsoluteTime] *)

Module AbsoluteTime.

Definition epoch : datetime := mkdatetime 1900 1 1 0 0 0 0.

(** Lines 442-447: from the resolved [datelist] to the result. *)
Definition of_datelist (H : Host) (datelist : list pyval) : pyexn + pyval :=
  date <- Date.init H datelist None None ;;
  let tdelta := diff date epoch in
  if td_microseconds tdelta =? 0
  then inr (VI (PyNum.int (total_seconds tdelta)))
  else inr (VNum (total_seconds tdelta)).

(** [AbsoluteTime.apply_spec(epochtime, evaluation)] *)
Definition apply_spec (H : Host) (epochtime : pyval) : run pyval :=
  match DateFormat.to_datelist H "AbsoluteTime" epochtime with
  | (msgs, Return datelist) =>
      match of_datelist H datelist with
      | inl e => (msgs, Raise e)
      | inr v => (msgs, Return v)
      end
  | (msgs, ReturnNone) => (msgs, ReturnNone)
  | (msgs, Raise e) => (msgs, Raise e)
  end.

End AbsoluteTime.

(** ** [class DatePlus] *)

Module DatePlus.

Local Open Scope string_scope.
Local Open Scope Z_scope.

(** The shape of the result, from the shape of [date]. *)
Inductive date_prec : Type :=
| PrecList (n : nat)
| PrecAbsolute
| PrecString.

(** [[x[0], x[1].strip(...)]] for one item [x] of the offsets. *)
Definition strip_pair (x : pyval) : pyexn + (pyval * string) :=
  match x with
  | VList (a :: VStr u :: _) => inr (a, Str.unquote u)
  | VList (_ :: _ :: _) => inl AttributeError
  | VList _ => inl IndexError
  | VStr (String c0 (String c1 _)) =>
      inr (VStr (String c0 EmptyString), Str.unquote (String c1 EmptyString))
  | VStr _ => inl IndexError
  | _ => inl TypeError
  end.

Fixpoint strip_pairs (l : list pyval) : pyexn + list (pyval * string) :=
  match l with
  | [] => inr []
  | x :: rest => o <- strip_pair x ;; os <- strip_pairs rest ;; inr (o :: os)
  end.

(** [map(lambda x: [x[0], x[1].strip(...)], pyoff)]: over the items of a
    list, or the characters of a string. *)
Definition strip_offsets (pyoff : pyval) : pyexn + list (pyval * string) :=
  match pyoff with
  | VList l => strip_pairs l
  | VStr s =>
      strip_pairs (map (fun c => VStr (String c EmptyString)) (list_ascii_of_string s))
  | _ => inl TypeError
  end.

(** The offsets as lines 606-609 normalise them. *)
Definition normalise (pyoff : pyval) : pyval :=
  match pyoff with
  | VNum _ => VList [VList [pyoff; VStr (Str.quoted "Day")]]
  | VList [_; VStr _] => VList [pyoff]
  | _ => pyoff
  end.

(** The test of line 614 on one item. *)
Definition increment_ok (o : pyval * string) : bool :=
  Str.mem (snd o) (Str.keys TIME_INCREMENTS)
  && match fst o with VNum _ => true | _ => false end.

(** [[o[0] * TIME_INCREMENTS[o[1]][i] for i in range(6)]] *)
Definition timevec (o : pyval * string) : list pynum :=
  match fst o, Str.lookup (snd o) TIME_INCREMENTS with
  | VNum n, Some unit => map (fun k => mul n (PInt k)) unit
  | _, _ => []
  end.

(** The loop of lines 615-616. *)
Fixpoint add_all (idate : datetime) (offs : list (pyval * string))
  : pyexn + datetime :=
  match offs with
  | [] => inr idate
  | o :: rest => d <- Date.addself idate (timevec o) ;; add_all d rest
  end.

Section WithHost.

Variable H : Host.

(** Lines 590-602. *)
Definition process_date (pydate : pyval) : option (date_prec * (pyexn + datetime)) :=
  match pydate with
  | VList l => Some (PrecList (List.length l), Date.init H l None None)
  | VNum x => Some (PrecAbsolute, Date.init H [] (Some x) None)
  | VStr s => Some (PrecString, Date.init H [] None (Some (Str.unquote s)))
  | _ => None
  end.

(** [DatePlus.apply(date, off, evaluation)] on [date.to_python()] and
    [off.to_python()]. *)
Definition apply (pydate pyoff : pyval) : run pyval :=
  match process_date pydate with
  | None => ([Msg "DatePlus" "date" [pydate]], ReturnNone)
  | Some (_, inl e) => ([], Raise e)
  | Some (prec, inr idate) =>
      match strip_offsets (normalise pyoff) with
      | inl e => ([], Raise e)
      | inr offs =>
          if forallb increment_ok offs then
            match add_all idate offs with
            | inl e => ([], Raise e)
            | inr idate =>
                match prec with
                | PrecList n => ([], Return (VList (firstn n (Date.to_list idate))))
                | PrecAbsolute =>
                    ([], Return (VExpr "AbsoluteTime" [VList (Date.to_list idate)]))
                | PrecString =>
                    ([], Return (VExpr "DateString" [VList (Date.to_list idate)]))
                end
            end
          else ([Msg "DatePlus" "inc" [pyoff]], ReturnNone)
      end
  end.

End WithHost.

End DatePlus.

(** ** [class DateDifference] *)

Module DateDifference.

Local Open Scope string_scope.
Local Open Scope Z_scope.

(** [intdiv(a, b)]: exact integer division where possible. *)
Definition intdiv (a : pynum) (b : Z) : pynum :=
  if PyNum.eqb (modulo a (PInt b)) (PInt 0)
  then div a (PInt b)
  else div a (PyNum.float (PInt b)).

(** Lines 711-732: the result for one unit. *)
Definition convert (tdelta : timedelta) (unit : string) : pyexn + pyval :=
  let seconds := if td_microseconds tdelta =? 0
                 then PInt (PyNum.int (total_seconds tdelta))
                 else total_seconds tdelta in
  if String.eqb unit "Year" then
    inr (VList [VNum (intdiv seconds (365*24*60*60)); VStr "Year"])
  else if String.eqb unit "Quarter" then
    inr (VList [VNum (intdiv seconds (365*6*60*60)); VStr "Quarter"])
  else if String.eqb unit "Month" then
    inr (VList [VNum (intdiv seconds (365*2*60*60)); VStr "Month"])
  else if String.eqb unit "Week" then
    inr (VList [VNum (intdiv seconds (7*24*60*60)); VStr "Week"])
  else if String.eqb unit "Day" then
    inr (VNum (intdiv seconds (24*60*60)))
  else if String.eqb unit "Hour" then
    inr (VList [VNum (intdiv seconds (60*60)); VStr "Hour"])
  else if String.eqb unit "Minute" then
    (* [intdiv(secods, 60)]: the name [secods] is bound nowhere *)
    inl NameError
  else if String.eqb unit "Second" then
    inr (VList [VNum seconds; VStr "Second"])
  else
    (* no [if] assigned [result] *)
    inl UnboundLocalError.

(** Lines 694-698: a string becomes a one-item list; for a list, line 697
    evaluates [isinstance(p, unicode)] with [p] bound nowhere; anything else
    is left as it is and line 700 cannot iterate over it. *)
Definition process_units (pyunits : pyval) : pyexn + list string :=
  match pyunits with
  | VStr s => inr [Str.unquote s]
  | VList _ => inl NameError
  | _ => inl TypeError
  end.

Section WithHost.

Variable H : Host.

(** Lines 667-675: [None] stands for the [date] message. *)
Definition initial_date (pydate1 pydate2 : pyval) : option (pyexn + datetime) :=
  match pydate1 with
  | VList l => Some (Date.init H l None None)
  | VNum x => Some (Date.init H [] (Some x) None)
  | VStr _ =>
      (* [_Date(datestr = pydate2.strip(...))] *)
      match pydate2 with
      | VStr s2 => Some (Date.init H [] None (Some (Str.unquote s2)))
      | _ => Some (inl AttributeError)
      end
  | _ => None
  end.

(** Lines 677-685. *)
Definition final_date (pydate1 pydate2 : pyval) : option (pyexn + datetime) :=
  match pydate2 with
  | VList l => Some (Date.init H l None None)
  | VNum x => Some (Date.init H [] (Some x) None)
  | _ =>
      if is_str pydate1 then
        match pydate2 with
        | VStr s2 => Some (Date.init H [] None (Some (Str.unquote s2)))
        | _ => Some (inl AttributeError)
        end
      else None
  end.

(** [DateDifference.apply(date1, date2, units, evaluation)] on the
    [to_python()] of its arguments. *)
Definition apply (pydate1 pydate2 pyunits : pyval) : run pyval :=
  match initial_date pydate1 pydate2 with
  | None => ([Msg "DateDifference" "date" [pydate1]], ReturnNone)
  | Some (inl e) => ([], Raise e)
  | Some (inr idate) =>
      match final_date pydate1 pydate2 with
      | None => ([Msg "DateDifference" "date" [pydate2]], ReturnNone)
      | Some (inl e) => ([], Raise e)
      | Some (inr fdate) =>
          let tdelta := diff fdate idate in
          match process_units pyunits with
          | inl e => ([], Raise e)
          | inr units =>
              let msgs :=
                if forallb (fun p => Str.mem p (Str.keys TIME_INCREMENTS)) units
                then []
                else [Msg "DateDifference" "inc" [pyunits]] in
              match units with
              | [unit] =>
                  match convert tdelta unit with
                  | inl e => (msgs, Raise e)
                  | inr v => (msgs, Return v)
                  end
              | _ => (msgs, ReturnNone)
              end
          end
      end
  end.

End WithHost.

End DateDifference.

(** ** Hosts for examples *)

Module ExampleHost.

Local Open Scope string_scope.
Local Open Scope Z_scope.

(** Nothing parses and [gmtime] always fails. *)
Definition silent_host : Host :=
  mkHost (fun _ => None) (fun _ => None) (fun _ _ => None) 1970.

Definition digit_value (c : ascii) : option Z :=
  let n := Z.of_nat (nat_of_ascii c) in
  if (48 <=? n) && (n <=? 57) then Some (n - 48) else None.

Fixpoint number (l : list ascii) (acc : Z) : option Z :=
  match l with
  | [] => Some acc
  | c :: l' =>
      match digit_value c with
      | Some v => number l' (10 * acc + v)
      | None => None
      end
  end.

(** A parser that reads [YYYY-MM-DD] and nothing else. *)
Definition iso_date (s : string) : option datetime :=
  match list_ascii_of_string s with
  | [y1; y2; y3; y4; "-"%char; m1; m2; "-"%char; d1; d2] =>
      match number [y1; y2; y3; y4] 0, number [m1; m2] 0, number [d1; d2] 0 with
      | Some y, Some m, Some d =>
          match datetime_new y m d 0 0 0 0 with
          | inr r => Some r
          | inl _ => None
          end
      | _, _, _ => None
      end
  | _ => None
  end.

(** Seconds from 0001-01-01 to 1970-01-01. *)
Definition UNIX_EPOCH_SECONDS : Z := 62135596800.

(** [time.gmtime] within years 1..9999; the C conversion of a float to
    [time_t] truncates. *)
Definition posix_gmtime (x : pynum) : option (Z * Z * Z * Z * Z * Z) :=
  let t := (PyNum.int x + UNIX_EPOCH_SECONDS) * US_PER_SECOND in
  if (0 <=? t) && (t <? US_END) then
    let r := of_us t in
    Some (year r, month r, day r, hour r, minute r, second r)
  else None.

Definition iso_host : Host :=
  mkHost posix_gmtime iso_date (fun _ _ => None) 2012.

End ExampleHost.
Export ExampleHost.

(** ** Notions used in the statements *)

Section Notions.

Local Open Scope string_scope.
Local Open Scope Z_scope.

(** A bounded universal check, to settle finite case analyses by evaluation. *)
Fixpoint check_below (f : Z -> bool) (n : nat) : bool :=
  match n with
  | O => true
  | S k => f (Z.of_nat k) && check_below f k
  end.

(** What [month_day] owes for the [n]-th day of a year: a month, a day of
    that month, and as many days before them as [n]. *)
Definition month_day_ok (leap : bool) (n : Z) : bool :=
  let '(m, d) := month_day leap n in
  (1 <=? m) && (m <=? 12) && (1 <=? d)
  && (d <=? match m with
            | 2 => if leap then 29 else 28
            | 4 | 6 | 9 | 11 => 30
            | _ => 31
            end)
  && (DAYS_BEFORE_MONTH m + (if (2 <? m) && leap then 1 else 0) + d =? n + 1).

(** The relative error of a double: 2^-53. *)
Definition EPS : Q := 1 # 9007199254740992.

(** The exact elapsed time, in microseconds, of
    [timedelta(days=d, hours=h, minutes=mi, seconds=s)]. *)
Definition exact_us (d h mi s : pynum) : Q :=
  (to_Q d * inject_Z US_PER_DAY + to_Q h * inject_Z US_PER_HOUR
   + to_Q mi * inject_Z US_PER_MINUTE + to_Q s * inject_Z US_PER_SECOND)%Q.

(** The numbers of [[1900, 1, 1, 0, 0, 0.]]. *)
Definition default_numbers : list pynum :=
  [PInt 1900; PInt 1; PInt 1; PInt 0; PInt 0; PFloat 0].

(** A list of numbers padded on the right with the defaults. *)
Definition padded (nums : list pynum) : list pynum :=
  (nums ++ skipn (List.length nums) default_numbers)%list.

(** The microseconds that [__init__] keeps of a second [s] that is not
    negative: [int(1e6 * (s % 1.))], the product being a float product. *)
Definition kept_us (s : Q) : Z :=
  Qtrunc (double (inject_Z 1000000 * (s - inject_Z (Qfloor s)))).

(** Whole seconds from 1900-01-01T00:00:00 to the start of the second of
    the fields. *)
Definition seconds_since_1900 (y m d h mi sec : Z) : Z :=
  (ymd2ord y m d - ymd2ord 1900 1 1) * 86400 + h * 3600 + mi * 60 + sec.

(** Offsets given as a list of [{amount, "unit"}] pairs. *)
Definition offsets_of (pairs : list (pyval * string)) : pyval :=
  VList (map (fun p => VList [fst p; VStr (snd p)]) pairs).







(** [l] comes before [l'] in the lexicographic order. *)
Fixpoint lex_lt (l l' : list Z) : Prop :=
  match l, l' with
  | x :: r, y :: r' => x < y \/ (x = y /\ lex_lt r r')
  | _, _ => False
  end.

(** The date [a] precedes the date [b], field by field. *)
Definition precedes (a b : datetime) : Prop :=
  lex_lt [year a; month a; day a; hour a; minute a; second a; microsecond a]
         [year b; month b; day b; hour b; minute b; second b; microsecond b].

(** The microseconds of an integer elapsed-time increment. *)
Definition elapsed_us (dd dh dmi ds : Z) : Z :=
  dd * US_PER_DAY + dh * US_PER_HOUR + dmi * US_PER_MINUTE + ds * US_PER_SECOND.

(** What [to_datelist] answers to a list that is no date: the [str] message
    for two items, the [arg] message otherwise, and no value. *)
Definition rejected (name : string) (l : list pyval) : run (list pyval) :=
  match l with
  | [e0; e1] => ([Msg name "str" [e0; e1]], ReturnNone)
  | _ => ([Msg name "arg" [VList l]], ReturnNone)
  end.

(** A host for examples whose [strptime] reads "5/18" with the form
    "%m/%d" and nothing else, in the year 2012. *)
Definition month_day_host : Host :=
  mkHost (fun _ => None) (fun _ => None)
    (fun text form =>
       if String.eqb text "5/18" && String.eqb form "%m/%d"
       then Some (mkdatetime 1900 5 18 0 0 0 0) else None)
    2012.

End Notions.

(** * Properties *)

(** ** Doubles *)

Section Binary64Facts.

Local Open Scope Q_scope.

Lemma round_half_even_near m :
  Qabs (inject_Z (round_half_even m) - m) <= 1 # 2.
Proof.
  unfold round_half_even.
  pose proof (Qfloor_le m) as Hlo. pose proof (Qlt_floor m) as Hhi.
  rewrite inject_Z_plus in Hhi.
  apply Qabs_Qle_condition.
  destruct (Qcompare_spec (m - inject_Z (Qfloor m)) (1 # 2)) as [E|E|E].
  - destruct (Z.even (Qfloor m)); [|rewrite inject_Z_plus];
      set (f := inject_Z (Qfloor m)) in *; clearbody f;
      change (inject_Z 1) with 1 in *; split; lra.
  - set (f := inject_Z (Qfloor m)) in *; clearbody f; split; lra.
  - rewrite inject_Z_plus. set (f := inject_Z (Qfloor m)) in *; clearbody f.
    change (inject_Z 1) with 1 in *; split; lra.
Qed.

Lemma round_half_even_Z n : round_half_even (inject_Z n) = n.
Proof.
  unfold round_half_even. rewrite Qfloor_Z.
  destruct (Qcompare_spec (inject_Z n - inject_Z n) (1 # 2)) as [E|E|E].
  - exfalso. lra.
  - reflexivity.
  - exfalso. lra.
Qed.

Lemma round_half_even_comp m m' : m == m' -> round_half_even m = round_half_even m'.
Proof.
  intros E. unfold round_half_even. rewrite (Qfloor_comp _ _ E).
  assert (E' : m - inject_Z (Qfloor m') == m' - inject_Z (Qfloor m'))
    by (rewrite E; reflexivity).
  rewrite (Qcompare_comp _ _ E' (1#2) (1#2) (Qeq_refl _)). reflexivity.
Qed.

Lemma pow2_pos e : 0 < 2 ^ e.
Proof. apply Qpower_0_lt. reflexivity. Qed.

Lemma pow2_add a b : 2 ^ (a + b) == 2 ^ a * 2 ^ b.
Proof. apply Qpower_plus. discriminate. Qed.

Lemma pow2_cancel e : 2 ^ (- e) * 2 ^ e == 1.
Proof. rewrite <- pow2_add. replace (- e + e)%Z with 0%Z by lia. reflexivity. Qed.

Lemma pow2_le a b : (a <= b)%Z -> 2 ^ a <= 2 ^ b.
Proof. intros H. apply Qpower_le_compat_l; [exact H|discriminate]. Qed.

Lemma pow2_Z n : (0 <= n)%Z -> 2 ^ n == inject_Z (2 ^ n).
Proof. intros H. symmetry. exact (Zpower_Qpower 2 n H). Qed.

(** [ilog2] is no more than the logarithm. *)
Lemma ilog2_le q : ~ q == 0 -> 2 ^ ilog2 q <= Qabs q.
Proof.
  intros Hq. unfold ilog2.
  set (k := (Z.log2 (Z.abs (Qnum q)) - Z.log2 (Z.pos (Qden q)))%Z).
  destruct (Qle_bool (2 ^ k) (Qabs q)) eqn:E; [apply Qle_bool_iff; exact E|].
  destruct q as [a b]. unfold Qabs. cbn [Qnum Qden] in k.
  assert (Ha : (0 < Z.abs a)%Z).
  { destruct (Z.eq_dec a 0) as [->|]; [exfalso; apply Hq; reflexivity|lia]. }
  destruct (Z.log2_spec _ Ha) as [Hla _].
  destruct (Z.log2_spec (Z.pos b) eq_refl) as [_ Hlb].
  pose proof (Z.log2_nonneg (Z.abs a)) as Hna.
  pose proof (Z.log2_nonneg (Z.pos b)) as Hnb.
  set (la := Z.log2 (Z.abs a)) in *. set (lb := Z.log2 (Z.pos b)) in *.
  assert (E1 : 2 ^ (k - 1) == 2 ^ la * / 2 ^ (lb + 1)).
  { replace (k - 1)%Z with (la + - (lb + 1))%Z by (unfold k; lia).
    rewrite pow2_add, Qpower_opp. reflexivity. }
  rewrite E1. rewrite !pow2_Z by lia.
  assert (Hb1 : (Z.pos b <= 2 ^ (lb + 1))%Z) by (unfold Z.succ in Hlb; lia).
  assert (Hp : (0 < 2 ^ (lb + 1))%Z) by (apply Z.pow_pos_nonneg; lia).
  unfold Qle, Qmult, Qinv, inject_Z. cbn [Qnum Qden].
  destruct (2 ^ (lb + 1))%Z as [|p|p] eqn:Ep; try lia.
  cbn [Qnum Qden]. rewrite !Z.mul_1_r.
  change (Z.pos (1 * p)) with (Z.pos p). nia.
Qed.

Lemma double_comp q q' : q == q' -> double q = double q'.
Proof. intros E. unfold double. rewrite (Qred_complete _ _ E). reflexivity. Qed.

Lemma double_0 : double 0 = 0.
Proof. reflexivity. Qed.

(** What [double] is, up to [==]. *)
Lemma double_eq q :
  ~ q == 0 ->
  double q == inject_Z (round_half_even (q * 2 ^ (- ulp_exponent (Qred q))))
              * 2 ^ ulp_exponent (Qred q).
Proof.
  intros Hq. unfold double.
  destruct (Qeq_bool (Qred q) 0) eqn:E.
  - exfalso. apply Hq. apply Qeq_bool_iff in E. rewrite <- E. symmetry.
    apply Qred_correct.
  - etransitivity; [apply Qred_correct|].
    rewrite (round_half_even_comp (Qred q * 2 ^ (- ulp_exponent (Qred q)))
               (q * 2 ^ (- ulp_exponent (Qred q)))).
    + reflexivity.
    + apply Qmult_comp; [apply Qred_correct|reflexivity].
Qed.

(** A double is within half a unit in the last place. *)
Lemma double_half_ulp q :
  Qabs (double q - q) <= (1 # 2) * 2 ^ ulp_exponent (Qred q).
Proof.
  destruct (Qeq_dec q 0) as [E|Hq].
  - rewrite (double_comp _ _ E), double_0.
    assert (E0 : Qabs (0 - q) == 0) by (rewrite E; reflexivity).
    rewrite E0. pose proof (pow2_pos (ulp_exponent (Qred q))). lra.
  - rewrite (double_eq q Hq).
    set (e := ulp_exponent (Qred q)).
    set (m := q * 2 ^ (- e)).
    assert (Em : q == m * 2 ^ e).
    { unfold m. rewrite <- Qmult_assoc, pow2_cancel. ring. }
    assert (E1 : inject_Z (round_half_even m) * 2 ^ e - q
                 == (inject_Z (round_half_even m) - m) * 2 ^ e).
    { rewrite Em at 1. ring. }
    rewrite E1, Qabs_Qmult.
    rewrite (Qabs_pos (2 ^ e)) by (apply Qlt_le_weak, pow2_pos).
    apply Qmult_le_compat_r; [apply round_half_even_near|].
    apply Qlt_le_weak, pow2_pos.
Qed.

(** The relative error of a double is at most 2^-53; [b] bounds the
    magnitude of [q] and is not below the least normal double. *)
Lemma double_near b q :
  2 ^ (-1022) <= b -> Qabs q <= b ->
  Qabs (double q - q) <= b * (1 # 9007199254740992).
Proof.
  intros Hb Hq.
  pose proof (pow2_pos (-1022)) as Hp.
  destruct (Qeq_dec q 0) as [E|Hn].
  - rewrite (double_comp _ _ E), double_0.
    assert (E0 : Qabs (0 - q) == 0) by (rewrite E; reflexivity).
    rewrite E0. lra.
  - eapply Qle_trans; [apply double_half_ulp|].
    assert (He : 2 ^ ulp_exponent (Qred q) <= b * 2 ^ (-52)).
    { unfold ulp_exponent.
      destruct (Z.max_spec (ilog2 (Qred q) - 52) (-1074)) as [[_ ->]|[_ ->]].
      - change (-1074)%Z with (-1022 + -52)%Z. rewrite pow2_add.
        apply Qmult_le_compat_r; [exact Hb|apply Qlt_le_weak, pow2_pos].
      - replace (ilog2 (Qred q) - 52)%Z with (ilog2 (Qred q) + -52)%Z by lia.
        rewrite pow2_add.
        apply Qmult_le_compat_r; [|apply Qlt_le_weak, pow2_pos].
        eapply Qle_trans; [apply ilog2_le|].
        + intros E. apply Hn. rewrite <- E. symmetry. apply Qred_correct.
        + assert (Ea : Qabs (Qred q) == Qabs q) by (rewrite Qred_correct; reflexivity).
          rewrite Ea. exact Hq. }
    change (1 # 9007199254740992) with ((1 # 2) * 2 ^ (-52)).
    set (u := 2 ^ ulp_exponent (Qred q)) in *. set (v := 2 ^ (-52)) in *.
    clearbody u v. lra.
Qed.

(** An integer below 2^53 in magnitude is a double. *)
Lemma double_Z n :
  (Z.abs n < 2 ^ 53)%Z -> double (inject_Z n) == inject_Z n.
Proof.
  intros Hn.
  destruct (Z.eq_dec n 0) as [->|Hz]; [reflexivity|].
  assert (Hq : ~ inject_Z n == 0).
  { intros E. apply Hz. unfold Qeq in E. cbn in E. lia. }
  rewrite (double_eq _ Hq).
  set (e := ulp_exponent (Qred (inject_Z n))).
  assert (He : (e <= 0)%Z).
  { unfold e, ulp_exponent.
    assert (Hk : (ilog2 (Qred (inject_Z n)) < 53)%Z).
    { destruct (Z_lt_le_dec (ilog2 (Qred (inject_Z n))) 53) as [|Hge]; [assumption|].
      exfalso.
      assert (Hr : ~ Qred (inject_Z n) == 0)
        by (intros E; apply Hq; rewrite <- E; symmetry; apply Qred_correct).
      pose proof (ilog2_le _ Hr) as Hl.
      assert (Ea : Qabs (Qred (inject_Z n)) == inject_Z (Z.abs n)).
      { rewrite Qred_correct. reflexivity. }
      rewrite Ea in Hl.
      pose proof (pow2_le 53 _ Hge) as H53.
      rewrite (pow2_Z 53) in H53 by lia.
      assert (Hc : inject_Z (2 ^ 53) <= inject_Z (Z.abs n)) by (eapply Qle_trans; eassumption).
      rewrite <- Zle_Qle in Hc. lia. }
    lia. }
  assert (Em : inject_Z n * 2 ^ (- e) == inject_Z (n * 2 ^ (- e))).
  { rewrite inject_Z_mult, (pow2_Z (- e)) by lia. reflexivity. }
  rewrite (round_half_even_comp _ _ Em), round_half_even_Z.
  rewrite inject_Z_mult, <- (pow2_Z (- e)) by lia.
  rewrite <- Qmult_assoc, pow2_cancel. ring.
Qed.

(** Rounding keeps the sign. *)
Lemma double_nonneg q : 0 <= q -> 0 <= double q.
Proof.
  intros Hq. destruct (Qeq_dec q 0) as [E|Hn].
  - rewrite (double_comp _ _ E). discriminate.
  - rewrite (double_eq _ Hn).
    set (e := ulp_exponent (Qred q)).
    apply Qmult_le_0_compat; [|apply Qlt_le_weak, pow2_pos].
    change 0 with (inject_Z 0). rewrite <- Zle_Qle.
    assert (Hm : 0 <= q * 2 ^ (- e))
      by (apply Qmult_le_0_compat; [exact Hq|apply Qlt_le_weak, pow2_pos]).
    unfold round_half_even.
    assert (Hf : (0 <= Qfloor (q * 2 ^ (- e)))%Z).
    { change 0%Z with (Qfloor 0). apply Qfloor_resp_le. exact Hm. }
    destruct (Qcompare _ _); [destruct (Z.even _)| |]; lia.
Qed.

Lemma double_nonpos q : q <= 0 -> double q <= 0.
Proof.
  intros Hq. destruct (Qeq_dec q 0) as [E|Hn].
  - rewrite (double_comp _ _ E). discriminate.
  - rewrite (double_eq _ Hn).
    set (e := ulp_exponent (Qred q)).
    pose proof (pow2_pos e) as He. pose proof (pow2_pos (- e)) as He'.
    set (m := q * 2 ^ (- e)).
    assert (Hm : m <= 0).
    { unfold m. set (p := 2 ^ (- e)) in *. clearbody p. nra. }
    assert (Hr : (round_half_even m <= 0)%Z).
    { pose proof (round_half_even_near m) as Hnear.
      apply Qabs_Qle_condition in Hnear. destruct Hnear as [_ Hup].
      destruct (Z_le_gt_dec (round_half_even m) 0) as [|Hgt]; [assumption|exfalso].
      assert (H1 : inject_Z 1 <= inject_Z (round_half_even m))
        by (rewrite <- Zle_Qle; lia).
      change (inject_Z 1) with 1 in H1.
      (* 1 <= r <= m + 1/2 <= 1/2 *)
      set (r := inject_Z (round_half_even m)) in *. clearbody r. lra. }
    rewrite Zle_Qle in Hr. change (inject_Z 0) with 0 in Hr.
    set (r := inject_Z (round_half_even m)) in *. clearbody r.
    set (p := 2 ^ e) in *. clearbody p. nra.
Qed.

(** A double of a number that is not tiny has its sign. *)
Lemma double_negative q : q <= - (1 # 1000000) -> double q < 0.
Proof.
  intros Hq.
  assert (Ha : Qabs q == - q) by (apply Qabs_neg; lra).
  assert (Hb : 2 ^ (-1022) <= Qabs q).
  { rewrite Ha. apply Qle_trans with (1 # 1000000); [|lra].
    apply Qle_trans with (2 ^ (-20)); [apply pow2_le; lia|].
    vm_compute. discriminate. }
  pose proof (double_near (Qabs q) q Hb (Qle_refl _)) as Hn.
  apply Qabs_Qle_condition in Hn. rewrite Ha in Hn.
  set (r := double q) in *. clearbody r. lra.
Qed.

End Binary64Facts.

(** ** The calendar *)

Section CalendarFacts.

Lemma days_before_year_cycles n400 n100 n4 n1 :
  0 <= n100 <= 3 -> 0 <= n4 <= 24 -> 0 <= n1 <= 3 ->
  days_before_year (n400 * 400 + 1 + n100 * 100 + n4 * 4 + n1)
  = n400 * DI400Y + n100 * DI100Y + n4 * DI4Y + n1 * 365.
Proof.
  intros H100 H4 H1. unfold days_before_year, DI400Y, DI100Y, DI4Y. cbv zeta.
  Z.div_mod_to_equations. lia.
Qed.

Lemma check_below_sound f n :
  check_below f n = true -> forall z, 0 <= z < Z.of_nat n -> f z = true.
Proof.
  induction n as [|k IH]; intros Hc z Hz.
  - simpl in Hz. lia.
  - simpl in Hc. apply andb_true_iff in Hc as [Hk Hrest].
    destruct (Z.eq_dec z (Z.of_nat k)) as [->|Hne]; [exact Hk|].
    apply IH; [exact Hrest|lia].
Qed.

Lemma month_day_ok_common n : 0 <= n < 365 -> month_day_ok false n = true.
Proof. apply (check_below_sound (month_day_ok false) 365). vm_compute. reflexivity. Qed.

Lemma month_day_ok_leap n : 0 <= n < 366 -> month_day_ok true n = true.
Proof. apply (check_below_sound (month_day_ok true) 366). vm_compute. reflexivity. Qed.

Lemma is_leap_cycles n400 n100 n4 n1 :
  0 <= n100 <= 3 -> 0 <= n4 <= 24 -> 0 <= n1 <= 3 ->
  is_leap (n400 * 400 + 1 + n100 * 100 + n4 * 4 + n1)
  = (n1 =? 3) && (negb (n4 =? 24) || (n100 =? 3)).
Proof.
  intros H100 H4 H1. unfold is_leap.
  repeat match goal with
         | |- context [?a =? ?b] => destruct (Z.eqb_spec a b)
         end; simpl; try reflexivity; exfalso;
    Z.div_mod_to_equations; lia.
Qed.

Lemma days_in_month_leap y m :
  days_in_month y m
  = match m with
    | 2 => if is_leap y then 29 else 28
    | 4 | 6 | 9 | 11 => 30
    | 1 | 3 | 5 | 7 | 8 | 10 | 12 => 31
    | _ => 0
    end.
Proof.
  unfold days_in_month. destruct m; reflexivity.
Qed.

Lemma ord2ymd_correct ord :
  1 <= ord <= MAXORDINAL ->
  let '(y, m, d) := ord2ymd ord in
  valid_ymd y m d = true /\ ymd2ord y m d = ord.
Proof.
  intros Hord. unfold ord2ymd, MAXORDINAL in *. cbv zeta.
  set (n := ord - 1).
  set (n400 := n / DI400Y). set (r1 := n mod DI400Y).
  set (n100 := r1 / DI100Y). set (r2 := r1 mod DI100Y).
  set (n4 := r2 / DI4Y). set (r3 := r2 mod DI4Y).
  set (n1 := r3 / 365). set (r4 := r3 mod 365).
  assert (Hn : n = n400 * DI400Y + r1 /\ 0 <= r1 < DI400Y)
    by (subst n400 r1; unfold DI400Y; Z.div_mod_to_equations; lia).
  assert (Hr1 : r1 = n100 * DI100Y + r2 /\ 0 <= r2 < DI100Y)
    by (subst n100 r2; unfold DI100Y; Z.div_mod_to_equations; lia).
  assert (Hr2 : r2 = n4 * DI4Y + r3 /\ 0 <= r3 < DI4Y)
    by (subst n4 r3; unfold DI4Y; Z.div_mod_to_equations; lia).
  assert (Hr3 : r3 = n1 * 365 + r4 /\ 0 <= r4 < 365)
    by (subst n1 r4; Z.div_mod_to_equations; lia).
  clearbody n400 r1 n100 r2 n4 r3 n1 r4.
  assert (Hn' : 0 <= n <= 3652058 /\ ord = n + 1) by (subst n; lia). clearbody n.
  unfold DI400Y, DI100Y, DI4Y in *.
  assert (B400 : 0 <= n400 <= 24) by lia.
  assert (B100 : 0 <= n100 <= 4) by lia.
  assert (B4 : 0 <= n4 <= 24) by lia.
  assert (B1 : 0 <= n1 <= 4) by lia.
  destruct (Z.eqb_spec n1 4) as [E1|E1]; simpl orb.
  - (* last day of a 4-year cycle *)
    assert (r4 = 0) by lia. assert (n100 <= 3) by lia.
    replace (n400 * 400 + 1 + n100 * 100 + n4 * 4 + n1 - 1)
      with (n400 * 400 + 1 + n100 * 100 + n4 * 4 + 3) by lia.
    unfold valid_ymd, ymd2ord, days_before_month, days_in_month.
    rewrite (is_leap_cycles n400 n100 n4 3) by lia.
    rewrite (days_before_year_cycles n400 n100 n4 3) by lia.
    unfold MINYEAR, MAXYEAR, DI400Y, DI100Y, DI4Y. simpl.
    destruct (Z.eqb_spec n4 24) as [E4|E4]; destruct (Z.eqb_spec n100 3) as [E100|E100];
      simpl; split; try lia;
      repeat (apply andb_true_iff; split); try apply Z.leb_le; lia.
  - destruct (Z.eqb_spec n100 4) as [E100|E100].
    + (* last day of a 400-year cycle *)
      assert (r2 = 0) by lia. assert (n4 = 0 /\ n1 = 0 /\ r4 = 0) as (-> & -> & ->) by lia.
      subst n100.
      replace (n400 * 400 + 1 + 4 * 100 + 0 * 4 + 0 - 1)
        with (n400 * 400 + 1 + 3 * 100 + 24 * 4 + 3) by lia.
      unfold valid_ymd, ymd2ord, days_before_month, days_in_month.
      rewrite (is_leap_cycles n400 3 24 3) by lia.
      rewrite (days_before_year_cycles n400 3 24 3) by lia.
      unfold MINYEAR, MAXYEAR, DI400Y, DI100Y, DI4Y. simpl.
      split; [|lia].
      repeat (apply andb_true_iff; split); try apply Z.leb_le; lia.
    + set (leap := (n1 =? 3) && (negb (n4 =? 24) || (n100 =? 3))).
      assert (Hleap : is_leap (n400 * 400 + 1 + n100 * 100 + n4 * 4 + n1) = leap)
        by (apply is_leap_cycles; lia).
      assert (Hdby := days_before_year_cycles n400 n100 n4 n1
                        ltac:(lia) ltac:(lia) ltac:(lia)).
      unfold DI400Y, DI100Y, DI4Y in Hdby.
      assert (Hmd : month_day_ok leap r4 = true).
      { destruct leap; [apply month_day_ok_leap | apply month_day_ok_common]; lia. }
      unfold month_day_ok in Hmd.
      destruct (month_day leap r4) as [m d].
      repeat (apply andb_true_iff in Hmd; destruct Hmd as [Hmd ?]).
      unfold valid_ymd, ymd2ord, days_before_month.
      rewrite days_in_month_leap, Hleap, Hdby.
      unfold MINYEAR, MAXYEAR.
      split; [|lia].
      repeat (apply andb_true_iff; split); try (apply Z.leb_le; lia).
      apply Z.leb_le. apply Z.leb_le in H0.
      assert (Hm : 1 <= m <= 12) by lia.
      destruct m as [|p|p]; try lia.
      do 4 (try destruct p as [p|p|]); try lia.
Qed.

End CalendarFacts.

(** ** Instants *)

Section DatetimeFacts.

Lemma days_before_year_succ y :
  days_before_year (y + 1) = days_before_year y + (if is_leap y then 366 else 365).
Proof.
  unfold days_before_year, is_leap. cbv zeta.
  replace (y + 1 - 1) with (y - 1 + 1) by lia.
  repeat match goal with
         | |- context [?a =? ?b] => destruct (Z.eqb_spec a b)
         end; simpl; Z.div_mod_to_equations; lia.
Qed.

Lemma days_before_year_mono a b : a <= b -> days_before_year a <= days_before_year b.
Proof.
  intros Hab. unfold days_before_year. cbv zeta. Z.div_mod_to_equations. lia.
Qed.

Lemma valid_ymd_bounds y m d :
  valid_ymd y m d = true ->
  1 <= y <= 9999 /\ 1 <= m <= 12 /\ 1 <= d <= days_in_month y m.
Proof.
  unfold valid_ymd, MINYEAR, MAXYEAR. intros Hv.
  repeat (apply andb_true_iff in Hv; destruct Hv as [Hv ?]).
  repeat match goal with H : (_ <=? _) = true |- _ => apply Z.leb_le in H end.
  lia.
Qed.

Lemma month_span y m :
  1 <= m <= 12 ->
  0 <= days_before_month y m /\
  days_before_month y m + days_in_month y m <= (if is_leap y then 366 else 365).
Proof.
  intros Hm. unfold days_before_month, days_in_month.
  assert (m = 1 \/ m = 2 \/ m = 3 \/ m = 4 \/ m = 5 \/ m = 6 \/ m = 7 \/ m = 8
          \/ m = 9 \/ m = 10 \/ m = 11 \/ m = 12) as Hcase by lia.
  repeat (destruct Hcase as [->|Hcase]); try subst m;
    destruct (is_leap y); simpl; lia.
Qed.

Lemma ymd2ord_bounds y m d :
  valid_ymd y m d = true -> 1 <= ymd2ord y m d <= MAXORDINAL.
Proof.
  intros Hv. apply valid_ymd_bounds in Hv as (Hy & Hm & Hd).
  pose proof (month_span y m Hm) as [Hlo Hhi].
  pose proof (days_before_year_succ y) as Hs.
  pose proof (days_before_year_mono 1 y ltac:(lia)) as H1.
  pose proof (days_before_year_mono (y + 1) 10000 ltac:(lia)) as H2.
  change (days_before_year 1) with 0 in H1.
  change (days_before_year 10000) with 3652059 in H2.
  unfold ymd2ord, MAXORDINAL. destruct (is_leap y); lia.
Qed.

Lemma valid_fields d :
  valid d = true ->
  valid_ymd (year d) (month d) (day d) = true /\
  0 <= hour d < 24 /\ 0 <= minute d < 60 /\ 0 <= second d < 60 /\
  0 <= microsecond d < 1000000.
Proof.
  unfold valid. generalize (valid_ymd (year d) (month d) (day d)) as b.
  intros b Hv.
  repeat (apply andb_true_iff in Hv; destruct Hv as [Hv ?]).
  repeat match goal with
         | H : (_ <=? _) = true |- _ => apply Z.leb_le in H
         | H : (_ <? _) = true |- _ => apply Z.ltb_lt in H
         end.
  repeat split; assumption.
Qed.

Lemma valid_intro y m d h mi s us :
  valid_ymd y m d = true ->
  0 <= h < 24 -> 0 <= mi < 60 -> 0 <= s < 60 -> 0 <= us < 1000000 ->
  valid (mkdatetime y m d h mi s us) = true.
Proof.
  intros Hymd Hh Hmi Hs Hus. unfold valid. simpl. rewrite Hymd. simpl.
  repeat (apply andb_true_iff; split);
    solve [apply Z.leb_le; lia | apply Z.ltb_lt; lia].
Qed.

Lemma to_us_bounds d : valid d = true -> 0 <= to_us d < US_END.
Proof.
  intros Hv. apply valid_fields in Hv as (Hymd & Hh & Hmi & Hs & Hus).
  apply ymd2ord_bounds in Hymd.
  unfold to_us, US_END, MAXORDINAL, US_PER_DAY, US_PER_HOUR, US_PER_MINUTE,
    US_PER_SECOND in *. lia.
Qed.

(** Every instant of years 1..9999 is a calendar-valid [datetime] ... *)
Lemma of_us_valid t : 0 <= t < US_END -> valid (of_us t) = true.
Proof.
  intros Ht. unfold of_us.
  assert (Hord : 1 <= t / US_PER_DAY + 1 <= MAXORDINAL).
  { unfold US_END, MAXORDINAL, US_PER_DAY, US_PER_SECOND in *.
    Z.div_mod_to_equations. lia. }
  pose proof (ord2ymd_correct _ Hord) as Hc.
  destruct (ord2ymd (t / US_PER_DAY + 1)) as [[y m] d].
  destruct Hc as [Hv _].
  apply valid_intro; [exact Hv| | | |];
    unfold US_PER_DAY, US_PER_HOUR, US_PER_MINUTE, US_PER_SECOND;
    Z.div_mod_to_equations; lia.
Qed.

(** ... that lies [t] microseconds after the start of year 1. *)
Lemma to_us_of_us t : 0 <= t < US_END -> to_us (of_us t) = t.
Proof.
  intros Ht. unfold of_us.
  assert (Hord : 1 <= t / US_PER_DAY + 1 <= MAXORDINAL).
  { unfold US_END, MAXORDINAL, US_PER_DAY, US_PER_SECOND in *.
    Z.div_mod_to_equations. lia. }
  pose proof (ord2ymd_correct _ Hord) as Hc.
  destruct (ord2ymd (t / US_PER_DAY + 1)) as [[y m] d].
  destruct Hc as [_ Ho].
  unfold to_us. simpl. rewrite Ho.
  unfold US_PER_DAY, US_PER_HOUR, US_PER_MINUTE, US_PER_SECOND.
  Z.div_mod_to_equations. lia.
Qed.

Lemma add_delta_ok d t d' :
  add_delta d t = inr d' -> valid d' = true /\ to_us d' = to_us d + t.
Proof.
  unfold add_delta. cbv zeta.
  destruct ((0 <=? to_us d + t) && (to_us d + t <? US_END)) eqn:Hr; [|discriminate].
  intros [= <-]. apply andb_true_iff in Hr as [Hlo Hhi].
  apply Z.leb_le in Hlo. apply Z.ltb_lt in Hhi.
  split; [apply of_us_valid | apply to_us_of_us]; lia.
Qed.

Lemma add_delta_in_range d t :
  0 <= to_us d + t < US_END -> add_delta d t = inr (of_us (to_us d + t)).
Proof.
  intros [Hlo Hhi]. unfold add_delta. cbv zeta.
  apply Z.leb_le in Hlo. apply Z.ltb_lt in Hhi. rewrite Hlo, Hhi. reflexivity.
Qed.

(** *** The order of dates is the order of instants *)

Lemma year_span y m d :
  valid_ymd y m d = true ->
  days_before_year y < ymd2ord y m d <= days_before_year (y + 1).
Proof.
  intros Hv. apply valid_ymd_bounds in Hv as (Hy & Hm & Hd).
  pose proof (month_span y m Hm) as [Hlo Hhi].
  rewrite days_before_year_succ. unfold ymd2ord. destruct (is_leap y); lia.
Qed.

Lemma month_order y m m' :
  1 <= m -> m < m' -> m' <= 12 ->
  days_before_month y m + days_in_month y m <= days_before_month y m'.
Proof.
  intros H1 Hlt H12. unfold days_before_month, days_in_month.
  assert (m = 1 \/ m = 2 \/ m = 3 \/ m = 4 \/ m = 5 \/ m = 6 \/ m = 7 \/ m = 8
          \/ m = 9 \/ m = 10 \/ m = 11) as Hm by lia.
  assert (m' = 2 \/ m' = 3 \/ m' = 4 \/ m' = 5 \/ m' = 6 \/ m' = 7 \/ m' = 8
          \/ m' = 9 \/ m' = 10 \/ m' = 11 \/ m' = 12) as Hm' by lia.
  repeat (destruct Hm as [->|Hm]); try subst m;
    repeat (destruct Hm' as [->|Hm']); try subst m';
    try lia; destruct (is_leap y); simpl; lia.
Qed.

Lemma ymd2ord_lt y m d y' m' d' :
  valid_ymd y m d = true -> valid_ymd y' m' d' = true ->
  lex_lt [y; m; d] [y'; m'; d'] -> ymd2ord y m d < ymd2ord y' m' d'.
Proof.
  intros Hv Hv' Hlex.
  pose proof (year_span _ _ _ Hv) as Hs. pose proof (year_span _ _ _ Hv') as Hs'.
  apply valid_ymd_bounds in Hv as (Hy & Hm & Hd).
  apply valid_ymd_bounds in Hv' as (Hy' & Hm' & Hd').
  cbn [lex_lt] in Hlex.
  destruct Hlex as [Hlt|[<- [Hlt|[<- [Hlt|[_ []]]]]]].
  - pose proof (days_before_year_mono (y + 1) y' ltac:(lia)). lia.
  - pose proof (month_order y m m' ltac:(lia) Hlt ltac:(lia)).
    unfold ymd2ord. lia.
  - unfold ymd2ord. lia.
Qed.

Lemma lex_lt_trichotomy l l' :
  List.length l = List.length l' -> lex_lt l l' \/ l = l' \/ lex_lt l' l.
Proof.
  revert l'. induction l as [|x l IH]; intros [|y l'] Hlen; try discriminate.
  - right. left. reflexivity.
  - cbn [lex_lt]. injection Hlen as Hlen.
    destruct (Z.lt_trichotomy x y) as [Hlt|[->|Hgt]]; [tauto| |tauto].
    destruct (IH l' Hlen) as [Hl|[->|Hr]]; [left|right; left|right; right]; tauto.
Qed.

Lemma precedes_to_us a b :
  valid a = true -> valid b = true -> precedes a b -> to_us a < to_us b.
Proof.
  intros Ha Hb Hp.
  apply valid_fields in Ha as (Hymd & Hh & Hmi & Hs & Hus).
  apply valid_fields in Hb as (Hymd' & Hh' & Hmi' & Hs' & Hus').
  pose proof (ymd2ord_lt _ _ _ _ _ _ Hymd Hymd') as Hord.
  unfold precedes in Hp. cbn [lex_lt] in Hp, Hord.
  unfold to_us, US_PER_DAY, US_PER_HOUR, US_PER_MINUTE, US_PER_SECOND.
  destruct Hp as [Hlt|[Ey [Hlt|[Em [Hlt|[Ed Hrest]]]]]];
    try (assert (ymd2ord (year a) (month a) (day a)
                 < ymd2ord (year b) (month b) (day b)) by (apply Hord; tauto);
         lia).
  rewrite Ey, Em, Ed. lia.
Qed.

(** A date precedes another one exactly when its instant comes first. *)
Lemma precedes_iff a b :
  valid a = true -> valid b = true -> (precedes a b <-> to_us a < to_us b).
Proof.
  intros Ha Hb. split; [apply precedes_to_us; assumption|].
  intros Hlt.
  destruct (lex_lt_trichotomy
              [year a; month a; day a; hour a; minute a; second a; microsecond a]
              [year b; month b; day b; hour b; minute b; second b; microsecond b]
              eq_refl) as [Hp|[He|Hp]].
  - exact Hp.
  - exfalso. injection He as Ey Em Ed Eh Emi Es Eus.
    unfold to_us in Hlt. rewrite Ey, Em, Ed, Eh, Emi, Es, Eus in Hlt. lia.
  - exfalso. pose proof (precedes_to_us b a Hb Ha Hp). lia.
Qed.

(** The instant determines the date. *)
Lemma to_us_inj a b :
  valid a = true -> valid b = true -> to_us a = to_us b -> a = b.
Proof.
  intros Ha Hb He.
  destruct (lex_lt_trichotomy
              [year a; month a; day a; hour a; minute a; second a; microsecond a]
              [year b; month b; day b; hour b; minute b; second b; microsecond b]
              eq_refl) as [Hp|[Hl|Hp]].
  - pose proof (precedes_to_us a b Ha Hb Hp). lia.
  - destruct a, b. cbn in Hl. injection Hl as -> -> -> -> -> -> ->. reflexivity.
  - pose proof (precedes_to_us b a Hb Ha Hp). lia.
Qed.

(** Adding no time to a valid date gives it back. *)
Lemma of_us_to_us d : valid d = true -> of_us (to_us d) = d.
Proof.
  intros Hd. pose proof (to_us_bounds d Hd) as Hb.
  apply to_us_inj; [apply of_us_valid; exact Hb | exact Hd
                   | apply to_us_of_us; exact Hb].
Qed.

End DatetimeFacts.

(** ** Python numbers *)

Section PyNumFacts.

Lemma eqb_int a b : PyNum.eqb (PInt a) (PInt b) = (a =? b).
Proof.
  unfold PyNum.eqb. simpl.
  destruct (Z.eqb_spec a b) as [->|Hne].
  - apply Qeq_bool_refl.
  - destruct (Qeq_bool (inject_Z a) (inject_Z b)) eqn:E; [|reflexivity].
    apply Qeq_bool_eq in E. apply (proj1 (inject_Z_injective a b)) in E. congruence.
Qed.

Lemma Qtrunc_comp q r : (q == r)%Q -> Qtrunc q = Qtrunc r.
Proof.
  intros E. unfold Qtrunc.
  rewrite (Qleb_comp 0%Q 0%Q (Qeq_refl 0%Q) q r E), (Qfloor_comp q r E),
    (Qceiling_comp q r E).
  reflexivity.
Qed.

Lemma Qtrunc_Z n : Qtrunc (inject_Z n) = n.
Proof.
  unfold Qtrunc. destruct (Qle_bool 0 (inject_Z n));
    [apply Qfloor_Z | apply Qceiling_Z].
Qed.

Lemma Qtrunc_nonneg q : (0 <= q)%Q -> Qtrunc q = Qfloor q.
Proof.
  intros Hq. unfold Qtrunc. apply Qle_bool_iff in Hq. rewrite Hq. reflexivity.
Qed.

(** [modf]: the fraction is less than 1 in magnitude. *)
Lemma Qtrunc_frac q : (Qabs (q - inject_Z (Qtrunc q)) <= 1)%Q.
Proof.
  unfold Qtrunc. apply Qabs_Qle_condition.
  destruct (Qle_bool 0 q).
  - pose proof (Qfloor_le q) as Hle. pose proof (Qlt_floor q) as Hlt.
    rewrite inject_Z_plus in Hlt. change (inject_Z 1) with 1%Q in Hlt.
    set (z := inject_Z (Qfloor q)) in *. clearbody z. split; lra.
  - pose proof (Qle_ceiling q) as Hle. pose proof (Qceiling_lt q) as Hlt.
    unfold Z.sub in Hlt. rewrite inject_Z_plus in Hlt.
    change (inject_Z (- (1))) with (- (1))%Q in Hlt.
    set (z := inject_Z (Qceiling q)) in *. clearbody z. split; lra.
Qed.

(** The integer between [lo] and [hi] that a rational in their range
    truncates to. *)
Lemma Qfloor_range s lo hi :
  (inject_Z lo <= s)%Q -> (s < inject_Z hi)%Q -> lo <= Qfloor s < hi.
Proof.
  intros Hlo Hhi. split.
  - rewrite <- (Qfloor_Z lo). apply Qfloor_resp_le. exact Hlo.
  - rewrite Zlt_Qlt. apply Qle_lt_trans with s; [apply Qfloor_le|exact Hhi].
Qed.

Lemma Qfloor_unique s n :
  (inject_Z n <= s)%Q -> (s < inject_Z n + 1)%Q -> Qfloor s = n.
Proof.
  intros Hlo Hhi.
  assert (H : n <= Qfloor s < n + 1).
  { apply Qfloor_range; [exact Hlo|]. rewrite inject_Z_plus. exact Hhi. }
  lia.
Qed.

(** The error of a double, for a number of magnitude at most [b >= 1]. *)
Lemma double_within b q :
  (1 <= b)%Q -> (Qabs q <= b)%Q ->
  (q - b * EPS <= double q)%Q /\ (double q <= q + b * EPS)%Q.
Proof.
  intros Hb Hq.
  assert (Hp : (2 ^ (-1022) <= b)%Q).
  { eapply Qle_trans; [|exact Hb]. apply (pow2_le (-1022) 0). lia. }
  pose proof (double_near b q Hp Hq) as Hn.
  apply Qabs_Qle_condition in Hn. fold EPS in Hn.
  set (e := (b * EPS)%Q) in *. set (r := double q) in *. clearbody e r.
  destruct Hn. split; lra.
Qed.

Lemma double_1 : double (inject_Z 1) = 1%Q.
Proof. vm_compute. reflexivity. Qed.

Lemma as_double_int n :
  Z.abs n < 2 ^ 53 -> (as_double (PInt n) == inject_Z n)%Q.
Proof. intros Hn. cbn [as_double]. apply double_Z. exact Hn. Qed.

(** [round_to_long] is within half a microsecond, up to the rounding of
    its float addition. *)
Lemma round_to_long_near b x :
  (1 <= b)%Q -> (Qabs x + (1 # 2) <= b)%Q ->
  (Qabs (inject_Z (round_to_long x) - x) <= (1 # 2) + b * EPS)%Q.
Proof.
  intros Hb Hx. unfold round_to_long.
  assert (Hx' : (- b + (1 # 2) <= x)%Q /\ (x <= b - (1 # 2))%Q).
  { assert (Ha : (Qabs x <= b - (1 # 2))%Q) by lra.
    apply Qabs_Qle_condition in Ha. destruct Ha. split; lra. }
  destruct Hx' as [Hx1 Hx2].
  apply Qabs_Qle_condition.
  destruct (Qle_bool 0 x) eqn:E.
  - apply Qle_bool_iff in E.
    assert (Hy : (Qabs (x + (1 # 2)) <= b)%Q)
      by (apply Qabs_Qle_condition; split; lra).
    destruct (double_within b _ Hb Hy) as [Hd1 Hd2].
    pose proof (Qfloor_le (double (x + (1 # 2)))) as Hle.
    pose proof (Qlt_floor (double (x + (1 # 2)))) as Hlt.
    rewrite inject_Z_plus in Hlt. change (inject_Z 1) with 1%Q in Hlt.
    set (y := double (x + (1 # 2))) in *.
    set (z := inject_Z (Qfloor y)) in *. set (e := (b * EPS)%Q) in *.
    clearbody y z e. split; lra.
  - assert (Hy : (Qabs (x - (1 # 2)) <= b)%Q)
      by (apply Qabs_Qle_condition; split; lra).
    destruct (double_within b _ Hb Hy) as [Hd1 Hd2].
    pose proof (Qle_ceiling (double (x - (1 # 2)))) as Hle.
    pose proof (Qceiling_lt (double (x - (1 # 2)))) as Hlt.
    unfold Z.sub in Hlt. rewrite inject_Z_plus in Hlt.
    change (inject_Z (- (1))) with (- (1))%Q in Hlt.
    set (y := double (x - (1 # 2))) in *.
    set (z := inject_Z (Qceiling y)) in *. set (e := (b * EPS)%Q) in *.
    clearbody y z e. split; lra.
Qed.

Lemma accum_int st n f : accum st (PInt n) f = (fst st + n * f, snd st).
Proof. destruct st. reflexivity. Qed.

(** One step of [accum]: the whole microseconds and the left-over
    fraction together are the exact sum so far, up to the rounding of the
    float product and of the float addition. *)
Lemma accum_near sofar lo x f L :
  1 <= f ->
  (Qabs lo <= L)%Q -> (0 <= L)%Q -> (L <= 4)%Q ->
  (Qabs (inject_Z (fst (accum (sofar, lo) x f)) + snd (accum (sofar, lo) x f)
         - (inject_Z sofar + lo + to_Q x * inject_Z f))
   <= (inject_Z f + 5) * EPS)%Q
  /\ (Qabs (snd (accum (sofar, lo) x f)) <= L + 1 + (1 # 1000))%Q.
Proof.
  intros Hf Hlo HL0 HL4.
  assert (HF : (1 <= inject_Z f)%Q)
    by (change 1%Q with (inject_Z 1); rewrite <- Zle_Qle; exact Hf).
  assert (HE : (0 < EPS)%Q) by reflexivity.
  destruct x as [n|q].
  - rewrite accum_int. cbn [fst snd to_Q]. split.
    + rewrite inject_Z_plus, inject_Z_mult.
      setoid_replace (inject_Z sofar + inject_Z n * inject_Z f + lo
                      - (inject_Z sofar + lo + inject_Z n * inject_Z f))%Q
        with 0%Q by ring.
      cbn [Qabs Z.abs]. set (F := inject_Z f) in *. clearbody F. nra.
    + lra.
  - cbn [accum to_Q].
    set (ip := Qtrunc q).
    set (fr := (q - inject_Z ip)%Q).
    pose proof (Qtrunc_frac q) as Hfr. fold ip in Hfr. fold fr in Hfr.
    destruct (Qeq_bool fr 0) eqn:E0.
    + apply Qeq_bool_iff in E0. cbn [fst snd]. split; [|lra].
      rewrite inject_Z_plus, inject_Z_mult.
      assert (Eq : (q == inject_Z ip)%Q) by (unfold fr in E0; lra).
      setoid_replace (inject_Z sofar + inject_Z ip * inject_Z f + lo
                      - (inject_Z sofar + lo + q * inject_Z f))%Q
        with ((inject_Z ip - q) * inject_Z f)%Q by ring.
      setoid_replace (inject_Z ip - q)%Q with 0%Q by lra.
      setoid_replace (0 * inject_Z f)%Q with 0%Q by ring.
      cbn [Qabs Z.abs]. set (F := inject_Z f) in *. clearbody F. nra.
    + cbn [fst snd].
      set (dnum := double (inject_Z f * fr)).
      set (ip2 := Qtrunc dnum).
      set (fr2 := (dnum - inject_Z ip2)%Q).
      pose proof (Qtrunc_frac dnum) as Hfr2. fold ip2 in Hfr2. fold fr2 in Hfr2.
      assert (Hprod : (Qabs (inject_Z f * fr) <= inject_Z f)%Q).
      { rewrite Qabs_Qmult, (Qabs_pos (inject_Z f)) by lra.
        set (a := Qabs fr) in *. set (F := inject_Z f) in *. clearbody a F. nra. }
      destruct (double_within (inject_Z f) _ HF Hprod) as [Hd1 Hd2].
      fold dnum in Hd1, Hd2.
      apply Qabs_Qle_condition in Hlo. apply Qabs_Qle_condition in Hfr2.
      assert (Hsum : (Qabs (lo + fr2) <= L + 1)%Q)
        by (apply Qabs_Qle_condition; split; lra).
      assert (HL1 : (1 <= L + 1)%Q) by lra.
      destruct (double_within (L + 1) _ HL1 Hsum) as [Hl1 Hl2].
      set (lo' := double (lo + fr2)) in *.
      assert (Edn : (dnum == inject_Z ip2 + fr2)%Q) by (unfold fr2; ring).
      assert (Eq : (q == inject_Z ip + fr)%Q) by (unfold fr; ring).
      rewrite !inject_Z_plus, inject_Z_mult.
      set (S0 := inject_Z sofar). set (IP := inject_Z ip) in *.
      set (IP2 := inject_Z ip2) in *. set (F := inject_Z f) in *.
      set (P := (F * fr)%Q) in *.
      assert (EP : (q * F == IP * F + P)%Q) by (unfold P; rewrite Eq; ring).
      set (QF := (q * F)%Q) in *. set (IF := (IP * F)%Q) in *.
      set (LE := ((L + 1) * EPS)%Q) in *. set (FE := (F * EPS)%Q) in *.
      assert (HLE : (LE <= 5 * EPS)%Q) by (unfold LE; nra).
      assert (HLE2 : (5 * EPS <= 1 # 1000)%Q) by (vm_compute; discriminate).
      assert (EFE : ((F + 5) * EPS == FE + 5 * EPS)%Q) by (unfold FE; ring).
      rewrite EFE.
      clearbody lo' dnum fr2 IP2 QF IF P LE FE S0.
      split; apply Qabs_Qle_condition; split; lra.
Qed.

Lemma delta_us_int d h mi s :
  delta_us (PInt d) (PInt h) (PInt mi) (PInt s)
  = d * US_PER_DAY + h * US_PER_HOUR + mi * US_PER_MINUTE + s * US_PER_SECOND.
Proof.
  unfold delta_us. rewrite !accum_int. cbn [fst snd].
  change (Qeq_bool 0 0) with true. cbv iota. lia.
Qed.

(** A [timedelta] is the exact elapsed time of its arguments to the nearest
    microsecond, up to the rounding of the float arithmetic that computes
    it. *)
Lemma delta_us_near d h mi s :
  (Qabs (inject_Z (delta_us d h mi s) - exact_us d h mi s)
   <= (1 # 2) + (1 # 50000))%Q.
Proof.
  unfold delta_us, exact_us.
  destruct (accum_near 0 0 s US_PER_SECOND 0) as [E1 B1];
    [unfold US_PER_SECOND; lia|cbn; lra|lra|lra|].
  destruct (accum (0, 0%Q) s US_PER_SECOND) as [x1 l1]. cbn [fst snd] in E1, B1.
  destruct (accum_near x1 l1 mi US_PER_MINUTE (0 + 1 + (1 # 1000))) as [E2 B2];
    [unfold US_PER_MINUTE, US_PER_SECOND; lia|exact B1|lra|lra|].
  destruct (accum (x1, l1) mi US_PER_MINUTE) as [x2 l2]. cbn [fst snd] in E2, B2.
  destruct (accum_near x2 l2 h US_PER_HOUR (0 + 1 + (1 # 1000) + 1 + (1 # 1000)))
    as [E3 B3];
    [unfold US_PER_HOUR, US_PER_SECOND; lia|exact B2|lra|lra|].
  destruct (accum (x2, l2) h US_PER_HOUR) as [x3 l3]. cbn [fst snd] in E3, B3.
  destruct (accum_near x3 l3 d US_PER_DAY
              (0 + 1 + (1 # 1000) + 1 + (1 # 1000) + 1 + (1 # 1000)))
    as [E4 B4];
    [unfold US_PER_DAY, US_PER_SECOND; lia|exact B3|lra|lra|].
  destruct (accum (x3, l3) d US_PER_DAY) as [x4 l4]. cbn [fst snd] in E4, B4.
  assert (Hr : (Qabs (inject_Z (if Qeq_bool l4 0 then x4 else x4 + round_to_long l4)
                      - (inject_Z x4 + l4)) <= (1 # 2) + 5 * EPS)%Q).
  { destruct (Qeq_bool l4 0) eqn:E0.
    - apply Qeq_bool_iff in E0.
      setoid_replace (inject_Z x4 - (inject_Z x4 + l4))%Q with 0%Q by lra.
      vm_compute. discriminate.
    - rewrite inject_Z_plus.
      setoid_replace (inject_Z x4 + inject_Z (round_to_long l4) - (inject_Z x4 + l4))%Q
        with (inject_Z (round_to_long l4) - l4)%Q by ring.
      apply round_to_long_near; lra. }
  change (inject_Z 0) with 0%Q in E1.
  apply Qabs_Qle_condition in E1, E2, E3, E4, Hr.
  change (inject_Z US_PER_SECOND) with 1000000%Q in *.
  change (inject_Z US_PER_MINUTE) with 60000000%Q in *.
  change (inject_Z US_PER_HOUR) with 3600000000%Q in *.
  change (inject_Z US_PER_DAY) with 86400000000%Q in *.
  unfold EPS in *.
  set (R := inject_Z (if Qeq_bool l4 0 then x4 else x4 + round_to_long l4)) in *.
  set (X1 := inject_Z x1) in *. set (X2 := inject_Z x2) in *.
  set (X3 := inject_Z x3) in *. set (X4 := inject_Z x4) in *.
  set (qs := (to_Q s * 1000000)%Q) in *. set (qm := (to_Q mi * 60000000)%Q) in *.
  set (qh := (to_Q h * 3600000000)%Q) in *. set (qd := (to_Q d * 86400000000)%Q) in *.
  clearbody R X1 X2 X3 X4 qs qm qh qd.
  apply Qabs_Qle_condition. split; lra.
Qed.

End PyNumFacts.

(** ** [_Date.addself]: the calendar-field phase *)

Section AddselfFacts.

(** The fields of a valid date fit a C int. *)
Lemma valid_fits y m d h mi s us :
  valid (mkdatetime y m d h mi s us) = true ->
  forallb fits_int [y; m; d; h; mi; s; us] = true.
Proof.
  intros Hv. apply valid_fields in Hv as (Hymd & Hh & Hmi & Hs & Hus).
  cbn [year month day hour minute second microsecond] in *.
  apply valid_ymd_bounds in Hymd as (Hy & Hm & Hd).
  assert (Hd' : days_in_month y m <= 31).
  { unfold days_in_month. destruct m as [|p|p]; try lia.
    do 4 (try destruct p as [p|p|]; try (destruct (is_leap y); lia); try lia). }
  unfold fits_int, INT_MIN, INT_MAX. cbn [forallb].
  repeat (apply andb_true_iff; split); try reflexivity;
    solve [apply Z.leb_le; lia].
Qed.

Lemma datetime_new_inr y m d h mi s us r :
  datetime_new y m d h mi s us = inr r ->
  r = mkdatetime y m d h mi s us /\ valid r = true.
Proof.
  unfold datetime_new. cbv zeta.
  destruct (forallb fits_int _); [|discriminate].
  destruct (valid (mkdatetime y m d h mi s us)) eqn:Hv; [|discriminate].
  intros [= <-]. split; [reflexivity|exact Hv].
Qed.

Lemma datetime_new_valid y m d h mi s us :
  valid (mkdatetime y m d h mi s us) = true ->
  datetime_new y m d h mi s us = inr (mkdatetime y m d h mi s us).
Proof.
  intros Hv. unfold datetime_new. cbv zeta.
  rewrite (valid_fits _ _ _ _ _ _ _ Hv), Hv. reflexivity.
Qed.

(** [datetime(...)] on fields of which all but the year are those of a
    date: [OverflowError] for a year that does not fit a C int, before
    [ValueError] for what is no date. *)
Lemma datetime_new_invalid y m d h mi s us :
  forallb fits_int [m; d; h; mi; s; us] = true ->
  valid (mkdatetime y m d h mi s us) = false ->
  datetime_new y m d h mi s us
  = inl (if fits_int y then ValueError else OverflowError).
Proof.
  intros Hf Hv. unfold datetime_new. cbv zeta.
  change (forallb fits_int [y; m; d; h; mi; s; us])
    with (fits_int y && forallb fits_int [m; d; h; mi; s; us]).
  rewrite Hf, Hv, andb_true_r. destruct (fits_int y); reflexivity.
Qed.

(** On integers the carry of lines 538-542 is the floor and the remainder of
    the months counted from 0. *)
Lemma addself_carry_int d dy dmo :
  Date.addself_carry d (PInt dy) (PInt dmo)
  = (PInt (year d + dy + (month d - 1 + dmo) / 12),
     PInt ((month d - 1 + dmo) mod 12 + 1)).
Proof.
  unfold Date.addself_carry. cbn [add div modulo PyNum.int sub to_Q].
  rewrite eqb_int.
  destruct (Z.eqb_spec ((month d + dmo) mod 12) 0) as [E|E];
    f_equal; f_equal; Z.div_mod_to_equations; lia.
Qed.

(** On integers the calendar-field phase is the one call of line 543. *)
Lemma addself_fields_int_eq d dy dmo :
  Date.addself_fields d (PInt dy) (PInt dmo)
  = datetime_new (year d + dy + (month d - 1 + dmo) / 12)
      ((month d - 1 + dmo) mod 12 + 1)
      (day d) (hour d) (minute d) (second d) 0.
Proof.
  unfold Date.addself_fields. rewrite addself_carry_int.
  cbv beta iota zeta. unfold Date.int_num, datetime_new. cbv zeta.
  cbn [forallb].
  destruct (fits_int (year d + dy + (month d - 1 + dmo) / 12)) eqn:E1;
    cbn [bind andb]; [|reflexivity].
  destruct (fits_int ((month d - 1 + dmo) mod 12 + 1)) eqn:E2;
    cbn [bind andb]; rewrite ?E1, ?E2; reflexivity.
Qed.

(** A float as the year increment never gets through line 543: the year
    that [datetime(...)] receives is a float. *)
Lemma addself_fields_float_year d q t1 :
  Date.addself_fields d (PFloat q) t1 = inl TypeError.
Proof.
  unfold Date.addself_fields, Date.addself_carry.
  destruct t1 as [dmo|q1]; cbn [add div modulo PyNum.int sub];
    destruct (PyNum.eqb _ _); reflexivity.
Qed.

(** Nor does a float as the month increment: the month is a float, and the
    year, an integer, is looked at first. *)
Lemma addself_fields_float_month d dy q :
  Date.addself_fields d (PInt dy) (PFloat q) = inl TypeError
  \/ Date.addself_fields d (PInt dy) (PFloat q) = inl OverflowError.
Proof.
  unfold Date.addself_fields, Date.addself_carry.
  cbn [add div modulo PyNum.int sub].
  destruct (PyNum.eqb _ _); cbn [Date.int_num];
    destruct (fits_int _); cbn [bind]; tauto.
Qed.

(** A float in the year or month increment never gets through line 543. *)
Lemma addself_fields_int d t0 t1 d' :
  Date.addself_fields d t0 t1 = inr d' ->
  exists dy dmo, t0 = PInt dy /\ t1 = PInt dmo.
Proof.
  destruct t0 as [dy|q0].
  - destruct t1 as [dmo|q1].
    + intros _. exists dy, dmo. split; reflexivity.
    + destruct (addself_fields_float_month d dy q1) as [-> | ->]; discriminate.
  - rewrite addself_fields_float_year. discriminate.
Qed.

(** What the calendar-field phase produces, when it produces a date. *)
Lemma addself_fields_inr d t0 t1 d' :
  Date.addself_fields d t0 t1 = inr d' ->
  exists dy dmo,
    t0 = PInt dy /\ t1 = PInt dmo
    /\ d' = mkdatetime (year d + dy + (month d - 1 + dmo) / 12)
              ((month d - 1 + dmo) mod 12 + 1)
              (day d) (hour d) (minute d) (second d) 0
    /\ valid d' = true.
Proof.
  intros Hf.
  destruct (addself_fields_int _ _ _ _ Hf) as (dy & dmo & -> & ->).
  exists dy, dmo. split; [reflexivity|]. split; [reflexivity|].
  rewrite addself_fields_int_eq in Hf.
  apply datetime_new_inr in Hf. exact Hf.
Qed.

(** C5: the calendar-field phase of [addself] keeps the day, the hour, the
    minute and the whole second of the date, and sets its microsecond, the
    sub-second fraction, to 0: line 543 passes no microsecond to
    [datetime(...)]. *)
Theorem C5_addself_fields_drop_microsecond :
  forall d t0 t1 d',
    Date.addself_fields d t0 t1 = inr d' ->
    day d' = day d /\ hour d' = hour d /\ minute d' = minute d
    /\ second d' = second d /\ microsecond d' = 0.
Proof.
  intros d t0 t1 d' Hf.
  destruct (addself_fields_inr _ _ _ _ Hf) as (dy & dmo & _ & _ & -> & _).
  cbn. repeat split; reflexivity.
Qed.

Lemma C5_addself_fields_drop_microsecond_witness :
  Date.addself_fields (mkdatetime 2010 2 5 0 0 0 500000) (PInt 0) (PInt 0)
  = inr (mkdatetime 2010 2 5 0 0 0 0)
  /\ microsecond (mkdatetime 2010 2 5 0 0 0 0) = 0.
Proof.
  split; [reflexivity|].
  exact (proj2 (proj2 (proj2 (proj2
           (C5_addself_fields_drop_microsecond
              (mkdatetime 2010 2 5 0 0 0 500000) (PInt 0) (PInt 0)
              (mkdatetime 2010 2 5 0 0 0 0) eq_refl))))).
Defined.

(** Half a second is lost by adding one day:
    [DatePlus[{2010, 2, 5, 0, 0, 0.5}, 1]]. *)
Example DatePlus_loses_half_second :
  forall H,
    DatePlus.apply H
      (VList [VI 2010; VI 2; VI 5; VI 0; VI 0; VF (1 # 2)]) (VI 1)
    = ([], Return (VList [VI 2010; VI 2; VI 6; VI 0; VI 0;
                          VF (Date.float_second (mkdatetime 2010 2 6 0 0 0 0))])).
Proof. intros H. vm_compute. reflexivity. Qed.

End AddselfFacts.

(** ** [_Date.addself]: success and failure *)

Section AddselfOutcome.

Local Open Scope string_scope.
Local Open Scope Z_scope.

Lemma timedelta_new_inr d h mi s t :
  timedelta_new d h mi s = inr t -> t = delta_us d h mi s.
Proof.
  unfold timedelta_new. cbv zeta.
  destruct (_ && _); [|discriminate]. intros [= <-]. reflexivity.
Qed.

Lemma timedelta_new_cases d h mi s :
  timedelta_new d h mi s = inr (delta_us d h mi s)
  \/ (timedelta_new d h mi s = inl OverflowError
      /\ (delta_us d h mi s < - US_END \/ US_END < delta_us d h mi s)).
Proof.
  unfold timedelta_new. cbv zeta.
  destruct (Z.leb_spec (- MAX_DELTA_DAYS) (td_days (delta_us d h mi s))) as [Hlo|Hlo];
    destruct (Z.leb_spec (td_days (delta_us d h mi s)) MAX_DELTA_DAYS) as [Hhi|Hhi];
    cbn [andb]; [left; reflexivity | right | right | right];
    (split; [reflexivity|]);
    unfold td_days, MAX_DELTA_DAYS, US_END, MAXORDINAL, US_PER_DAY,
      US_PER_SECOND in *;
    Z.div_mod_to_equations; lia.
Qed.

(** Whatever the increment, a date that [addself] leaves behind is valid. *)
Lemma addself_valid d timevec d' :
  Date.addself d timevec = inr d' -> valid d' = true.
Proof.
  unfold Date.addself.
  destruct timevec as [|t0 [|t1 [|t2 [|t3 [|t4 [|t5 rest]]]]]]; try discriminate.
  destruct (Date.addself_fields d t0 t1) as [e|date]; [discriminate|].
  cbn [bind].
  destruct (timedelta_new t2 t3 t4 t5) as [e|td]; [discriminate|].
  cbn [bind]. intros Ha. apply add_delta_ok in Ha. tauto.
Qed.

(** [addself] on an integer increment whose year and month part lead to
    what is no date: the [datetime(...)] of line 543 raises. *)
Lemma addself_no_date d dy dmo t2 t3 t4 t5 :
  valid d = true ->
  valid_ymd (year d + dy + (month d - 1 + dmo) / 12)
    ((month d - 1 + dmo) mod 12 + 1) (day d) = false ->
  Date.addself d [PInt dy; PInt dmo; t2; t3; t4; t5]
  = inl (if fits_int (year d + dy + (month d - 1 + dmo) / 12)
         then ValueError else OverflowError).
Proof.
  intros Hd Hymd. unfold Date.addself. rewrite addself_fields_int_eq.
  rewrite datetime_new_invalid; [reflexivity| |].
  - pose proof (valid_fields d Hd) as (Hymd0 & Hh & Hmi & Hs & Hus).
    assert (Hv0 : valid (mkdatetime (year d) (month d) (day d) (hour d)
                           (minute d) (second d) 0) = true)
      by (apply valid_intro; try assumption; lia).
    pose proof (valid_fits _ _ _ _ _ _ _ Hv0) as Hf.
    cbn [forallb] in Hf |- *.
    apply andb_true_iff in Hf as [_ Hf]. apply andb_true_iff in Hf as [_ Hf].
    rewrite Hf, andb_true_r.
    unfold fits_int, INT_MIN, INT_MAX.
    apply andb_true_iff; split; apply Z.leb_le; Z.div_mod_to_equations; lia.
  - unfold valid. cbn [year month day]. rewrite Hymd. reflexivity.
Qed.

(** C3: a calendar-valid date and an increment do not always give a date:
    the [datetime(...)] of line 543 is given the day of the date as it is,
    and raises [ValueError] inside [addself], where nothing catches it,
    when the new month has no such day (or the new year lies outside
    1..9999); a year that does not fit a C int raises [OverflowError].
    What [addself] does leave behind is calendar-valid again.
    [DatePlus[{2010, 1, 31}, {1, "Month"}]] raises [ValueError], whereas
    [to_datelist] answers what is no date, [{2010, 13}], with its [arg]
    message (lines 171-176). *)
Theorem C3_addself_raises_value_error :
  forall d, valid d = true ->
    (forall timevec d', Date.addself d timevec = inr d' -> valid d' = true)
    /\ (forall dy dmo dd dh dmi ds,
          let y' := year d + dy + (month d - 1 + dmo) / 12 in
          let m' := (month d - 1 + dmo) mod 12 + 1 in
          valid_ymd y' m' (day d) = false ->
          Date.addself d [PInt dy; PInt dmo; PInt dd; PInt dh; PInt dmi; PInt ds]
          = inl (if fits_int y' then ValueError else OverflowError))
    /\ (forall H,
          DatePlus.apply H (VList [VI 2010; VI 1; VI 31])
            (VList [VI 1; VStr (Str.quoted "Month")])
          = ([], Raise ValueError)
          /\ DateFormat.to_datelist H "DateList" (VList [VI 2010; VI 13])
             = ([Msg "DateList" "arg" [VList [VI 2010; VI 13]]], ReturnNone)).
Proof.
  intros d Hd. split; [intros tv d'; apply addself_valid|]. split.
  - intros dy dmo dd dh dmi ds y' m' Hymd.
    apply addself_no_date; assumption.
  - intros H. split; vm_compute; reflexivity.
Qed.

Lemma C3_addself_raises_value_error_witness :
  valid (mkdatetime 2010 1 31 0 0 0 0) = true
  /\ Date.addself (mkdatetime 2010 1 31 0 0 0 0)
       [PInt 0; PInt 1; PInt 0; PInt 0; PInt 0; PInt 0] = inl ValueError.
Proof.
  split; [reflexivity|].
  exact (proj1 (proj2 (C3_addself_raises_value_error
                         (mkdatetime 2010 1 31 0 0 0 0) eq_refl))
           0 1 0 0 0 0 eq_refl).
Defined.

End AddselfOutcome.

(** ** The seconds of a date as a float *)

Section FloatSecond.

Lemma MICRO_near : (Qabs (Date.MICRO - (1 # 1000000)) <= 1 # 10000000000000000000000)%Q.
Proof. vm_compute. discriminate. Qed.

(** [second + 1e-6 * microsecond] as the three float operations it is. *)
Lemma float_second_eq d :
  Date.float_second d
  = double (double (inject_Z (second d))
            + double (Date.MICRO * double (inject_Z (microsecond d)))).
Proof. reflexivity. Qed.

(** A whole second is its own float. *)
Lemma float_second_whole d :
  0 <= second d < 60 -> microsecond d = 0 ->
  Date.float_second d = inject_Z (second d).
Proof.
  intros Hs Hus. rewrite float_second_eq, Hus.
  change (double (inject_Z 0)) with 0%Q.
  assert (E0 : (Date.MICRO * 0 == 0)%Q) by ring.
  rewrite (double_comp _ _ E0), double_0.
  assert (E1 : (double (inject_Z (second d)) + 0 == inject_Z (second d))%Q)
    by (rewrite double_Z by lia; ring).
  rewrite (double_comp _ _ E1).
  assert (Hc : forall n, 0 <= n < 60 -> double (inject_Z n) = inject_Z n).
  { intros n Hn.
    assert (Hb : check_below (fun k => Qeq_bool (double (inject_Z k)) (inject_Z k)
                                       && (Qden (double (inject_Z k)) =? 1)%positive)
                   60 = true) by (vm_compute; reflexivity).
    pose proof (check_below_sound _ _ Hb n Hn) as Hk. cbv beta in Hk.
    apply andb_true_iff in Hk as [Hq Hd].
    apply Qeq_bool_iff in Hq. apply Pos.eqb_eq in Hd.
    destruct (double (inject_Z n)) as [a b]. cbn [Qden] in Hd. subst b.
    unfold Qeq in Hq. cbn in Hq. unfold inject_Z. f_equal. lia. }
  apply Hc. exact Hs.
Qed.

(** The float of the seconds of a date is the seconds with their
    microseconds, up to the rounding of its three float operations. *)
Lemma float_second_near d :
  0 <= second d < 60 -> 0 <= microsecond d < 1000000 ->
  (Qabs (Date.float_second d
         - (inject_Z (second d) + inject_Z (microsecond d) / 1000000))
   <= 1 # 100000000000000)%Q.
Proof.
  intros Hs Hus. rewrite float_second_eq.
  assert (Es : (double (inject_Z (second d)) == inject_Z (second d))%Q)
    by (apply double_Z; lia).
  assert (Eu : (double (inject_Z (microsecond d)) == inject_Z (microsecond d))%Q)
    by (apply double_Z; lia).
  assert (Hs1 : (0 <= inject_Z (second d))%Q /\ (inject_Z (second d) <= 59)%Q).
  { split; [change 0%Q with (inject_Z 0)|change 59%Q with (inject_Z 59)];
      rewrite <- Zle_Qle; lia. }
  assert (Hu1 : (0 <= inject_Z (microsecond d))%Q
                /\ (inject_Z (microsecond d) <= 999999)%Q).
  { split; [change 0%Q with (inject_Z 0)|change 999999%Q with (inject_Z 999999)];
      rewrite <- Zle_Qle; lia. }
  pose proof MICRO_near as Hm. apply Qabs_Qle_condition in Hm.
  set (S := inject_Z (second d)) in *. set (U := inject_Z (microsecond d)) in *.
  set (c := Date.MICRO) in *.
  assert (Ep : (c * double U == c * U)%Q) by (rewrite Eu; reflexivity).
  rewrite (double_comp _ _ Ep).
  assert (Hp : (Qabs (c * U) <= 1)%Q).
  { apply Qabs_Qle_condition. clearbody c U. split; nra. }
  destruct (double_within 1 _ ltac:(lra) Hp) as [Hx1 Hx2].
  set (x := double (c * U)) in *.
  assert (Ey : (double S + x == S + x)%Q) by (rewrite Es; reflexivity).
  rewrite (double_comp _ _ Ey).
  assert (Hy : (Qabs (S + x) <= 61)%Q).
  { apply Qabs_Qle_condition. unfold EPS in *. clearbody c U x S. split; nra. }
  destruct (double_within 61 _ ltac:(lra) Hy) as [Hy1 Hy2].
  set (y := double (S + x)) in *.
  unfold EPS in *. unfold Qdiv.
  change (/ 1000000)%Q with (1 # 1000000)%Q.
  clearbody c U x S y.
  apply Qabs_Qle_condition. split; nra.
Qed.

End FloatSecond.

(** ** [to_datelist] on a list of numbers *)

Section NumericList.

Local Open Scope string_scope.
Local Open Scope Z_scope.

Lemma pad_numbers nums : Date.pad (map VNum nums) = map VNum (padded nums).
Proof.
  unfold Date.pad, padded. rewrite map_app, length_map. f_equal.
  change default_date with (map VNum default_numbers).
  apply skipn_map.
Qed.

Lemma numeric_items_floats_allowed nums i :
  (2 <= i)%nat -> DateFormat.numeric_items i (map VNum nums) = true.
Proof.
  revert i. induction nums as [|x nums IH]; intros i Hi; [reflexivity|].
  cbn [map DateFormat.numeric_items]. destruct x as [n|q].
  - apply IH. lia.
  - rewrite IH by lia. destruct i as [|[|i]]; try lia. reflexivity.
Qed.

(** The test of line 165 passes on 1 to 6 numbers whose first two are
    integers. *)
Lemma numeric_items_ok nums y m rest :
  padded nums = PInt y :: PInt m :: rest ->
  DateFormat.numeric_items 0 (map VNum nums) = true.
Proof.
  unfold padded. intros Hp.
  destruct nums as [|a [|b nums]].
  - reflexivity.
  - cbn in Hp. injection Hp as -> _ _. reflexivity.
  - cbn in Hp. injection Hp as -> -> _. cbn [map DateFormat.numeric_items].
    apply (numeric_items_floats_allowed nums 2). lia.
Qed.

(** [day - 1]: exact on an integer, one float subtraction on a float. *)
Lemma sub_one_near d :
  (Qabs (to_Q (sub d (PInt 1)) - (to_Q d - 1)) <= (Qabs (to_Q d - 1) + 1) * EPS)%Q.
Proof.
  pose proof (Qabs_nonneg (to_Q d - 1)) as Ha.
  destruct d as [n|q]; cbn [sub to_Q as_double].
  - unfold Z.sub. rewrite inject_Z_plus, inject_Z_opp.
    change (inject_Z 1) with 1%Q in *.
    setoid_replace (inject_Z n + - 1 - (inject_Z n - 1))%Q with 0%Q by ring.
    cbn [to_Q] in Ha. unfold EPS.
    set (a := Qabs (inject_Z n - 1)) in *. clearbody a. cbn [Qabs Z.abs]. lra.
  - rewrite double_1. cbn [to_Q] in Ha.
    assert (Hb : (Qabs (q - 1) <= Qabs (q - 1) + 1)%Q) by lra.
    destruct (double_within (Qabs (q - 1) + 1) (q - 1) ltac:(lra) Hb) as [H1 H2].
    set (a := Qabs (q - 1)) in *. set (r := double (q - 1)) in *.
    set (e := ((a + 1) * EPS)%Q) in *. clearbody a r e.
    apply Qabs_Qle_condition. split; lra.
Qed.

Lemma numeric_datelist_spec name nums y m d h mi s anchor :
  padded nums = [PInt y; PInt m; d; h; mi; s] ->
  datetime_new y m 1 0 0 0 0 = inr anchor ->
  0 <= to_us anchor + delta_us (sub d (PInt 1)) h mi s < US_END ->
  DateFormat.numeric_datelist name (map VNum nums)
  = ([], Return (Date.to_list
                   (of_us (to_us anchor + delta_us (sub d (PInt 1)) h mi s)))).
Proof.
  intros Hp Ha Ht. unfold DateFormat.numeric_datelist.
  rewrite pad_numbers, Hp. cbn [map]. rewrite Ha.
  apply datetime_new_inr in Ha as [_ Hv]. apply to_us_bounds in Hv.
  destruct (timedelta_new_cases (sub d (PInt 1)) h mi s) as [E|[_ E]];
    [|exfalso; lia].
  rewrite E. cbn [bind]. rewrite (add_delta_in_range _ _ Ht). reflexivity.
Qed.

Lemma numeric_datelist_overflow name nums y m d h mi s anchor :
  padded nums = [PInt y; PInt m; d; h; mi; s] ->
  datetime_new y m 1 0 0 0 0 = inr anchor ->
  ~ 0 <= to_us anchor + delta_us (sub d (PInt 1)) h mi s < US_END ->
  DateFormat.numeric_datelist name (map VNum nums) = ([], Raise OverflowError).
Proof.
  intros Hp Ha Ht. unfold DateFormat.numeric_datelist.
  rewrite pad_numbers, Hp. cbn [map]. rewrite Ha.
  destruct (timedelta_new_cases (sub d (PInt 1)) h mi s) as [E|[E _]];
    rewrite E; cbn [bind]; [|reflexivity].
  unfold add_delta. cbv zeta.
  destruct (Z.leb_spec 0 (to_us anchor + delta_us (sub d (PInt 1)) h mi s));
    destruct (Z.ltb_spec (to_us anchor + delta_us (sub d (PInt 1)) h mi s) US_END);
    cbn [andb]; try reflexivity. lia.
Qed.

(** An anchor that is no date is answered with the [arg] message (lines
    173-176); one whose year or month does not fit a C int raises
    [OverflowError], which line 173 does not catch. *)
Lemma numeric_datelist_no_anchor name nums y m d h mi s e :
  padded nums = [PInt y; PInt m; d; h; mi; s] ->
  datetime_new y m 1 0 0 0 0 = inl e ->
  DateFormat.numeric_datelist name (map VNum nums)
  = match e with
    | ValueError => ([Msg name "arg" [VList (map VNum nums)]], ReturnNone)
    | _ => ([], Raise e)
    end.
Proof.
  intros Hp Ha. unfold DateFormat.numeric_datelist.
  rewrite pad_numbers, Hp. cbn [map]. rewrite Ha. destruct e; reflexivity.
Qed.

Lemma to_datelist_numeric H name nums y m rest :
  (1 <= List.length nums <= 6)%nat ->
  padded nums = PInt y :: PInt m :: rest ->
  DateFormat.to_datelist H name (VList (map VNum nums))
  = DateFormat.numeric_datelist name (map VNum nums).
Proof.
  intros [Hlo Hhi] Hp. cbn [DateFormat.to_datelist]. rewrite length_map.
  apply Nat.leb_le in Hlo. apply Nat.leb_le in Hhi. rewrite Hlo, Hhi.
  rewrite (numeric_items_ok _ _ _ _ Hp). reflexivity.
Qed.

(** C1: [to_datelist] on a list of 1 to 6 numbers whose first two are
    integers pads the list on the right with [1900, 1, 1, 0, 0, 0.], builds
    the anchor (year, month, 1) and adds day - 1 days, the hours, the minutes
    and the seconds as elapsed time.  The result is the list of the fields
    of a valid date, the seconds with the microseconds as a float, and that
    date lies the elapsed time after the anchor, to the nearest microsecond
    up to the rounding of the float arithmetic (a hundred-thousandth of a
    microsecond for each day of the day field).
    (When (year, month, 1) is no date of years 1..9999 the [arg] message is
    issued and nothing is returned, unless the year or the month does not
    fit a C int, which raises [OverflowError]; when the sum leaves years
    1..9999 the addition raises [OverflowError].)
    And [DateList[{2003, 5, 0.5, 0.1, 0.767}]] is
    [{2003, 4, 30, 12, 6, 46.02}]. *)
Theorem C1_numeric_list_elapsed_time :
  (forall H name nums y m d h mi s,
      (1 <= List.length nums <= 6)%nat ->
      padded nums = [PInt y; PInt m; d; h; mi; s] ->
      let r := DateFormat.to_datelist H name (VList (map VNum nums)) in
      (forall anchor,
          datetime_new y m 1 0 0 0 0 = inr anchor ->
          let t := to_us anchor + delta_us (sub d (PInt 1)) h mi s in
          (0 <= t < US_END ->
           exists date sec,
             r = ([], Return [VI (year date); VI (month date); VI (day date);
                              VI (hour date); VI (minute date); VF sec])
             /\ valid date = true
             /\ anchor = mkdatetime y m 1 0 0 0 0
             /\ (Qabs (sec - (inject_Z (second date)
                              + inject_Z (microsecond date) / 1000000))
                 <= 1 # 100000000000000)%Q
             /\ (Qabs (inject_Z (to_us date - to_us anchor)
                       - ((to_Q d - 1) * inject_Z US_PER_DAY
                          + to_Q h * inject_Z US_PER_HOUR
                          + to_Q mi * inject_Z US_PER_MINUTE
                          + to_Q s * inject_Z US_PER_SECOND))
                 <= (1 # 2) + (Qabs (to_Q d - 1) + 3) * (1 # 100000))%Q)
          /\ (~ 0 <= t < US_END -> r = ([], Raise OverflowError)))
      /\ (datetime_new y m 1 0 0 0 0 = inl ValueError ->
          r = ([Msg name "arg" [VList (map VNum nums)]], ReturnNone))
      /\ (datetime_new y m 1 0 0 0 0 = inl OverflowError ->
          r = ([], Raise OverflowError)))
  /\ (forall H name,
         DateFormat.to_datelist H name
           (VList [VI 2003; VI 5; VF (1 # 2); VF (double (1 # 10));
                   VF (double (767 # 1000))])
         = ([], Return [VI 2003; VI 4; VI 30; VI 12; VI 6;
                        VF (double (4602 # 100))])).
Proof.
  split.
  - intros H name nums y m d h mi s Hlen Hp r.
    assert (Hr : r = DateFormat.numeric_datelist name (map VNum nums))
      by (exact (to_datelist_numeric H name nums y m _ Hlen Hp)).
    rewrite Hr. clear Hr. clearbody r. split; [|split].
    + intros anchor Ha t. split.
      * intros Ht. exists (of_us t), (Date.float_second (of_us t)).
        pose proof (of_us_valid t Ht) as Hv.
        pose proof (valid_fields _ Hv) as (_ & _ & _ & Hsec & Hus).
        split; [exact (numeric_datelist_spec name nums y m d h mi s anchor Hp Ha Ht)|].
        split; [exact Hv|].
        split; [exact (proj1 (datetime_new_inr _ _ _ _ _ _ _ _ Ha))|].
        split; [apply float_second_near; assumption|].
        rewrite (to_us_of_us _ Ht). subst t.
        replace (to_us anchor + delta_us (sub d (PInt 1)) h mi s - to_us anchor)
          with (delta_us (sub d (PInt 1)) h mi s) by lia.
        pose proof (delta_us_near (sub d (PInt 1)) h mi s) as Hn.
        pose proof (sub_one_near d) as Hd.
        pose proof (Qabs_nonneg (to_Q d - 1)) as Ha0.
        unfold exact_us in Hn.
        apply Qabs_Qle_condition in Hn. apply Qabs_Qle_condition in Hd.
        change (inject_Z US_PER_SECOND) with 1000000%Q in *.
        change (inject_Z US_PER_MINUTE) with 60000000%Q in *.
        change (inject_Z US_PER_HOUR) with 3600000000%Q in *.
        change (inject_Z US_PER_DAY) with 86400000000%Q in *.
        unfold EPS in *.
        set (D := inject_Z (delta_us (sub d (PInt 1)) h mi s)) in *.
        set (a := Qabs (to_Q d - 1)) in *.
        set (d1 := to_Q (sub d (PInt 1))) in *. set (d0 := to_Q d) in *.
        set (qh := (to_Q h * 3600000000)%Q) in *.
        set (qm := (to_Q mi * 60000000)%Q) in *.
        set (qs := (to_Q s * 1000000)%Q) in *.
        clearbody D a d1 d0 qh qm qs.
        apply Qabs_Qle_condition. split; lra.
      * intros Ht.
        exact (numeric_datelist_overflow name nums y m d h mi s anchor Hp Ha Ht).
    + intros Ha.
      exact (numeric_datelist_no_anchor name nums y m d h mi s _ Hp Ha).
    + intros Ha.
      exact (numeric_datelist_no_anchor name nums y m d h mi s _ Hp Ha).
  - intros H name. vm_compute. reflexivity.
Qed.

Lemma C1_numeric_list_elapsed_time_witness :
  exists date sec,
    DateFormat.to_datelist silent_host "DateList"
      (VList (map VNum [PInt 2012; PInt 1; PFloat 300; PInt 10; PFloat 0]))
    = ([], Return [VI (year date); VI (month date); VI (day date);
                   VI (hour date); VI (minute date); VF sec])
    /\ valid date = true
    /\ mkdatetime 2012 1 1 0 0 0 0 = mkdatetime 2012 1 1 0 0 0 0
    /\ (Qabs (sec - (inject_Z (second date)
                     + inject_Z (microsecond date) / 1000000))
        <= 1 # 100000000000000)%Q
    /\ (Qabs (inject_Z (to_us date - to_us (mkdatetime 2012 1 1 0 0 0 0))
              - ((to_Q (PFloat 300) - 1) * inject_Z US_PER_DAY
                 + to_Q (PInt 10) * inject_Z US_PER_HOUR
                 + to_Q (PFloat 0) * inject_Z US_PER_MINUTE
                 + to_Q (PFloat 0) * inject_Z US_PER_SECOND))
        <= (1 # 2) + (Qabs (to_Q (PFloat 300) - 1) + 3) * (1 # 100000))%Q.
Proof.
  exact (proj1 (proj1 (proj1 C1_numeric_list_elapsed_time silent_host
                         "DateList"%string
                         [PInt 2012; PInt 1; PFloat 300; PInt 10; PFloat 0]
                         2012 1 (PFloat 300) (PInt 10) (PFloat 0) (PFloat 0)
                         ltac:(simpl; lia) eq_refl)
                  (mkdatetime 2012 1 1 0 0 0 0) eq_refl)
           ltac:(vm_compute; split; [discriminate|reflexivity])).
Defined.

(** An anchor that is no date, a year that does not fit a C int, and a sum
    past the year 9999: [DateList[{2003, 13}]], [DateList[{2^40, 1}]] and
    [DateList[{9999, 12, 32}]]. *)
Example DateList_out_of_range :
  forall H,
    DateFormat.DateList_apply H (VList [VI 2003; VI 13])
    = ([Msg "DateList" "arg" [VList [VI 2003; VI 13]]], ReturnNone)
    /\ DateFormat.DateList_apply H (VList [VI (2 ^ 40); VI 1])
       = ([], Raise OverflowError)
    /\ DateFormat.DateList_apply H (VList [VI 9999; VI 12; VI 32])
       = ([], Raise OverflowError).
Proof. intros H. repeat split; vm_compute; reflexivity. Qed.

(** [DateList[{2012, 1, 300., 10, 0.}]] is [{2012, 10, 26, 10, 0, 0.}]. *)
Example DateList_day_300 :
  forall H,
    DateFormat.DateList_apply H (VList [VI 2012; VI 1; VF 300; VI 10; VF 0])
    = ([], Return (VList [VI 2012; VI 10; VI 26; VI 10; VI 0; VF 0])).
Proof. intros H. vm_compute. reflexivity. Qed.

(** The float arithmetic of [timedelta] shows at a half: a day field of
    1.685839016244213 is 59256491003.4999... microseconds after the anchor
    and resolves to the microsecond 59256491004. *)
Example DateList_rounds_in_floats :
  delta_us (sub (PFloat (double (1685839016244213 # 1000000000000000))) (PInt 1))
    (PInt 0) (PInt 0) (PFloat 0)
  = 59256491004.
Proof. vm_compute. reflexivity. Qed.

End NumericList.

(** ** [_Date]: from a list and back *)

Section RoundTrip.

Local Open Scope string_scope.
Local Open Scope Z_scope.

Lemma Qred_inject_Z n : Qred (inject_Z n) = inject_Z n.
Proof.
  unfold Qred, inject_Z.
  pose proof (Z.ggcd_gcd n 1) as Hg.
  pose proof (Z.ggcd_correct_divisors n 1) as Hd.
  destruct (Z.ggcd n 1) as [g [aa bb]]. cbn [fst snd] in *.
  rewrite Z.gcd_1_r in Hg. subst g. destruct Hd as [Ha Hb].
  rewrite Z.mul_1_l in Ha, Hb. subst aa bb. reflexivity.
Qed.

Lemma double_canonical q : Qred (double q) = double q.
Proof.
  unfold double. cbv zeta. destruct (Qeq_bool (Qred q) 0); [reflexivity|].
  apply Qred_complete. apply Qred_correct.
Qed.

(** An integer below 2^53 in magnitude is its own double. *)
Lemma double_Z_eq n : Z.abs n < 2 ^ 53 -> double (inject_Z n) = inject_Z n.
Proof.
  intros Hn.
  transitivity (Qred (double (inject_Z n))); [symmetry; apply double_canonical|].
  transitivity (Qred (inject_Z n)); [|apply Qred_inject_Z].
  apply Qred_complete. apply double_Z. exact Hn.
Qed.

(** [s % 1.] is the fraction of a float [s] that is not negative. *)
Lemma Qmod_1 s : (0 <= s)%Q -> (Qmod s 1 == s - inject_Z (Qfloor s))%Q.
Proof.
  intros Hs. unfold Qmod, fmod.
  assert (E : (s / 1 == s)%Q) by field.
  rewrite (Qtrunc_comp _ _ E), (Qtrunc_nonneg s Hs).
  pose proof (Qfloor_le s) as Hf.
  assert (Hm : (0 <= s - 1 * inject_Z (Qfloor s))%Q) by lra.
  apply Qle_bool_iff in Hm. rewrite Hm.
  change (Qle_bool 0 1) with true. cbn [xorb]. rewrite andb_false_r. ring.
Qed.

(** [n % 1.] is 0 for an integer [n] that is its own double. *)
Lemma Qmod_Z n : Qmod (inject_Z n) 1 = 0%Q.
Proof.
  unfold Qmod, fmod.
  assert (E : (inject_Z n / 1 == inject_Z n)%Q) by field.
  rewrite (Qtrunc_comp _ _ E), Qtrunc_Z.
  assert (E0 : (inject_Z n - 1 * inject_Z n == 0)%Q) by ring.
  apply Qeq_bool_iff in E0. rewrite E0. cbn [negb andb].
  unfold Qminus, Qplus, Qmult, Qopp, inject_Z. cbn [Qnum Qden].
  f_equal. lia.
Qed.

(** The arguments that line 528 passes for a second [s] that is not
    negative: the whole seconds, and the truncation of the float product
    [1e6 * (s % 1.)]. *)
Lemma second_args_float s :
  (0 <= s)%Q ->
  Date.second_args (VF s) = inr (Qfloor s, kept_us s).
Proof.
  intros Hs. unfold Date.second_args, VF, kept_us.
  cbn [PyNum.int mul modulo as_double].
  rewrite (Qtrunc_nonneg s Hs). f_equal. f_equal.
  apply (f_equal Qtrunc). apply double_comp. rewrite (Qmod_1 s Hs). reflexivity.
Qed.

(** A list of fields that are those of a date builds that date. *)
Lemma init_fields H y m d h mi s sec us :
  Date.second_args (VF s) = inr (sec, us) ->
  valid (mkdatetime y m d h mi sec us) = true ->
  Date.init H [VI y; VI m; VI d; VI h; VI mi; VF s] None None
  = inr (mkdatetime y m d h mi sec us).
Proof.
  intros Hs Hv. unfold Date.init.
  cbn [Date.pad app List.length skipn default_date].
  rewrite Hs. cbn [bind].
  pose proof (valid_fits _ _ _ _ _ _ _ Hv) as Hf. cbn [forallb] in Hf.
  repeat (apply andb_true_iff in Hf; destruct Hf as [?F Hf]).
  unfold Date.int_arg, VI. rewrite F, F0, F1, F2, F3. cbn [bind].
  rewrite (datetime_new_valid _ _ _ _ _ _ _ Hv). reflexivity.
Qed.

(** A whole second keeps no microsecond. *)
Lemma second_args_whole s sec :
  (s == inject_Z sec)%Q -> 0 <= sec ->
  Date.second_args (VF s) = inr (sec, 0).
Proof.
  intros Es Hsec.
  assert (Hs : (0 <= s)%Q).
  { rewrite Es. change 0%Q with (inject_Z 0). rewrite <- Zle_Qle. exact Hsec. }
  rewrite (second_args_float s Hs). unfold kept_us.
  rewrite (Qfloor_comp _ _ Es), Qfloor_Z.
  assert (E0 : (inject_Z 1000000 * (s - inject_Z sec) == 0)%Q)
    by (rewrite Es; ring).
  rewrite (double_comp _ _ E0), double_0. reflexivity.
Qed.

(** A calendar-valid list of whole seconds builds the date of its fields. *)
Lemma init_whole_second H y m d h mi s sec :
  (s == inject_Z sec)%Q ->
  valid (mkdatetime y m d h mi sec 0) = true ->
  Date.init H [VI y; VI m; VI d; VI h; VI mi; VF s] None None
  = inr (mkdatetime y m d h mi sec 0).
Proof.
  intros Es Hv. apply init_fields; [|exact Hv].
  apply second_args_whole; [exact Es|].
  apply valid_fields in Hv as (_ & _ & _ & Hs & _). cbn [second] in Hs. lia.
Qed.

(** C2: the list of a date does not always come back.  A calendar-valid
    list with a second [s] builds the date of its first five fields, of the
    whole seconds of [s] and of [int(1e6 * (s % 1.))] microseconds (line
    528), the truncation of a float product, and [to_list] gives these
    fields back, the second as [second + 1e-6 * microsecond].  So
    [{2010, 1, 1, 0, 0, 1.13}] builds the date with 129999 microseconds,
    whose list has the second 1.129999.  [to_datelist] on the same list goes
    through [timedelta], which rounds to the nearest microsecond, and
    returns the list as it is.  Nor does the list that [to_list] itself
    gives for a date of 15 microseconds come back: it builds the date of 14
    microseconds. *)
Theorem C2_roundtrip_truncates :
  (forall H y m d h mi s,
      (0 <= s)%Q ->
      valid (mkdatetime y m d h mi (Qfloor s) (kept_us s)) = true ->
      Date.init H [VI y; VI m; VI d; VI h; VI mi; VF s] None None
      = inr (mkdatetime y m d h mi (Qfloor s) (kept_us s))
      /\ Date.to_list (mkdatetime y m d h mi (Qfloor s) (kept_us s))
         = [VI y; VI m; VI d; VI h; VI mi;
            VF (double (double (inject_Z (Qfloor s))
                        + double (Date.MICRO * double (inject_Z (kept_us s)))))])
  /\ (forall H,
         let L := [VI 2010; VI 1; VI 1; VI 0; VI 0; VF (double (113 # 100))] in
         Date.init H L None None = inr (mkdatetime 2010 1 1 0 0 1 129999)
         /\ Date.to_list (mkdatetime 2010 1 1 0 0 1 129999)
            = [VI 2010; VI 1; VI 1; VI 0; VI 0; VF (double (1129999 # 1000000))]
         /\ veqb (VList (Date.to_list (mkdatetime 2010 1 1 0 0 1 129999))) (VList L)
            = false
         /\ DateFormat.to_datelist H "DateList" (VList L) = ([], Return L)
         /\ Date.init H (Date.to_list (mkdatetime 2010 1 1 0 0 0 15)) None None
            = inr (mkdatetime 2010 1 1 0 0 0 14)).
Proof.
  split.
  - intros H y m d h mi s Hs Hv. split; [|reflexivity].
    exact (init_fields H y m d h mi s _ _ (second_args_float s Hs) Hv).
  - intros H. repeat split; vm_compute; reflexivity.
Qed.

Lemma C2_roundtrip_truncates_witness :
  Date.init silent_host
    [VI 2010; VI 1; VI 1; VI 0; VI 0; VF (double (113 # 100))] None None
  = inr (mkdatetime 2010 1 1 0 0 1 129999).
Proof.
  exact (proj1 (proj1 C2_roundtrip_truncates silent_host 2010 1 1 0 0
                  (double (113 # 100))
                  ltac:(vm_compute; discriminate) eq_refl)).
Defined.

End RoundTrip.

(** ** [AbsoluteTime] *)

Section AbsoluteTimeFacts.

Local Open Scope string_scope.
Local Open Scope Z_scope.

Lemma diff_epoch y m d h mi sec us :
  diff (mkdatetime y m d h mi sec us) AbsoluteTime.epoch
  = seconds_since_1900 y m d h mi sec * US_PER_SECOND + us.
Proof.
  unfold diff, to_us, AbsoluteTime.epoch, seconds_since_1900.
  cbn [year month day hour minute second microsecond].
  unfold US_PER_DAY, US_PER_HOUR, US_PER_MINUTE, US_PER_SECOND. lia.
Qed.

(** [int(total_seconds())] of whole seconds: the float is exact below
    2^53. *)
Lemma total_seconds_whole n :
  Z.abs n < 2 ^ 53 ->
  PyNum.int (total_seconds (n * US_PER_SECOND)) = n.
Proof.
  intros Hn. unfold total_seconds. cbn [PyNum.int].
  assert (E : (inject_Z (n * US_PER_SECOND) / inject_Z US_PER_SECOND
               == inject_Z n)%Q).
  { rewrite inject_Z_mult. field. discriminate. }
  rewrite (double_comp _ _ E), (Qtrunc_comp _ _ (double_Z n Hn)).
  apply Qtrunc_Z.
Qed.

(** The seconds between two valid dates are far below 2^53. *)
Lemma seconds_apart_small a b n :
  valid a = true -> valid b = true ->
  to_us a - to_us b = n * US_PER_SECOND -> Z.abs n < 2 ^ 53.
Proof.
  intros Ha Hb Hn.
  pose proof (to_us_bounds a Ha) as Ba. pose proof (to_us_bounds b Hb) as Bb.
  unfold US_END, MAXORDINAL, US_PER_DAY, US_PER_SECOND in *.
  change (2 ^ 53) with 9007199254740992. lia.
Qed.

(** Lines 442-447 on a calendar-valid list of whole seconds. *)
Lemma of_datelist_whole H y m d h mi s sec :
  (s == inject_Z sec)%Q ->
  valid (mkdatetime y m d h mi sec 0) = true ->
  AbsoluteTime.of_datelist H [VI y; VI m; VI d; VI h; VI mi; VF s]
  = inr (VI (seconds_since_1900 y m d h mi sec)).
Proof.
  intros Es Hv. unfold AbsoluteTime.of_datelist.
  rewrite (init_whole_second H y m d h mi s sec Es Hv). cbn [bind].
  pose proof (diff_epoch y m d h mi sec 0) as Hd. rewrite Z.add_0_r in Hd.
  rewrite Hd. unfold td_microseconds. rewrite Z_mod_mult. cbn [Z.eqb].
  rewrite total_seconds_whole; [reflexivity|].
  apply (seconds_apart_small (mkdatetime y m d h mi sec 0) AbsoluteTime.epoch);
    [exact Hv|reflexivity|exact Hd].
Qed.

(** Lines 442-447 on a calendar-valid list with a second [s]: an integer
    when line 528 keeps no microsecond of [s], a float otherwise. *)
Lemma of_datelist_float H y m d h mi s :
  (0 <= s)%Q ->
  valid (mkdatetime y m d h mi (Qfloor s) (kept_us s)) = true ->
  AbsoluteTime.of_datelist H [VI y; VI m; VI d; VI h; VI mi; VF s]
  = inr (if kept_us s =? 0
         then VI (seconds_since_1900 y m d h mi (Qfloor s))
         else VF (double (inject_Z (seconds_since_1900 y m d h mi (Qfloor s)
                                    * US_PER_SECOND + kept_us s)
                          / inject_Z US_PER_SECOND))).
Proof.
  intros Hs Hv. unfold AbsoluteTime.of_datelist.
  rewrite (init_fields H y m d h mi s _ _ (second_args_float s Hs) Hv).
  cbn [bind]. cbv zeta.
  pose proof (diff_epoch y m d h mi (Qfloor s) (kept_us s)) as Hd.
  rewrite Hd.
  pose proof (valid_fields _ Hv) as (_ & _ & _ & _ & Hus).
  cbn [microsecond] in Hus.
  assert (Hm : td_microseconds (seconds_since_1900 y m d h mi (Qfloor s)
                                * US_PER_SECOND + kept_us s) = kept_us s).
  { unfold td_microseconds, US_PER_SECOND in *.
    rewrite Z.add_comm, Z_mod_plus_full. apply Z.mod_small. exact Hus. }
  rewrite Hm. destruct (Z.eqb_spec (kept_us s) 0) as [E|E]; [|reflexivity].
  assert (Hsmall : Z.abs (seconds_since_1900 y m d h mi (Qfloor s)) < 2 ^ 53).
  { apply (seconds_apart_small (mkdatetime y m d h mi (Qfloor s) (kept_us s))
             AbsoluteTime.epoch); [exact Hv|reflexivity|].
    etransitivity; [exact Hd|]. rewrite E. apply Z.add_0_r. }
  rewrite E, Z.add_0_r, (total_seconds_whole _ Hsmall). reflexivity.
Qed.

(** C10: [AbsoluteTime] does not always tell a resolved instant with
    microseconds from one without.  It builds the date again from the
    resolved list, and line 528 truncates the float product
    [1e6 * (second % 1.)]: the result is an integer when that truncation
    keeps no microsecond, and the float of the kept microseconds over 10^6
    otherwise.  [{1900, 1, 1, 0, 0, 1.000001}] resolves to itself, an
    instant of 1 second and 1 microsecond, and gives the integer 1;
    [{1900, 1, 1, 0, 0, 0.000015}] resolves to the instant of 15
    microseconds and gives 1.4e-05.  When the resolved list has whole
    seconds, the result is the integer number of seconds since
    1900-01-01T00:00:00. *)
Theorem C10_absolute_time_truncates :
  (forall H spec msgs y m d h mi s,
      DateFormat.to_datelist H "AbsoluteTime" spec
      = (msgs, Return [VI y; VI m; VI d; VI h; VI mi; VF s]) ->
      (0 <= s)%Q ->
      valid (mkdatetime y m d h mi (Qfloor s) (kept_us s)) = true ->
      AbsoluteTime.apply_spec H spec
      = (msgs,
         Return (if kept_us s =? 0
                 then VI (seconds_since_1900 y m d h mi (Qfloor s))
                 else VF (double
                            (inject_Z (seconds_since_1900 y m d h mi (Qfloor s)
                                       * US_PER_SECOND + kept_us s)
                             / inject_Z US_PER_SECOND)))))
  /\ (forall H spec msgs y m d h mi sec,
      DateFormat.to_datelist H "AbsoluteTime" spec
      = (msgs, Return [VI y; VI m; VI d; VI h; VI mi; VF (inject_Z sec)]) ->
      valid (mkdatetime y m d h mi sec 0) = true ->
      AbsoluteTime.apply_spec H spec
      = (msgs, Return (VI (seconds_since_1900 y m d h mi sec))))
  /\ (forall H,
         let L1 := [VI 1900; VI 1; VI 1; VI 0; VI 0; VF (double (1000001 # 1000000))] in
         let L2 := [VI 1900; VI 1; VI 1; VI 0; VI 0; VF (double (15 # 1000000))] in
         DateFormat.to_datelist H "AbsoluteTime" (VList L1) = ([], Return L1)
         /\ delta_us (PInt 0) (PInt 0) (PInt 0) (PFloat (double (1000001 # 1000000)))
            = 1000001
         /\ AbsoluteTime.apply_spec H (VList L1) = ([], Return (VI 1))
         /\ DateFormat.to_datelist H "AbsoluteTime" (VList L2)
            = ([], Return [VI 1900; VI 1; VI 1; VI 0; VI 0;
                           VF (Date.float_second (mkdatetime 1900 1 1 0 0 0 15))])
         /\ AbsoluteTime.apply_spec H (VList L2)
            = ([], Return (VF (double (14 # 1000000))))).
Proof.
  split; [|split].
  - intros H spec msgs y m d h mi s Hto Hs Hv.
    unfold AbsoluteTime.apply_spec. rewrite Hto.
    rewrite (of_datelist_float H y m d h mi s Hs Hv). reflexivity.
  - intros H spec msgs y m d h mi sec Hto Hv.
    unfold AbsoluteTime.apply_spec. rewrite Hto.
    rewrite (of_datelist_whole H y m d h mi (inject_Z sec) sec (Qeq_refl _) Hv).
    reflexivity.
  - intros H. repeat split; vm_compute; reflexivity.
Qed.

Lemma C10_absolute_time_truncates_witness :
  AbsoluteTime.apply_spec silent_host (VList [VI 2000])
  = ([], Return (VI 3155673600))
  /\ AbsoluteTime.apply_spec silent_host
       (VList [VI 1900; VI 1; VI 1; VI 0; VI 0; VF (double (1000001 # 1000000))])
     = ([], Return (VI 1)).
Proof.
  split.
  - exact (proj1 (proj2 C10_absolute_time_truncates) silent_host
             (VList [VI 2000]) [] 2000 1 1 0 0 0 eq_refl eq_refl).
  - exact (proj1 C10_absolute_time_truncates silent_host
             (VList [VI 1900; VI 1; VI 1; VI 0; VI 0;
                     VF (double (1000001 # 1000000))]) []
             1900 1 1 0 0 (double (1000001 # 1000000))
             eq_refl ltac:(vm_compute; discriminate) eq_refl).
Defined.

(** A resolved instant with a microsecond part that survives gives a
    float: [AbsoluteTime[{2000, 1, 1, 0, 0, 0.5}]]. *)
Example AbsoluteTime_half_second :
  forall H,
    AbsoluteTime.apply_spec H (VList [VI 2000; VI 1; VI 1; VI 0; VI 0; VF (1 # 2)])
    = ([], Return (VF (6311347201 # 2))).
Proof. intros H. vm_compute. reflexivity. Qed.

End AbsoluteTimeFacts.

(** ** [DateDifference] *)

Section DateDifferenceFacts.

Local Open Scope string_scope.
Local Open Scope Z_scope.

(** A date given as text is whatever [dateutil] reads. *)
Lemma init_datestr H s :
  Date.init H [] None (Some s)
  = match dateutil_parse H s with
    | Some parsed => inr parsed
    | None => inl ValueError
    end.
Proof. reflexivity. Qed.

(** [intdiv] on an integer number of seconds: the quotient as an integer
    when the remainder is 0, as a float otherwise. *)
Lemma intdiv_int n k :
  DateDifference.intdiv (PInt n) k
  = if n mod k =? 0 then PInt (n / k)
    else PFloat (double (double (inject_Z n) / double (inject_Z k))).
Proof.
  unfold DateDifference.intdiv. cbn [modulo]. rewrite eqb_int.
  destruct (n mod k =? 0); reflexivity.
Qed.

(** The fixed ratios of lines 716-731, for a difference of a whole number
    [n] of seconds; [Day] gives a bare number. *)
Lemma convert_whole_seconds n :
  Z.abs n < 2 ^ 53 ->
  let tdelta := n * US_PER_SECOND in
  DateDifference.convert tdelta "Year"
  = inr (VList [VNum (DateDifference.intdiv (PInt n) (365 * 24 * 3600)); VStr "Year"])
  /\ DateDifference.convert tdelta "Quarter"
     = inr (VList [VNum (DateDifference.intdiv (PInt n) (365 * 6 * 3600)); VStr "Quarter"])
  /\ DateDifference.convert tdelta "Month"
     = inr (VList [VNum (DateDifference.intdiv (PInt n) (365 * 2 * 3600)); VStr "Month"])
  /\ DateDifference.convert tdelta "Week"
     = inr (VList [VNum (DateDifference.intdiv (PInt n) (7 * 24 * 3600)); VStr "Week"])
  /\ DateDifference.convert tdelta "Day"
     = inr (VNum (DateDifference.intdiv (PInt n) (24 * 3600)))
  /\ DateDifference.convert tdelta "Hour"
     = inr (VList [VNum (DateDifference.intdiv (PInt n) 3600); VStr "Hour"])
  /\ DateDifference.convert tdelta "Second"
     = inr (VList [VI n; VStr "Second"]).
Proof.
  intros Hn tdelta. unfold DateDifference.convert.
  assert (Hm : (td_microseconds tdelta =? 0) = true).
  { apply Z.eqb_eq. unfold td_microseconds, tdelta. apply Z_mod_mult. }
  rewrite Hm. unfold tdelta. rewrite (total_seconds_whole n Hn).
  repeat split; reflexivity.
Qed.

(** C7: the fixed-ratio conversion fails for the unit [Minute]: line 729
    divides the unbound name [secods], so the difference of two resolvable
    dates in minutes raises [NameError] and yields no
    (elapsedSeconds / 60, Minute). *)
Theorem C7_minute_raises_name_error :
  (forall tdelta, DateDifference.convert tdelta "Minute" = inl NameError)
  /\ (forall H,
         DateDifference.apply H
           (VList [VI 2010; VI 6; VI 1]) (VList [VI 2015; VI 1; VI 1])
           (VStr (Str.quoted "Minute"))
         = ([], Raise NameError)).
Proof.
  split.
  - intros tdelta. reflexivity.
  - intros H. vm_compute. reflexivity.
Qed.

(** [DateDifference[{2042, 1, 4}, {2057, 1, 1}]] is 5476, and
    [DateDifference[{2010, 6, 1}, {2015, 1, 1}, "Hour"]] is [{40200, Hour}]. *)
Example DateDifference_documented :
  forall H,
    DateDifference.apply H
      (VList [VI 2042; VI 1; VI 4]) (VList [VI 2057; VI 1; VI 1])
      (VStr (Str.quoted "Day"))
    = ([], Return (VI 5476))
    /\ DateDifference.apply H
         (VList [VI 2010; VI 6; VI 1]) (VList [VI 2015; VI 1; VI 1])
         (VStr (Str.quoted "Hour"))
       = ([], Return (VList [VI 40200; VStr "Hour"])).
Proof. intros H. split; vm_compute; reflexivity. Qed.

(** A date built from a list alone is valid. *)
Lemma init_list_valid H l d :
  Date.init H l None None = inr d -> valid d = true.
Proof.
  unfold Date.init.
  destruct (Date.pad l) as [|v0 [|v1 [|v2 [|v3 [|v4 [|v5 rest]]]]]];
    try discriminate.
  destruct (Date.second_args v5) as [e|[sec us]]; [discriminate|]. cbn [bind].
  destruct (Date.int_arg v0) as [e|y]; [discriminate|]. cbn [bind].
  destruct (Date.int_arg v1) as [e|m]; [discriminate|]. cbn [bind].
  destruct (Date.int_arg v2) as [e|dd]; [discriminate|]. cbn [bind].
  destruct (Date.int_arg v3) as [e|h]; [discriminate|]. cbn [bind].
  destruct (Date.int_arg v4) as [e|mi]; [discriminate|]. cbn [bind].
  destruct (datetime_new y m dd h mi sec us) as [e|date] eqn:Hn; [discriminate|].
  cbn [bind]. intros [= <-]. apply datetime_new_inr in Hn. tauto.
Qed.

(** For two dates given as lists that [_Date] accepts, the difference in
    seconds is the signed elapsed time from the first to the second, an
    integer when it has no microseconds; it is negative exactly when the
    second date precedes the first. *)
Lemma DateDifference_lists_signed H l1 l2 d1 d2 :
  Date.init H l1 None None = inr d1 ->
  Date.init H l2 None None = inr d2 ->
  exists secs,
    DateDifference.apply H (VList l1) (VList l2) (VStr (Str.quoted "Second"))
    = ([], Return (VList [VNum secs; VStr "Second"]))
    /\ (to_Q secs
        == double (inject_Z (to_us d2 - to_us d1) / inject_Z US_PER_SECOND))%Q
    /\ (is_int secs = true <-> (to_us d2 - to_us d1) mod US_PER_SECOND = 0)
    /\ ((to_Q secs < 0)%Q <-> precedes d2 d1).
Proof.
  intros H1 H2.
  pose proof (init_list_valid _ _ _ H1) as V1.
  pose proof (init_list_valid _ _ _ H2) as V2.
  unfold DateDifference.apply, DateDifference.initial_date,
    DateDifference.final_date.
  rewrite H1, H2. cbn [DateDifference.process_units].
  change (Str.unquote (Str.quoted "Second")) with "Second".
  change (forallb (fun p => Str.mem p (Str.keys TIME_INCREMENTS)) ["Second"])
    with true.
  cbv iota. unfold diff.
  set (t := to_us d2 - to_us d1).
  assert (Hsign : (double (inject_Z t / inject_Z US_PER_SECOND) < 0)%Q
                  <-> precedes d2 d1).
  { rewrite (precedes_iff d2 d1 V2 V1).
    change (inject_Z US_PER_SECOND) with (1000000 # 1)%Q.
    unfold Qdiv. change (/ (1000000 # 1))%Q with (1 # 1000000)%Q.
    split; intros Hlt.
    - destruct (Z_lt_le_dec (to_us d2) (to_us d1)) as [|Hge]; [assumption|exfalso].
      assert (Hq : (inject_Z 0 <= inject_Z t)%Q) by (rewrite <- Zle_Qle; lia).
      change (inject_Z 0) with 0%Q in Hq.
      assert (Hp : (0 <= inject_Z t * (1 # 1000000))%Q)
        by (set (q := inject_Z t) in *; clearbody q; lra).
      pose proof (double_nonneg _ Hp). lra.
    - apply double_negative.
      assert (Hq : (inject_Z t <= inject_Z (-1))%Q) by (rewrite <- Zle_Qle; lia).
      change (inject_Z (-1)) with (- (1))%Q in Hq.
      set (q := inject_Z t) in *. clearbody q. lra. }
  unfold DateDifference.convert.
  change (String.eqb "Second" "Year") with false.
  change (String.eqb "Second" "Quarter") with false.
  change (String.eqb "Second" "Month") with false.
  change (String.eqb "Second" "Week") with false.
  change (String.eqb "Second" "Day") with false.
  change (String.eqb "Second" "Hour") with false.
  change (String.eqb "Second" "Minute") with false.
  change (String.eqb "Second" "Second") with true.
  cbv iota. unfold td_microseconds.
  destruct (Z.eqb_spec (t mod US_PER_SECOND) 0) as [E|E].
  - eexists. split; [reflexivity|].
    assert (Ht : t = t / US_PER_SECOND * US_PER_SECOND).
    { unfold US_PER_SECOND in *. Z.div_mod_to_equations. lia. }
    assert (Hsmall : Z.abs (t / US_PER_SECOND) < 2 ^ 53)
      by (apply (seconds_apart_small d2 d1); [exact V2|exact V1|exact Ht]).
    assert (Hq : (inject_Z (PyNum.int (total_seconds t))
                  == double (inject_Z t / inject_Z US_PER_SECOND))%Q).
    { rewrite Ht at 1. rewrite (total_seconds_whole _ Hsmall).
      assert (Eq : (inject_Z t / inject_Z US_PER_SECOND
                    == inject_Z (t / US_PER_SECOND))%Q).
      { rewrite Ht at 1. rewrite inject_Z_mult. field. discriminate. }
      rewrite (double_comp _ _ Eq). symmetry. apply double_Z. exact Hsmall. }
    cbn [to_Q is_int]. split; [exact Hq|]. split; [tauto|].
    rewrite Hq. exact Hsign.
  - eexists. split; [reflexivity|]. cbn [to_Q total_seconds is_int].
    split; [reflexivity|]. split; [split; [discriminate|contradiction]|].
    exact Hsign.
Qed.

(** C6: when both dates are text, [DateDifference] parses the text of
    [date2] for [date1] as well (line 672 reads [pydate2]), so the difference
    in days is 0 whatever [date1] says: [date1] is not resolved from its own
    specification. *)
Theorem C6_text_date1_is_read_from_date2 :
  forall H s1 s2 d2,
    dateutil_parse H (Str.unquote s2) = Some d2 ->
    DateDifference.apply H (VStr s1) (VStr s2) (VStr (Str.quoted "Day"))
    = ([], Return (VI 0)).
Proof.
  intros H s1 s2 d2 Hp.
  unfold DateDifference.apply, DateDifference.initial_date,
    DateDifference.final_date.
  cbn [is_str]. rewrite init_datestr, Hp.
  unfold diff. rewrite Z.sub_diag. vm_compute. reflexivity.
Qed.

Lemma C6_text_date1_is_read_from_date2_witness :
  dateutil_parse iso_host (Str.unquote (Str.quoted "2000-01-02"))
  = Some (mkdatetime 2000 1 2 0 0 0 0)
  /\ DateDifference.apply iso_host
       (VStr (Str.quoted "2000-01-01")) (VStr (Str.quoted "2000-01-02"))
       (VStr (Str.quoted "Day"))
     = ([], Return (VI 0)).
Proof.
  split; [reflexivity|].
  exact (C6_text_date1_is_read_from_date2 iso_host
           (Str.quoted "2000-01-01") (Str.quoted "2000-01-02")
           (mkdatetime 2000 1 2 0 0 0 0) eq_refl).
Defined.

(** The same dates as lists are one day apart, and text for [date2] alone is
    turned down with the [date] message. *)
Example DateDifference_text_against_lists :
  DateDifference.apply iso_host
    (VList [VI 2000; VI 1; VI 1]) (VList [VI 2000; VI 1; VI 2])
    (VStr (Str.quoted "Day"))
  = ([], Return (VI 1))
  /\ DateDifference.apply iso_host
       (VList [VI 2000; VI 1; VI 1]) (VStr (Str.quoted "2000-01-02"))
       (VStr (Str.quoted "Day"))
     = ([Msg "DateDifference" "date" [VStr (Str.quoted "2000-01-02")]],
        ReturnNone)
  /\ DateDifference.apply iso_host
       (VStr (Str.quoted "2000-01-01")) (VList [VI 2000; VI 1; VI 2])
       (VStr (Str.quoted "Day"))
     = ([], Raise AttributeError).
Proof. repeat split; vm_compute; reflexivity. Qed.

(** A unit outside the table falls through every [if] of lines 716-731. *)
Lemma convert_unknown_unit tdelta unit :
  Str.mem unit (Str.keys TIME_INCREMENTS) = false ->
  DateDifference.convert tdelta unit = inl UnboundLocalError.
Proof.
  unfold Str.mem, Str.keys, TIME_INCREMENTS. cbn [map fst existsb].
  intros Hm.
  repeat (apply orb_false_iff in Hm; destruct Hm as [? Hm]).
  unfold DateDifference.convert.
  repeat match goal with
         | E : String.eqb unit ?k = false |- _ => rewrite E; clear E
         end.
  reflexivity.
Qed.

(** C8: with an unrecognised unit name [DateDifference] does not end on the
    [inc] message.  For a single name it issues the message, goes on (line
    701 has no [return]) and raises [UnboundLocalError] at line 732; for a
    list of names it raises [NameError] at line 697 before any message. *)
Theorem C8_date_difference_unknown_unit :
  forall H l1 l2 d1 d2,
    Date.init H l1 None None = inr d1 ->
    Date.init H l2 None None = inr d2 ->
    (forall u,
        Str.mem (Str.unquote u) (Str.keys TIME_INCREMENTS) = false ->
        DateDifference.apply H (VList l1) (VList l2) (VStr u)
        = ([Msg "DateDifference" "inc" [VStr u]], Raise UnboundLocalError))
    /\ (forall units,
           DateDifference.apply H (VList l1) (VList l2) (VList units)
           = ([], Raise NameError)).
Proof.
  intros H l1 l2 d1 d2 H1 H2. split.
  - intros u Hu.
    unfold DateDifference.apply, DateDifference.initial_date,
      DateDifference.final_date.
    rewrite H1, H2. cbn [DateDifference.process_units forallb].
    rewrite Hu. cbn [andb]. rewrite (convert_unknown_unit _ _ Hu). reflexivity.
  - intros units.
    unfold DateDifference.apply, DateDifference.initial_date,
      DateDifference.final_date.
    rewrite H1, H2. reflexivity.
Qed.

Lemma C8_date_difference_unknown_unit_witness :
  DateDifference.apply silent_host
    (VList [VI 2010; VI 1; VI 1]) (VList [VI 2010; VI 1; VI 2])
    (VStr (Str.quoted "Fortnight"))
  = ([Msg "DateDifference" "inc" [VStr (Str.quoted "Fortnight")]],
     Raise UnboundLocalError)
  /\ DateDifference.apply silent_host
       (VList [VI 2010; VI 1; VI 1]) (VList [VI 2010; VI 1; VI 2])
       (VList [VStr (Str.quoted "Fortnight")])
     = ([], Raise NameError).
Proof.
  pose proof (C8_date_difference_unknown_unit silent_host
                [VI 2010; VI 1; VI 1] [VI 2010; VI 1; VI 2]
                (mkdatetime 2010 1 1 0 0 0 0) (mkdatetime 2010 1 2 0 0 0 0)
                eq_refl eq_refl) as [Hone Hlist].
  split.
  - exact (Hone (Str.quoted "Fortnight") eq_refl).
  - exact (Hlist [VStr (Str.quoted "Fortnight")]).
Defined.

End DateDifferenceFacts.

(** ** [DatePlus]: increments that are turned down *)

Section DatePlusFacts.

Local Open Scope string_scope.
Local Open Scope Z_scope.

Lemma normalise_pairs pairs :
  DatePlus.normalise (offsets_of pairs) = offsets_of pairs.
Proof. destruct pairs as [|p [|q [|r rest]]]; reflexivity. Qed.

Lemma strip_offsets_pairs pairs :
  DatePlus.strip_offsets (offsets_of pairs)
  = inr (map (fun p => (fst p, Str.unquote (snd p))) pairs).
Proof.
  unfold offsets_of. cbn [DatePlus.strip_offsets].
  induction pairs as [|p pairs IH]; [reflexivity|].
  cbn [map DatePlus.strip_pairs DatePlus.strip_pair bind]. rewrite IH. reflexivity.
Qed.

Lemma forallb_mapped {A B : Type} (f : B -> bool) (g : A -> B) l :
  forallb f (map g l) = forallb (fun x => f (g x)) l.
Proof. induction l as [|x l IH]; [reflexivity|]. cbn. rewrite IH. reflexivity. Qed.

(** With a date that [_Date] accepts, a list of pairs in which some unit
    name is not in [TIME_INCREMENTS], or some amount is not a number, ends
    on the [inc] message and no value. *)
Lemma DatePlus_rejects_bad_increment H pydate prec idate pairs :
  DatePlus.process_date H pydate = Some (prec, inr idate) ->
  existsb (fun p => negb (DatePlus.increment_ok (fst p, Str.unquote (snd p)))) pairs
  = true ->
  DatePlus.apply H pydate (offsets_of pairs)
  = ([Msg "DatePlus" "inc" [offsets_of pairs]], ReturnNone).
Proof.
  intros Hd Hbad. unfold DatePlus.apply.
  rewrite Hd, normalise_pairs, strip_offsets_pairs.
  rewrite forallb_mapped.
  assert (Hall : forallb (fun p => DatePlus.increment_ok (fst p, Str.unquote (snd p)))
                   pairs = false).
  { apply not_true_is_false. intros Hall. rewrite forallb_forall in Hall.
    apply existsb_exists in Hbad as (p & Hin & Hp).
    rewrite (Hall p Hin) in Hp. discriminate. }
  rewrite Hall. reflexivity.
Qed.

(** [DatePlus[{2010, 2, 5}, {1, "Fortnight"}]] and
    [DatePlus[{2010, 2, 5}, {{8, "Week"}, {"one", "Day"}}]]. *)
Example DatePlus_unknown_unit :
  forall H,
    DatePlus.apply H (VList [VI 2010; VI 2; VI 5])
      (VList [VI 1; VStr (Str.quoted "Fortnight")])
    = ([Msg "DatePlus" "inc" [VList [VI 1; VStr (Str.quoted "Fortnight")]]],
       ReturnNone)
    /\ DatePlus.apply H (VList [VI 2010; VI 2; VI 5])
         (offsets_of [(VI 8, Str.quoted "Week"); (VStr (Str.quoted "one"), Str.quoted "Day")])
       = ([Msg "DatePlus" "inc"
             [offsets_of [(VI 8, Str.quoted "Week");
                          (VStr (Str.quoted "one"), Str.quoted "Day")]]],
          ReturnNone).
Proof. intros H. split; vm_compute; reflexivity. Qed.

(** [DatePlus[{2010, 2, 5}, 73]] and
    [DatePlus[{2010, 2, 5}, {{8, "Week"}, {1, "Day"}}]]. *)
Example DatePlus_documented :
  forall H,
    DatePlus.apply H (VList [VI 2010; VI 2; VI 5]) (VI 73)
    = ([], Return (VList [VI 2010; VI 4; VI 19]))
    /\ DatePlus.apply H (VList [VI 2010; VI 2; VI 5])
         (offsets_of [(VI 8, Str.quoted "Week"); (VI 1, Str.quoted "Day")])
       = ([], Return (VList [VI 2010; VI 4; VI 3])).
Proof. intros H. split; vm_compute; reflexivity. Qed.

End DatePlusFacts.

(** ** [addself]: the carry of years and months *)

Section CarryFacts.

Local Open Scope string_scope.
Local Open Scope Z_scope.

Lemma lookup_mem {A : Type} u (t : list (string * A)) v :
  Str.lookup u t = Some v -> Str.mem u (Str.keys t) = true.
Proof.
  unfold Str.mem, Str.keys. induction t as [|[k w] t IH]; [discriminate|].
  cbn [Str.lookup map fst existsb]. destruct (String.eqb u k); [reflexivity|].
  intros Hl. rewrite (IH Hl). reflexivity.
Qed.

(** [DatePlus] with one pair of a number and a unit of the table: the one
    [addself] that it comes down to. *)
Lemma apply_single_offset H pydate x u tv :
  Str.unquote (Str.quoted u) = u ->
  Str.lookup u TIME_INCREMENTS = Some tv ->
  DatePlus.apply H pydate (VList [VNum x; VStr (Str.quoted u)])
  = match DatePlus.process_date H pydate with
    | None => ([Msg "DatePlus" "date" [pydate]], ReturnNone)
    | Some (_, inl e) => ([], Raise e)
    | Some (prec, inr idate) =>
        match Date.addself idate (map (fun k => mul x (PInt k)) tv) with
        | inl e => ([], Raise e)
        | inr idate =>
            match prec with
            | DatePlus.PrecList n =>
                ([], Return (VList (firstn n (Date.to_list idate))))
            | DatePlus.PrecAbsolute =>
                ([], Return (VExpr "AbsoluteTime" [VList (Date.to_list idate)]))
            | DatePlus.PrecString =>
                ([], Return (VExpr "DateString" [VList (Date.to_list idate)]))
            end
        end
    end.
Proof.
  intros Hq Hl. unfold DatePlus.apply.
  destruct (DatePlus.process_date H pydate) as [[prec [e|idate]]|];
    [reflexivity| |reflexivity].
  cbn [DatePlus.normalise DatePlus.strip_offsets DatePlus.strip_pairs
       DatePlus.strip_pair bind].
  rewrite Hq. cbn [forallb DatePlus.add_all].
  unfold DatePlus.increment_ok, DatePlus.timevec. cbn [fst snd].
  rewrite (lookup_mem _ _ _ Hl), Hl. cbn [andb bind].
  destruct (Date.addself idate (map (fun k => mul x (PInt k)) tv)); reflexivity.
Qed.

Lemma init_ymd H y m d :
  valid_ymd y m d = true ->
  Date.init H [VI y; VI m; VI d] None None = inr (mkdatetime y m d 0 0 0 0).
Proof.
  intros Hv.
  assert (Hv' : valid (mkdatetime y m d 0 0 0 0) = true)
    by (apply valid_intro; [exact Hv|lia..]).
  exact (init_whole_second H y m d 0 0 0 0 (Qeq_refl 0) Hv').
Qed.






End CarryFacts.

(** ** [DateString]: rendering *)

Section RenderFacts.

Local Open Scope string_scope.
Local Open Scope Z_scope.






(** *** Fields between spaces *)




(** *** Digits and names *)












(** *** The elements one by one *)













(** The documented renderings. *)
Example DateString_documented :
  forall H,
    DateString.apply H (VList [VI 1991; VI 10; VI 31; VI 0; VI 0])
      (VList (map (fun s => VStr (Str.quoted s))
                ["Day"; " "; "MonthName"; " "; "Year"]))
    = ([], Return (VStr "31 October 1991"))
    /\ DateString.apply H (VList [VI 2007; VI 4; VI 15; VI 0])
         (VList [VStr (Str.quoted "DateTimeShort")])
       = ([], Return (VStr "Sun 15 Apr 2007 00:00:00"))
    /\ DateString.apply H (VList [VI 1991; VI 6; VF (13 # 2)])
         (VList [VStr (Str.quoted "DateTimeShort")])
       = ([], Return (VStr "Thu 6 Jun 1991 12:00:00")).
Proof. intros H. repeat split; vm_compute; reflexivity. Qed.

End RenderFacts.

(** ** A date, its list, and back *)

Section ListOfDate.

Local Open Scope string_scope.
Local Open Scope Z_scope.

(** The float of the seconds of a valid date has its whole seconds. *)
Lemma float_second_floor d :
  valid d = true ->
  (0 <= Date.float_second d)%Q /\ (Date.float_second d < 60)%Q
  /\ Qfloor (Date.float_second d) = second d.
Proof.
  intros Hv. apply valid_fields in Hv as (_ & _ & _ & Hs & Hus).
  assert (Hs0 : (inject_Z 0 <= inject_Z (second d))%Q) by (rewrite <- Zle_Qle; lia).
  assert (Hs1 : (inject_Z (second d) <= inject_Z 59)%Q) by (rewrite <- Zle_Qle; lia).
  change (inject_Z 0) with 0%Q in *. change (inject_Z 59) with 59%Q in *.
  destruct (Z.eq_dec (microsecond d) 0) as [E0|Hne].
  - rewrite (float_second_whole d Hs E0).
    split; [exact Hs0|]. split; [lra|apply Qfloor_Z].
  - pose proof (float_second_near d Hs Hus) as Hn.
    apply Qabs_Qle_condition in Hn.
    assert (Hu0 : (inject_Z 1 <= inject_Z (microsecond d))%Q)
      by (rewrite <- Zle_Qle; lia).
    assert (Hu1 : (inject_Z (microsecond d) <= inject_Z 999999)%Q)
      by (rewrite <- Zle_Qle; lia).
    change (inject_Z 1) with 1%Q in *. change (inject_Z 999999) with 999999%Q in *.
    unfold Qdiv in Hn. change (/ 1000000)%Q with (1 # 1000000)%Q in Hn.
    assert (Hb : (inject_Z (second d) <= Date.float_second d)%Q
                 /\ (Date.float_second d < inject_Z (second d) + 1)%Q).
    { set (a := inject_Z (second d)) in *. set (b := inject_Z (microsecond d)) in *.
      set (f := Date.float_second d) in *. clearbody a b f. split; lra. }
    destruct Hb as [Hb1 Hb2].
    split; [lra|]. split; [lra|]. apply Qfloor_unique; assumption.
Qed.

(** What line 528 keeps of the float of the seconds of a valid date: its
    microseconds, or one less. *)
Lemma kept_us_of_date d :
  valid d = true ->
  (kept_us (Date.float_second d) = microsecond d
   \/ kept_us (Date.float_second d) = microsecond d - 1)
  /\ 0 <= kept_us (Date.float_second d)
  /\ (microsecond d = 0 -> kept_us (Date.float_second d) = 0).
Proof.
  intros Hv. destruct (float_second_floor d Hv) as (_ & _ & Hfl).
  apply valid_fields in Hv as (_ & _ & _ & Hs & Hus).
  unfold kept_us. rewrite Hfl.
  destruct (Z.eq_dec (microsecond d) 0) as [E0|Hne].
  - rewrite (float_second_whole d Hs E0).
    assert (E : (inject_Z 1000000 * (inject_Z (second d) - inject_Z (second d))
                 == 0)%Q) by ring.
    rewrite (double_comp _ _ E), double_0, E0.
    change (Qtrunc 0) with 0. split; [left; reflexivity|]. split; [lia|reflexivity].
  - pose proof (float_second_near d Hs Hus) as Hn.
    apply Qabs_Qle_condition in Hn.
    assert (Hu0 : (inject_Z 1 <= inject_Z (microsecond d))%Q)
      by (rewrite <- Zle_Qle; lia).
    assert (Hu1 : (inject_Z (microsecond d) <= inject_Z 999999)%Q)
      by (rewrite <- Zle_Qle; lia).
    change (inject_Z 1) with 1%Q in *. change (inject_Z 999999) with 999999%Q in *.
    unfold Qdiv in Hn. change (/ 1000000)%Q with (1 # 1000000)%Q in Hn.
    change (inject_Z 1000000) with 1000000%Q.
    set (w := (1000000 * (Date.float_second d - inject_Z (second d)))%Q).
    assert (Hw : (Qabs w <= 1000000)%Q).
    { apply Qabs_Qle_condition. unfold w.
      set (a := inject_Z (second d)) in *. set (b := inject_Z (microsecond d)) in *.
      set (f := Date.float_second d) in *. clearbody a b f. split; lra. }
    destruct (double_within 1000000 w ltac:(lra) Hw) as [Hd1 Hd2].
    assert (Ht : (inject_Z (microsecond d) - 1 < double w)%Q
                 /\ (double w < inject_Z (microsecond d) + 1)%Q).
    { unfold EPS in *. unfold w in Hd1, Hd2 |- *.
      set (a := inject_Z (second d)) in *. set (b := inject_Z (microsecond d)) in *.
      set (f := Date.float_second d) in *.
      set (t := double (1000000 * (f - a))%Q) in *.
      clearbody a b f t. split; lra. }
    destruct Ht as [Ht1 Ht2].
    assert (Hpos : (0 <= double w)%Q) by lra.
    rewrite (Qtrunc_nonneg _ Hpos).
    assert (Hr : microsecond d - 1 <= Qfloor (double w) < microsecond d + 1).
    { apply Qfloor_range.
      - unfold Z.sub. rewrite inject_Z_plus.
        change (inject_Z (- (1))) with (- (1))%Q. lra.
      - rewrite inject_Z_plus. change (inject_Z 1) with 1%Q. exact Ht2. }
    split; [lia|]. split; [lia|]. intros. lia.
Qed.

Lemma valid_without_second d :
  valid d = true ->
  valid (mkdatetime (year d) (month d) (day d) (hour d) (minute d) 0 0) = true.
Proof.
  intros Hv. apply valid_fields in Hv as (Hymd & Hh & Hmi & _ & _).
  apply valid_intro; try assumption; lia.
Qed.

(** The list of a valid date builds that date again, but for the
    microsecond that the truncation of line 528 may take away. *)
Lemma init_to_list H d :
  valid d = true ->
  let d' := mkdatetime (year d) (month d) (day d) (hour d) (minute d)
              (second d) (kept_us (Date.float_second d)) in
  Date.init H (Date.to_list d) None None = inr d' /\ valid d' = true.
Proof.
  intros Hv d'.
  destruct (float_second_floor d Hv) as (H0 & H60 & Hfl).
  destruct (kept_us_of_date d Hv) as (Hk & Hk0 & _).
  pose proof (valid_fields d Hv) as (Hymd & Hh & Hmi & Hs & Hus).
  assert (Hv' : valid d' = true)
    by (apply valid_intro; try assumption; lia).
  split; [|exact Hv'].
  unfold Date.to_list. apply init_fields; [|exact Hv'].
  rewrite (second_args_float _ H0), Hfl. reflexivity.
Qed.

(** The list of a valid date of whole seconds builds that very date. *)
Lemma init_to_list_whole H d :
  valid d = true -> microsecond d = 0 ->
  Date.init H (Date.to_list d) None None = inr d.
Proof.
  intros Hv Hus. destruct (init_to_list H d Hv) as [-> _].
  destruct (kept_us_of_date d Hv) as (_ & _ & Hk). rewrite (Hk Hus).
  rewrite <- Hus. destruct d. reflexivity.
Qed.

End ListOfDate.

(** ** Resolving a list that is already a date *)

Section Canonical.

Local Open Scope string_scope.
Local Open Scope Z_scope.

(** Two integers less than 1 apart are equal. *)
Lemma Z_of_near a b : (Qabs (inject_Z a - inject_Z b) < 1)%Q -> a = b.
Proof.
  intros Hn. apply Qabs_Qlt_condition in Hn. destruct Hn as [H1 H2].
  assert (E : (inject_Z a - inject_Z b == inject_Z (a - b))%Q)
    by (unfold Z.sub; rewrite inject_Z_plus, inject_Z_opp; ring).
  rewrite E in H1, H2.
  change 1%Q with (inject_Z 1) in H1, H2.
  rewrite <- inject_Z_opp in H1. rewrite <- Zlt_Qlt in H1, H2. lia.
Qed.

(** The elapsed time that [to_datelist] adds to the anchor for the list of a
    date is the time from the first of the month to the date: the rounding
    of [timedelta] undoes that of [second + 1e-6 * microsecond]. *)
Lemma delta_us_of_date d :
  valid d = true ->
  delta_us (sub (PInt (day d)) (PInt 1)) (PInt (hour d)) (PInt (minute d))
    (PFloat (Date.float_second d))
  = (day d - 1) * US_PER_DAY + hour d * US_PER_HOUR + minute d * US_PER_MINUTE
    + (second d * US_PER_SECOND + microsecond d).
Proof.
  intros Hv. apply valid_fields in Hv as (_ & _ & _ & Hs & Hus).
  apply Z_of_near.
  pose proof (delta_us_near (sub (PInt (day d)) (PInt 1)) (PInt (hour d))
                (PInt (minute d)) (PFloat (Date.float_second d))) as Hn.
  pose proof (float_second_near d Hs Hus) as Hf.
  apply Qabs_Qle_condition in Hn. apply Qabs_Qle_condition in Hf.
  unfold exact_us in Hn. cbn [sub to_Q] in Hn.
  unfold Qdiv in Hf. change (/ 1000000)%Q with (1 # 1000000)%Q in Hf.
  rewrite !inject_Z_plus, !inject_Z_mult.
  change (inject_Z US_PER_SECOND) with 1000000%Q in *.
  change (inject_Z US_PER_MINUTE) with 60000000%Q in *.
  change (inject_Z US_PER_HOUR) with 3600000000%Q in *.
  change (inject_Z US_PER_DAY) with 86400000000%Q in *.
  set (D := inject_Z (delta_us _ _ _ _)) in *.
  set (dd := inject_Z (day d - 1)) in *. set (hh := inject_Z (hour d)) in *.
  set (mm := inject_Z (minute d)) in *. set (ss := inject_Z (second d)) in *.
  set (uu := inject_Z (microsecond d)) in *. set (f := Date.float_second d) in *.
  clearbody D dd hh mm ss uu f.
  apply Qabs_Qlt_condition. split; lra.
Qed.

Lemma valid_ymd_first y m d : valid_ymd y m d = true -> valid_ymd y m 1 = true.
Proof.
  intros Hv. apply valid_ymd_bounds in Hv as (Hy & Hm & Hd).
  unfold valid_ymd, MINYEAR, MAXYEAR.
  repeat (apply andb_true_iff; split); apply Z.leb_le; lia.
Qed.

Lemma numeric_datelist_of_date name d :
  valid d = true ->
  DateFormat.numeric_datelist name (Date.to_list d) = ([], Return (Date.to_list d)).
Proof.
  intros Hv. pose proof (to_us_bounds d Hv) as Hb.
  pose proof (valid_fields d Hv) as (Hymd & _).
  assert (Ha : valid (mkdatetime (year d) (month d) 1 0 0 0 0) = true)
    by (apply valid_intro; [exact (valid_ymd_first _ _ _ Hymd)|lia..]).
  assert (Ht : to_us (mkdatetime (year d) (month d) 1 0 0 0 0)
               + delta_us (sub (PInt (day d)) (PInt 1)) (PInt (hour d))
                   (PInt (minute d)) (PFloat (Date.float_second d))
               = to_us d).
  { rewrite (delta_us_of_date d Hv). unfold to_us, ymd2ord.
    cbn [year month day hour minute second microsecond]. lia. }
  unfold DateFormat.numeric_datelist, Date.to_list, VI, VF.
  cbn [Date.pad List.length skipn app default_date].
  rewrite (datetime_new_valid _ _ _ _ _ _ _ Ha).
  destruct (timedelta_new_cases (sub (PInt (day d)) (PInt 1)) (PInt (hour d))
              (PInt (minute d)) (PFloat (Date.float_second d))) as [E|[_ E]].
  - rewrite E. cbn [bind].
    rewrite add_delta_in_range by (rewrite Ht; exact Hb).
    rewrite Ht, (of_us_to_us d Hv). reflexivity.
  - exfalso.
    pose proof (to_us_bounds _ Ha) as Hb'. lia.
Qed.

End Canonical.

Section Idempotence.

Local Open Scope string_scope.
Local Open Scope Z_scope.

Lemma to_datelist_of_date H name d :
  valid d = true ->
  DateFormat.to_datelist H name (VList (Date.to_list d))
  = ([], Return (Date.to_list d)).
Proof.
  intros Hv. cbn [DateFormat.to_datelist].
  change ((1 <=? List.length (Date.to_list d))%nat
          && (List.length (Date.to_list d) <=? 6)%nat
          && DateFormat.numeric_items 0 (Date.to_list d)) with true.
  cbv iota. apply numeric_datelist_of_date. exact Hv.
Qed.

(** What [to_datelist] returns for a list of numbers is the list of a valid
    date. *)
Lemma numeric_datelist_return name l msgs dl :
  DateFormat.numeric_datelist name l = (msgs, Return dl) ->
  msgs = [] /\ exists d, valid d = true /\ dl = Date.to_list d.
Proof.
  unfold DateFormat.numeric_datelist. intros Hr.
  repeat match type of Hr with
         | context [match ?x with _ => _ end] =>
             destruct x eqn:?; try discriminate
         end.
  injection Hr as <- <-. split; [reflexivity|].
  match goal with
  | E : bind _ _ = inr ?r |- _ =>
      exists r; split; [|reflexivity];
      unfold bind in E;
      repeat match type of E with
             | context [match ?x with _ => _ end] =>
                 destruct x eqn:?; try discriminate
             end;
      apply add_delta_ok in E; tauto
  end.
Qed.

Lemma to_datelist_numbers_return H name nums msgs dl :
  DateFormat.to_datelist H name (VList (map VNum nums)) = (msgs, Return dl) ->
  DateFormat.numeric_datelist name (map VNum nums) = (msgs, Return dl).
Proof.
  cbn [DateFormat.to_datelist].
  destruct ((1 <=? List.length (map VNum nums))%nat
            && (List.length (map VNum nums) <=? 6)%nat
            && DateFormat.numeric_items 0 (map VNum nums)); [tauto|].
  destruct nums as [|a [|b [|c rest]]]; cbn [map]; discriminate.
Qed.

End Idempotence.

(** ** Integer increments *)

Section IntegerIncrements.

Local Open Scope string_scope.
Local Open Scope Z_scope.

(** [addself] on an integer increment, step by step. *)
Lemma addself_int_unfold d dy dmo dd dh dmi ds :
  Date.addself d [PInt dy; PInt dmo; PInt dd; PInt dh; PInt dmi; PInt ds]
  = (date <- datetime_new (year d + dy + (month d - 1 + dmo) / 12)
               ((month d - 1 + dmo) mod 12 + 1)
               (day d) (hour d) (minute d) (second d) 0 ;;
     tdelta <- timedelta_new (PInt dd) (PInt dh) (PInt dmi) (PInt ds) ;;
     add_delta date tdelta).
Proof. unfold Date.addself. rewrite addself_fields_int_eq. reflexivity. Qed.

Lemma add_delta_inv d t d' :
  add_delta d t = inr d' ->
  0 <= to_us d + t < US_END /\ d' = of_us (to_us d + t).
Proof.
  unfold add_delta. cbv zeta.
  destruct (Z.leb_spec 0 (to_us d + t)); destruct (Z.ltb_spec (to_us d + t) US_END);
    cbn [andb]; try discriminate.
  intros [= <-]. split; [split; assumption|reflexivity].
Qed.

Lemma bind_inr_inv {A B : Type} (m : pyexn + A) (f : A -> pyexn + B) b :
  bind m f = inr b -> exists a, m = inr a /\ f a = inr b.
Proof.
  destruct m as [e|a]; [discriminate|]. intros E. exists a. split; [reflexivity|exact E].
Qed.

Lemma increment_chain_inv y m d h mi s dd dh dmi ds d' :
  (date <- datetime_new y m d h mi s 0 ;;
   tdelta <- timedelta_new (PInt dd) (PInt dh) (PInt dmi) (PInt ds) ;;
   add_delta date tdelta) = inr d' ->
  valid (mkdatetime y m d h mi s 0) = true
  /\ 0 <= to_us (mkdatetime y m d h mi s 0) + elapsed_us dd dh dmi ds < US_END
  /\ d' = of_us (to_us (mkdatetime y m d h mi s 0) + elapsed_us dd dh dmi ds).
Proof.
  intros Ha.
  apply bind_inr_inv in Ha as (date & Hn & Ha).
  apply bind_inr_inv in Ha as (td & Ht & Ha).
  apply datetime_new_inr in Hn as [-> Hv].
  apply timedelta_new_inr in Ht. rewrite delta_us_int in Ht.
  apply add_delta_inv in Ha. destruct Ha as [Hr He].
  unfold elapsed_us. rewrite <- Ht. split; [exact Hv|]. split; [exact Hr|exact He].
Qed.

Lemma increment_chain_ok y m d h mi s dd dh dmi ds :
  valid (mkdatetime y m d h mi s 0) = true ->
  0 <= to_us (mkdatetime y m d h mi s 0) + elapsed_us dd dh dmi ds < US_END ->
  (date <- datetime_new y m d h mi s 0 ;;
   tdelta <- timedelta_new (PInt dd) (PInt dh) (PInt dmi) (PInt ds) ;;
   add_delta date tdelta)
  = inr (of_us (to_us (mkdatetime y m d h mi s 0) + elapsed_us dd dh dmi ds)).
Proof.
  intros Hv Ht. rewrite (datetime_new_valid _ _ _ _ _ _ _ Hv). cbn [bind].
  pose proof (to_us_bounds _ Hv) as Hb.
  pose proof (delta_us_int dd dh dmi ds) as Hi.
  destruct (timedelta_new_cases (PInt dd) (PInt dh) (PInt dmi) (PInt ds))
    as [E|[_ E]].
  - rewrite E. cbn [bind]. rewrite Hi. apply add_delta_in_range. exact Ht.
  - exfalso. rewrite Hi in E. unfold elapsed_us in Ht. lia.
Qed.

Lemma addself_int_inv d dy dmo dd dh dmi ds d' :
  Date.addself d [PInt dy; PInt dmo; PInt dd; PInt dh; PInt dmi; PInt ds] = inr d' ->
  let base := mkdatetime (year d + dy + (month d - 1 + dmo) / 12)
                ((month d - 1 + dmo) mod 12 + 1)
                (day d) (hour d) (minute d) (second d) 0 in
  valid base = true
  /\ 0 <= to_us base + elapsed_us dd dh dmi ds < US_END
  /\ d' = of_us (to_us base + elapsed_us dd dh dmi ds).
Proof.
  rewrite addself_int_unfold. cbv zeta. apply increment_chain_inv.
Qed.

Lemma addself_int_ok d dy dmo dd dh dmi ds :
  let base := mkdatetime (year d + dy + (month d - 1 + dmo) / 12)
                ((month d - 1 + dmo) mod 12 + 1)
                (day d) (hour d) (minute d) (second d) 0 in
  valid base = true ->
  0 <= to_us base + elapsed_us dd dh dmi ds < US_END ->
  Date.addself d [PInt dy; PInt dmo; PInt dd; PInt dh; PInt dmi; PInt ds]
  = inr (of_us (to_us base + elapsed_us dd dh dmi ds)).
Proof.
  cbv zeta. rewrite addself_int_unfold. apply increment_chain_ok.
Qed.

(** Without a year or month part the calendar-field phase keeps the date,
    microsecond apart. *)
Lemma carry_nothing d :
  valid d = true ->
  mkdatetime (year d + 0 + (month d - 1 + 0) / 12) ((month d - 1 + 0) mod 12 + 1)
    (day d) (hour d) (minute d) (second d) 0
  = mkdatetime (year d) (month d) (day d) (hour d) (minute d) (second d) 0.
Proof.
  intros Hv. apply valid_fields in Hv as (Hymd & _).
  apply valid_ymd_bounds in Hymd as (_ & Hm & _).
  f_equal; Z.div_mod_to_equations; lia.
Qed.

Lemma valid_whole_second d :
  valid d = true ->
  valid (mkdatetime (year d) (month d) (day d) (hour d) (minute d) (second d) 0)
  = true
  /\ to_us (mkdatetime (year d) (month d) (day d) (hour d) (minute d) (second d) 0)
     = to_us d - microsecond d.
Proof.
  intros Hv. pose proof (valid_fields d Hv) as (Hymd & Hh & Hmi & Hs & Hus).
  split; [apply valid_intro; try assumption; lia|].
  unfold to_us. cbn [year month day hour minute second microsecond]. lia.
Qed.

End IntegerIncrements.

(** * Further properties *)

(** ** Dates as lists of three integers *)

Section DaysOnly.

Local Open Scope string_scope.
Local Open Scope Z_scope.

Lemma to_us_midnight y m d :
  to_us (mkdatetime y m d 0 0 0 0) = (ymd2ord y m d - 1) * US_PER_DAY.
Proof. unfold to_us. cbn [year month day hour minute second microsecond]. lia. Qed.

Lemma of_us_midnight ord :
  1 <= ord <= MAXORDINAL ->
  exists y m d,
    of_us ((ord - 1) * US_PER_DAY) = mkdatetime y m d 0 0 0 0
    /\ valid_ymd y m d = true /\ ymd2ord y m d = ord.
Proof.
  intros Hord. unfold of_us.
  assert (Hq : (ord - 1) * US_PER_DAY / US_PER_DAY + 1 = ord)
    by (unfold US_PER_DAY, US_PER_SECOND; Z.div_mod_to_equations; lia).
  assert (Hr : ((ord - 1) * US_PER_DAY) mod US_PER_DAY = 0)
    by (apply Z_mod_mult).
  rewrite Hq, Hr. pose proof (ord2ymd_correct ord Hord) as Hc.
  destruct (ord2ymd ord) as [[y m] d]. destruct Hc as [Hv Ho].
  exists y, m, d. split; [reflexivity|]. split; assumption.
Qed.

(** [DatePlus] on a date of three fields and [n] days: the date whose
    ordinal is [n] more. *)
Lemma DatePlus_days_ordinal H y m d n :
  valid_ymd y m d = true ->
  1 <= ymd2ord y m d + n <= MAXORDINAL ->
  exists y' m' d',
    DatePlus.apply H (VList [VI y; VI m; VI d]) (VI n)
    = ([], Return (VList [VI y'; VI m'; VI d']))
    /\ valid_ymd y' m' d' = true
    /\ ymd2ord y' m' d' = ymd2ord y m d + n.
Proof.
  intros Hv Hn.
  assert (Hv0 : valid (mkdatetime y m d 0 0 0 0) = true)
    by (apply valid_intro; [exact Hv|lia..]).
  destruct (of_us_midnight (ymd2ord y m d + n) Hn) as (y' & m' & d' & Ho & Hv' & Hord).
  exists y', m', d'. split; [|split; assumption].
  unfold DatePlus.apply, DatePlus.process_date.
  rewrite (init_ymd H y m d Hv).
  cbn [DatePlus.normalise VI DatePlus.strip_offsets DatePlus.strip_pairs
       DatePlus.strip_pair bind].
  change (Str.unquote (Str.quoted "Day")) with "Day".
  cbn [forallb DatePlus.add_all].
  change (DatePlus.increment_ok (VI n, "Day")) with true. cbv iota. cbn [andb].
  change (DatePlus.timevec (VI n, "Day"))
    with [PInt (n * 0); PInt (n * 0); PInt (n * 1);
          PInt (n * 0); PInt (n * 0); PInt (n * 0)].
  rewrite !Z.mul_0_r, Z.mul_1_r.
  rewrite addself_int_ok; rewrite (carry_nothing _ Hv0);
    cbn [year month day hour minute second];
    [ | exact Hv0
      | rewrite to_us_midnight;
        unfold elapsed_us, US_END, MAXORDINAL, US_PER_DAY, US_PER_HOUR,
          US_PER_MINUTE, US_PER_SECOND in *; lia ].
  cbn [bind].
  replace (to_us (mkdatetime y m d 0 0 0 0) + elapsed_us n 0 0 0)
    with ((ymd2ord y m d + n - 1) * US_PER_DAY)
    by (rewrite to_us_midnight; unfold elapsed_us; lia).
  rewrite Ho. reflexivity.
Qed.

(** [DateDifference] in days between two dates of three fields: the
    difference of their ordinals, an integer. *)
Lemma DateDifference_days_ordinal H y1 m1 d1 y2 m2 d2 :
  valid_ymd y1 m1 d1 = true -> valid_ymd y2 m2 d2 = true ->
  DateDifference.apply H (VList [VI y1; VI m1; VI d1]) (VList [VI y2; VI m2; VI d2])
    (VStr (Str.quoted "Day"))
  = ([], Return (VI (ymd2ord y2 m2 d2 - ymd2ord y1 m1 d1))).
Proof.
  intros Hv1 Hv2.
  assert (Hd1 : valid (mkdatetime y1 m1 d1 0 0 0 0) = true)
    by (apply valid_intro; [exact Hv1|lia..]).
  assert (Hd2 : valid (mkdatetime y2 m2 d2 0 0 0 0) = true)
    by (apply valid_intro; [exact Hv2|lia..]).
  assert (Hsmall : Z.abs ((ymd2ord y2 m2 d2 - ymd2ord y1 m1 d1) * 86400) < 2 ^ 53).
  { apply (seconds_apart_small _ _ _ Hd2 Hd1). rewrite !to_us_midnight.
    unfold US_PER_DAY. lia. }
  unfold DateDifference.apply, DateDifference.initial_date,
    DateDifference.final_date.
  rewrite (init_ymd H _ _ _ Hv1), (init_ymd H _ _ _ Hv2).
  cbn [DateDifference.process_units].
  change (Str.unquote (Str.quoted "Day")) with "Day".
  change (forallb (fun p => Str.mem p (Str.keys TIME_INCREMENTS)) ["Day"]) with true.
  cbv iota. unfold diff. rewrite !to_us_midnight.
  replace ((ymd2ord y2 m2 d2 - 1) * US_PER_DAY - (ymd2ord y1 m1 d1 - 1) * US_PER_DAY)
    with ((ymd2ord y2 m2 d2 - ymd2ord y1 m1 d1) * 86400 * US_PER_SECOND)
    by (unfold US_PER_DAY; lia).
  destruct (convert_whole_seconds _ Hsmall) as (_ & _ & _ & _ & -> & _).
  rewrite intdiv_int.
  change (24 * 3600) with 86400.
  rewrite Z_mod_mult, Z_div_mult by lia. reflexivity.
Qed.

End DaysOnly.

(** ** Date lists: fixed points and round trips *)

Section ExtraDateLists.

Local Open Scope string_scope.
Local Open Scope Z_scope.

(** X1: whatever [to_datelist] returns for a list of numbers is the list of
    a valid date, and resolving that list again returns it unchanged:
    [DateList[DateList[l]]] is [DateList[l]]. *)
Theorem X1_numeric_resolution_is_idempotent :
  forall H name nums msgs dl,
    DateFormat.to_datelist H name (VList (map VNum nums)) = (msgs, Return dl) ->
    (exists d, valid d = true /\ dl = Date.to_list d)
    /\ DateFormat.to_datelist H name (VList dl) = ([], Return dl).
Proof.
  intros H name nums msgs dl Hr.
  apply to_datelist_numbers_return in Hr.
  apply numeric_datelist_return in Hr as (_ & d & Hv & ->).
  split; [exists d; split; [exact Hv|reflexivity]|].
  apply to_datelist_of_date. exact Hv.
Qed.

Lemma X1_numeric_resolution_is_idempotent_witness :
  (exists d, valid d = true
             /\ Date.to_list (mkdatetime 2003 4 30 12 6 46 20000) = Date.to_list d)
  /\ DateFormat.to_datelist silent_host "DateList"
       (VList (Date.to_list (mkdatetime 2003 4 30 12 6 46 20000)))
     = ([], Return (Date.to_list (mkdatetime 2003 4 30 12 6 46 20000))).
Proof.
  exact (X1_numeric_resolution_is_idempotent silent_host "DateList"
           [PInt 2003; PInt 5; PFloat (1 # 2); PFloat (double (1 # 10));
            PFloat (double (767 # 1000))]
           [] (Date.to_list (mkdatetime 2003 4 30 12 6 46 20000)) eq_refl).
Defined.

(** X2: the list of a valid date builds that date again but for one
    microsecond at most: the fields down to the second come back as they
    are, the microsecond comes back as it is or one less (line 528
    truncates the float product [1e6 * (second % 1.)]), and a date of whole
    seconds comes back as it is. *)
Theorem X2_list_of_date_rebuilds_date :
  forall H d,
    valid d = true ->
    exists d',
      Date.init H (Date.to_list d) None None = inr d'
      /\ valid d' = true
      /\ [year d'; month d'; day d'; hour d'; minute d'; second d']
         = [year d; month d; day d; hour d; minute d; second d]
      /\ (microsecond d' = microsecond d \/ microsecond d' = microsecond d - 1)
      /\ (microsecond d = 0 -> d' = d).
Proof.
  intros H d Hv.
  destruct (init_to_list H d Hv) as [Hi Hv'].
  destruct (kept_us_of_date d Hv) as (Hk & _ & Hk0).
  eexists. split; [exact Hi|]. split; [exact Hv'|].
  cbn [year month day hour minute second microsecond].
  split; [reflexivity|]. split; [exact Hk|].
  intros Hus. rewrite (Hk0 Hus), <- Hus. destruct d. reflexivity.
Qed.

Lemma X2_list_of_date_rebuilds_date_witness :
  exists d',
    Date.init silent_host (Date.to_list (mkdatetime 2010 1 1 0 0 0 15)) None None
    = inr d'
    /\ valid d' = true
    /\ [year d'; month d'; day d'; hour d'; minute d'; second d']
       = [2010; 1; 1; 0; 0; 0]
    /\ (microsecond d' = 15 \/ microsecond d' = 15 - 1)
    /\ (15 = 0 -> d' = mkdatetime 2010 1 1 0 0 0 15).
Proof.
  exact (X2_list_of_date_rebuilds_date silent_host
           (mkdatetime 2010 1 1 0 0 0 15) eq_refl).
Defined.

(** X3: [DatePlus] on a calendar date [{y, m, d}] and an integer number [n]
    of days returns the calendar date that lies [n] days later in the
    proleptic Gregorian calendar (its ordinal is [n] more), whenever that
    date is within years 1..9999. *)
Theorem X3_date_plus_days_shifts_ordinal :
  forall H y m d n,
    valid_ymd y m d = true ->
    1 <= ymd2ord y m d + n <= MAXORDINAL ->
    exists y' m' d',
      DatePlus.apply H (VList [VI y; VI m; VI d]) (VI n)
      = ([], Return (VList [VI y'; VI m'; VI d']))
      /\ valid_ymd y' m' d' = true
      /\ ymd2ord y' m' d' = ymd2ord y m d + n.
Proof. exact DatePlus_days_ordinal. Qed.

Lemma X3_date_plus_days_shifts_ordinal_witness :
  exists y' m' d',
    DatePlus.apply silent_host (VList [VI 2010; VI 2; VI 5]) (VI 73)
    = ([], Return (VList [VI y'; VI m'; VI d']))
    /\ valid_ymd y' m' d' = true
    /\ ymd2ord y' m' d' = ymd2ord 2010 2 5 + 73.
Proof.
  exact (X3_date_plus_days_shifts_ordinal silent_host 2010 2 5 73 eq_refl
           ltac:(vm_compute; split; discriminate)).
Defined.

(** X4: [DateDifference] in days between two calendar dates of three fields
    is the number of days from the first to the second in the proleptic
    Gregorian calendar, an integer returned without a unit. *)
Theorem X4_date_difference_counts_days :
  forall H y1 m1 d1 y2 m2 d2,
    valid_ymd y1 m1 d1 = true -> valid_ymd y2 m2 d2 = true ->
    DateDifference.apply H
      (VList [VI y1; VI m1; VI d1]) (VList [VI y2; VI m2; VI d2])
      (VStr (Str.quoted "Day"))
    = ([], Return (VI (ymd2ord y2 m2 d2 - ymd2ord y1 m1 d1))).
Proof. exact DateDifference_days_ordinal. Qed.

Lemma X4_date_difference_counts_days_witness :
  DateDifference.apply silent_host
    (VList [VI 2042; VI 1; VI 4]) (VList [VI 2057; VI 1; VI 1])
    (VStr (Str.quoted "Day"))
  = ([], Return (VI (ymd2ord 2057 1 1 - ymd2ord 2042 1 4))).
Proof.
  exact (X4_date_difference_counts_days silent_host 2042 1 4 2057 1 1
           eq_refl eq_refl).
Defined.

(** X5: [DateDifference] undoes [DatePlus]: the difference in days between a
    calendar date and the date that [DatePlus] returns for it and [n] days
    is [n]. *)
Theorem X5_date_difference_undoes_date_plus :
  forall H y m d n,
    valid_ymd y m d = true ->
    1 <= ymd2ord y m d + n <= MAXORDINAL ->
    exists later,
      DatePlus.apply H (VList [VI y; VI m; VI d]) (VI n) = ([], Return later)
      /\ DateDifference.apply H (VList [VI y; VI m; VI d]) later
           (VStr (Str.quoted "Day"))
         = ([], Return (VI n)).
Proof.
  intros H y m d n Hv Hn.
  destruct (DatePlus_days_ordinal H y m d n Hv Hn) as (y' & m' & d' & Hp & Hv' & Ho).
  exists (VList [VI y'; VI m'; VI d']). split; [exact Hp|].
  rewrite (DateDifference_days_ordinal H y m d y' m' d' Hv Hv'), Ho.
  do 3 f_equal. lia.
Qed.

Lemma X5_date_difference_undoes_date_plus_witness :
  exists later,
    DatePlus.apply silent_host (VList [VI 2010; VI 2; VI 5]) (VI 73)
    = ([], Return later)
    /\ DateDifference.apply silent_host (VList [VI 2010; VI 2; VI 5]) later
         (VStr (Str.quoted "Day"))
       = ([], Return (VI 73)).
Proof.
  exact (X5_date_difference_undoes_date_plus silent_host 2010 2 5 73 eq_refl
           ltac:(vm_compute; split; discriminate)).
Defined.

End ExtraDateLists.

(** ** Increments *)

Section ExtraIncrements.

Local Open Scope string_scope.
Local Open Scope Z_scope.

Lemma microsecond_of_us t : microsecond (of_us t) = t mod US_PER_SECOND.
Proof.
  unfold of_us. destruct (ord2ymd (t / US_PER_DAY + 1)) as [[y m] d].
  cbn [microsecond]. unfold US_PER_DAY, US_PER_SECOND.
  Z.div_mod_to_equations. lia.
Qed.

Lemma elapsed_us_add a1 a2 a3 a4 b1 b2 b3 b4 :
  elapsed_us (a1 + b1) (a2 + b2) (a3 + b3) (a4 + b4)
  = elapsed_us a1 a2 a3 a4 + elapsed_us b1 b2 b3 b4.
Proof. unfold elapsed_us. lia. Qed.

Lemma elapsed_us_whole a1 a2 a3 a4 : elapsed_us a1 a2 a3 a4 mod US_PER_SECOND = 0.
Proof.
  unfold elapsed_us, US_PER_DAY, US_PER_HOUR, US_PER_MINUTE, US_PER_SECOND.
  Z.div_mod_to_equations. lia.
Qed.

(** X6: integer increments of days, hours, minutes and seconds add up: two
    of them applied one after the other leave the date that their sum
    leaves when applied at once. *)
Theorem X6_elapsed_increments_add_up :
  forall d d1 d2 ad ah ami asec bd bh bmi bsec,
    valid d = true ->
    Date.addself d [PInt 0; PInt 0; PInt ad; PInt ah; PInt ami; PInt asec] = inr d1 ->
    Date.addself d1 [PInt 0; PInt 0; PInt bd; PInt bh; PInt bmi; PInt bsec] = inr d2 ->
    Date.addself d [PInt 0; PInt 0; PInt (ad + bd); PInt (ah + bh);
                    PInt (ami + bmi); PInt (asec + bsec)] = inr d2.
Proof.
  intros d d1 d2 ad ah ami asec bd bh bmi bsec Hv H1 H2.
  pose proof (addself_valid _ _ _ H1) as Hv1.
  apply addself_int_inv in H1. rewrite (carry_nothing d Hv) in H1.
  destruct H1 as (Hb & Hr1 & E1).
  apply addself_int_inv in H2. rewrite (carry_nothing d1 Hv1) in H2.
  destruct H2 as (Hb1 & Hr2 & E2).
  destruct (valid_whole_second d Hv) as [_ Hu].
  destruct (valid_whole_second d1 Hv1) as [_ Hu1].
  set (base := mkdatetime (year d) (month d) (day d) (hour d) (minute d)
                 (second d) 0) in *.
  set (base1 := mkdatetime (year d1) (month d1) (day d1) (hour d1) (minute d1)
                  (second d1) 0) in *.
  assert (Hm1 : microsecond d1 = 0).
  { rewrite E1, microsecond_of_us.
    pose proof (elapsed_us_whole ad ah ami asec) as Hw.
    assert (Hbase : to_us base mod US_PER_SECOND = 0).
    { subst base. unfold to_us. cbn [year month day hour minute second microsecond].
      unfold US_PER_DAY, US_PER_HOUR, US_PER_MINUTE, US_PER_SECOND.
      Z.div_mod_to_equations. lia. }
    unfold US_PER_SECOND in *. Z.div_mod_to_equations. lia. }
  assert (Ht1 : to_us base1 = to_us base + elapsed_us ad ah ami asec).
  { rewrite Hu1, Hm1, E1, to_us_of_us by exact Hr1. lia. }
  rewrite addself_int_ok; rewrite (carry_nothing d Hv); fold base.
  - rewrite elapsed_us_add, E2, Ht1. f_equal. f_equal. lia.
  - exact Hb.
  - rewrite elapsed_us_add. lia.
Qed.

Lemma X6_elapsed_increments_add_up_witness :
  Date.addself (mkdatetime 2010 2 5 0 0 0 0)
    [PInt 0; PInt 0; PInt (56 + 1); PInt (0 + 0); PInt (0 + 0); PInt (0 + 0)]
  = inr (mkdatetime 2010 4 3 0 0 0 0).
Proof.
  exact (X6_elapsed_increments_add_up (mkdatetime 2010 2 5 0 0 0 0)
           (mkdatetime 2010 4 2 0 0 0 0) (mkdatetime 2010 4 3 0 0 0 0)
           56 0 0 0 1 0 0 0 eq_refl eq_refl eq_refl).
Defined.

End ExtraIncrements.

(** ** [DatePlus]: the forms of an offset *)

Section ExtraOffsets.

Local Open Scope string_scope.
Local Open Scope Z_scope.

Lemma addself_year_as_months d n t2 t3 t4 t5 :
  Date.addself d [PInt n; PInt 0; t2; t3; t4; t5]
  = Date.addself d [PInt 0; PInt (12 * n); t2; t3; t4; t5].
Proof.
  unfold Date.addself, Date.addself_fields. rewrite !addself_carry_int.
  replace (year d + n + (month d - 1 + 0) / 12)
    with (year d + 0 + (month d - 1 + 12 * n) / 12)
    by (Z.div_mod_to_equations; lia).
  replace ((month d - 1 + 0) mod 12)
    with ((month d - 1 + 12 * n) mod 12)
    by (Z.div_mod_to_equations; lia).
  reflexivity.
Qed.

(** X7: in [DatePlus] an integer number [n] of weeks is [7 n] days, [n]
    quarters are [3 n] months and [n] years are [12 n] months: the two
    offsets give the same result, whatever the date. *)
Theorem X7_units_are_multiples :
  forall H pydate n,
    DatePlus.apply H pydate (VList [VI n; VStr (Str.quoted "Week")])
    = DatePlus.apply H pydate (VList [VI (7 * n); VStr (Str.quoted "Day")])
    /\ DatePlus.apply H pydate (VList [VI n; VStr (Str.quoted "Quarter")])
       = DatePlus.apply H pydate (VList [VI (3 * n); VStr (Str.quoted "Month")])
    /\ DatePlus.apply H pydate (VList [VI n; VStr (Str.quoted "Year")])
       = DatePlus.apply H pydate (VList [VI (12 * n); VStr (Str.quoted "Month")]).
Proof.
  intros H pydate n. unfold VI.
  rewrite (apply_single_offset H pydate (PInt n) "Week" [0; 0; 7; 0; 0; 0]
             eq_refl eq_refl).
  rewrite (apply_single_offset H pydate (PInt (7 * n)) "Day" [0; 0; 1; 0; 0; 0]
             eq_refl eq_refl).
  rewrite (apply_single_offset H pydate (PInt n) "Quarter" [0; 3; 0; 0; 0; 0]
             eq_refl eq_refl).
  rewrite (apply_single_offset H pydate (PInt (3 * n)) "Month" [0; 1; 0; 0; 0; 0]
             eq_refl eq_refl).
  rewrite (apply_single_offset H pydate (PInt n) "Year" [1; 0; 0; 0; 0; 0]
             eq_refl eq_refl).
  rewrite (apply_single_offset H pydate (PInt (12 * n)) "Month" [0; 1; 0; 0; 0; 0]
             eq_refl eq_refl).
  cbn [map mul].
  destruct (DatePlus.process_date H pydate) as [[prec [e|idate]]|];
    try (repeat split; reflexivity).
  rewrite !Z.mul_0_r, !Z.mul_1_r.
  rewrite (addself_year_as_months idate n (PInt 0) (PInt 0) (PInt 0) (PInt 0)).
  replace (n * 7) with (7 * n) by lia.
  replace (n * 3) with (3 * n) by lia.
  repeat split; reflexivity.
Qed.

(** X8: a bare number [n] as offset is [n] days: [DatePlus[date, n]],
    [DatePlus[date, {n, "Day"}]] and [DatePlus[date, {{n, "Day"}}]] give the
    same result, for integers and floats alike. *)
Theorem X8_bare_number_is_days :
  forall H pydate n,
    DatePlus.apply H pydate (VNum n)
    = DatePlus.apply H pydate (VList [VNum n; VStr (Str.quoted "Day")])
    /\ DatePlus.apply H pydate (VList [VList [VNum n; VStr (Str.quoted "Day")]])
       = DatePlus.apply H pydate (VList [VNum n; VStr (Str.quoted "Day")]).
Proof.
  intros H pydate n.
  rewrite (apply_single_offset H pydate n "Day" [0; 0; 1; 0; 0; 0] eq_refl eq_refl).
  unfold DatePlus.apply.
  destruct (DatePlus.process_date H pydate) as [[prec [e|idate]]|];
    try (split; reflexivity).
  cbn [DatePlus.normalise DatePlus.strip_offsets DatePlus.strip_pairs
       DatePlus.strip_pair bind].
  change (Str.unquote (Str.quoted "Day")) with "Day".
  cbn [forallb DatePlus.add_all].
  unfold DatePlus.increment_ok, DatePlus.timevec. cbn [fst snd].
  change (Str.mem "Day" (Str.keys TIME_INCREMENTS)) with true.
  change (Str.lookup "Day" TIME_INCREMENTS) with (Some [0; 0; 1; 0; 0; 0]).
  cbn [andb bind].
  destruct (Date.addself idate (map (fun k => mul n (PInt k)) [0; 0; 1; 0; 0; 0]));
    split; reflexivity.
Qed.

End ExtraOffsets.

(** ** What the builtins return, and what they never do *)

Section ExtraOutcomes.

Local Open Scope string_scope.
Local Open Scope Z_scope.

Lemma to_list_length d : List.length (Date.to_list d) = 6%nat.
Proof. reflexivity. Qed.

(** X9: a value that [DatePlus] returns has the shape of its date argument
    and comes without a message: for a list of [k] items, a list of
    [min k 6] fields; for a number, [AbsoluteTime] of a list of six fields;
    for a string, [DateString] of a list of six fields. *)
Theorem X9_date_plus_result_shape :
  forall H pydate pyoff msgs v,
    DatePlus.apply H pydate pyoff = (msgs, Return v) ->
    msgs = []
    /\ exists fields,
        match pydate with
        | VList l =>
            v = VList fields /\ List.length fields = Nat.min (List.length l) 6
        | VNum _ =>
            v = VExpr "AbsoluteTime" [VList fields] /\ List.length fields = 6%nat
        | VStr _ =>
            v = VExpr "DateString" [VList fields] /\ List.length fields = 6%nat
        | _ => False
        end.
Proof.
  intros H pydate pyoff msgs v. unfold DatePlus.apply.
  destruct (DatePlus.process_date H pydate) as [[prec [e|idate]]|] eqn:Hp;
    try discriminate.
  destruct (DatePlus.strip_offsets (DatePlus.normalise pyoff)) as [e|offs];
    [discriminate|].
  destruct (forallb DatePlus.increment_ok offs); [|discriminate].
  destruct (DatePlus.add_all idate offs) as [e|idate']; [discriminate|].
  destruct pydate; cbn [DatePlus.process_date] in Hp; try discriminate;
    injection Hp as <- _; intros [= <- <-]; (split; [reflexivity|]).
  - eexists. split; reflexivity.
  - eexists. split; reflexivity.
  - eexists. split; [reflexivity|]. rewrite length_firstn, to_list_length.
    reflexivity.
Qed.

Lemma X9_date_plus_result_shape_witness :
  [] = ([] : list message)
  /\ exists fields,
      VList [VI 2010; VI 4; VI 19] = VList fields
      /\ List.length fields = Nat.min (List.length [VI 2010; VI 2; VI 5]) 6.
Proof.
  exact (X9_date_plus_result_shape silent_host (VList [VI 2010; VI 2; VI 5])
           (VI 73) [] (VList [VI 2010; VI 4; VI 19]) eq_refl).
Defined.

(** X10: [DateDifference] never ends silently.  When it returns nothing it
    has issued the [date] message for one of its two dates; so the branch
    for several units at once (a bare [return] and no message, line 735) is
    never taken. *)
Theorem X10_date_difference_never_silent :
  forall H pydate1 pydate2 pyunits msgs,
    DateDifference.apply H pydate1 pydate2 pyunits = (msgs, ReturnNone) ->
    msgs = [Msg "DateDifference" "date" [pydate1]]
    \/ msgs = [Msg "DateDifference" "date" [pydate2]].
Proof.
  intros H pydate1 pydate2 pyunits msgs. unfold DateDifference.apply.
  destruct (DateDifference.initial_date H pydate1 pydate2) as [[e|idate]|].
  - discriminate.
  - destruct (DateDifference.final_date H pydate1 pydate2) as [[e|fdate]|].
    + discriminate.
    + destruct pyunits; cbn [DateDifference.process_units]; try discriminate.
      destruct (DateDifference.convert _ _); discriminate.
    + intros [= <-]. right. reflexivity.
  - intros [= <-]. left. reflexivity.
Qed.

Lemma X10_date_difference_never_silent_witness :
  [Msg "DateDifference" "date" [VStr (Str.quoted "2000-01-02")]]
  = [Msg "DateDifference" "date" [VList [VI 2000; VI 1; VI 1]]]
  \/ [Msg "DateDifference" "date" [VStr (Str.quoted "2000-01-02")]]
     = [Msg "DateDifference" "date" [VStr (Str.quoted "2000-01-02")]].
Proof.
  exact (X10_date_difference_never_silent iso_host
           (VList [VI 2000; VI 1; VI 1]) (VStr (Str.quoted "2000-01-02"))
           (VStr (Str.quoted "Day")) _ eq_refl).
Defined.

End ExtraOutcomes.

(** ** Lists that are no dates, and text with a format *)

Section ExtraResolution.

Local Open Scope string_scope.
Local Open Scope Z_scope.

(** X11: a list of numbers that is empty, has more than six items, or has a
    float as its first or second item resolves to nothing: [to_datelist]
    issues the [str] message when the list has exactly two items and the
    [arg] message otherwise. *)
Theorem X11_number_lists_that_are_no_dates :
  forall H name nums,
    (List.length nums = 0%nat \/ (6 < List.length nums)%nat
     \/ exists i q, (i < 2)%nat /\ nth_error nums i = Some (PFloat q)) ->
    DateFormat.to_datelist H name (VList (map VNum nums))
    = rejected name (map VNum nums).
Proof.
  intros H name nums Hbad. cbn [DateFormat.to_datelist].
  assert (Hc : (1 <=? List.length (map VNum nums))%nat
               && (List.length (map VNum nums) <=? 6)%nat
               && DateFormat.numeric_items 0 (map VNum nums) = false).
  { rewrite length_map. destruct Hbad as [H0|[H6|(i & q & Hi & Hn)]].
    - rewrite H0. reflexivity.
    - apply Nat.leb_gt in H6. rewrite H6, andb_false_r. reflexivity.
    - apply andb_false_iff. right.
      destruct i as [|[|i]]; [| |lia].
      + destruct nums as [|a nums]; [discriminate|]. injection Hn as ->. reflexivity.
      + destruct nums as [|a [|b nums]]; try discriminate. injection Hn as ->.
        cbn [map DateFormat.numeric_items].
        destruct a; reflexivity. }
  rewrite Hc. unfold rejected.
  destruct nums as [|a [|b [|c rest]]]; reflexivity.
Qed.

Lemma X11_number_lists_that_are_no_dates_witness :
  DateFormat.to_datelist silent_host "DateList"
    (VList (map VNum [PFloat 2003; PInt 5]))
  = ([Msg "DateList" "str" [VF 2003; VI 5]], ReturnNone).
Proof.
  apply (X11_number_lists_that_are_no_dates silent_host "DateList"
           [PFloat 2003; PInt 5]).
  right. right. exists 0%nat, 2003%Q. split; [lia|reflexivity].
Defined.

Lemma first_parse_none H text forms :
  (forall form, In form forms -> strptime H text form = None) ->
  DateFormat.first_parse H text forms = None.
Proof.
  induction forms as [|f forms IH]; intros Hall; [reflexivity|].
  cbn [DateFormat.first_parse]. rewrite (Hall f (or_introl eq_refl)).
  apply IH. intros form Hin. apply Hall. right. exact Hin.
Qed.

Lemma first_parse_first H text pre form post d :
  (forall f, In f pre -> strptime H text f = None) ->
  strptime H text form = Some d ->
  DateFormat.first_parse H text (pre ++ form :: post)%list = Some d.
Proof.
  induction pre as [|f pre IH]; intros Hpre Hf.
  - cbn [app DateFormat.first_parse]. rewrite Hf. reflexivity.
  - cbn [app DateFormat.first_parse]. rewrite (Hpre f (or_introl eq_refl)).
    apply IH; [|exact Hf]. intros g Hin. apply Hpre. right. exact Hin.
Qed.

Lemma to_datelist_text H name text specs :
  forallb is_str specs = true ->
  DateFormat.to_datelist H name (VList [VStr text; VList specs])
  = DateFormat.text_datelist H name text specs.
Proof. intros Hs. cbn [DateFormat.to_datelist]. cbn. rewrite Hs. reflexivity. Qed.

(** X12: for a text with a list of element names, the candidate forms are
    tried in their order and the first one that parses decides: the result
    is the list of the date parsed, with the year replaced by the current
    year when neither [Year] nor [YearShort] is among the names.  When no
    form parses, the [str] message is issued, with the names unquoted, and
    nothing is returned. *)
Theorem X12_first_form_that_parses_wins :
  forall H name text specs,
    forallb is_str specs = true ->
    let names := map (fun v => Str.unquote (DateFormat.str_of v)) specs in
    let r := DateFormat.to_datelist H name (VList [VStr text; VList specs]) in
    ((forall form, In form (DateFormat.forms_of names) ->
                   strptime H (Str.unquote text) form = None) ->
     r = ([Msg name "str" [VStr text; VList (map VStr names)]], ReturnNone))
    /\ (forall pre form post d,
           DateFormat.forms_of names = (pre ++ form :: post)%list ->
           (forall f, In f pre -> strptime H (Str.unquote text) f = None) ->
           strptime H (Str.unquote text) form = Some d ->
           r = ([], Return
                      (VI (if Str.mem "Year" names || Str.mem "YearShort" names
                           then year d else today_year H)
                       :: tl (Date.to_list d)))).
Proof.
  intros H name text specs Hs names r.
  assert (Hr : r = DateFormat.text_datelist H name text specs)
    by (apply to_datelist_text; exact Hs).
  rewrite Hr. clear Hr. clearbody r. unfold DateFormat.text_datelist. fold names.
  split.
  - intros Hnone. rewrite (first_parse_none _ _ _ Hnone). reflexivity.
  - intros pre form post d Hf Hpre Hform.
    rewrite Hf, (first_parse_first _ _ _ _ _ _ Hpre Hform).
    destruct (Str.mem "Year" names); destruct (Str.mem "YearShort" names);
      reflexivity.
Qed.

Lemma X12_first_form_that_parses_wins_witness :
  DateFormat.to_datelist month_day_host "DateList"
    (VList [VStr (Str.quoted "5/18");
            VList [VStr (Str.quoted "Month"); VStr (Str.quoted "Day")]])
  = ([], Return (VI 2012 :: tl (Date.to_list (mkdatetime 1900 5 18 0 0 0 0)))).
Proof.
  exact (proj2 (X12_first_form_that_parses_wins month_day_host "DateList"
                  (Str.quoted "5/18")
                  [VStr (Str.quoted "Month"); VStr (Str.quoted "Day")] eq_refl)
           ["%m%d"; "%m %d"] "%m/%d" ["%m-%d"; "%m.%d"; "%m,%d"; "%m:%d"]
           (mkdatetime 1900 5 18 0 0 0 0) eq_refl
           ltac:(intros f [<-|[<-|[]]]; reflexivity) eq_refl).
Defined.

(** X13: [render] keeps a format of literals alone as it is, for every
    date; but for a date before 1900 a format with any element name of the
    table raises [ValueError] (the FIXME of line 381). *)
Theorem X13_render_before_1900 :
  forall d pyform,
    ((forall p, In p pyform -> Str.mem p (Str.keys DATE_STRING_FORMATS) = false) ->
     DateString.render d pyform = inr (fold_right String.append "" pyform))
    /\ (year d < 1900 ->
        (exists p, In p pyform /\ Str.mem p (Str.keys DATE_STRING_FORMATS) = true) ->
        DateString.render d pyform = inl ValueError).
Proof.
  intros d pyform. split.
  - induction pyform as [|p l IH]; intros Hlit; [reflexivity|].
    cbn [DateString.render fold_right]. unfold DateString.render_token.
    rewrite (Hlit p (or_introl eq_refl)). cbn [bind].
    rewrite IH by (intros q Hq; apply Hlit; right; exact Hq). reflexivity.
  - intros Hy. induction pyform as [|p l IH]; intros (q & Hin & Hq); [destruct Hin|].
    cbn [DateString.render]. unfold DateString.render_token, Strftime.strftime.
    apply Z.ltb_lt in Hy. rewrite Hy.
    destruct (Str.mem p (Str.keys DATE_STRING_FORMATS)) eqn:Hp; [reflexivity|].
    cbn [bind]. destruct Hin as [->|Hin]; [congruence|].
    rewrite IH by (exists q; split; assumption). reflexivity.
Qed.

Lemma X13_render_before_1900_witness :
  DateString.render (mkdatetime 1899 12 31 0 0 0 0) ["on "; "Day"]
  = inl ValueError.
Proof.
  exact (proj2 (X13_render_before_1900 (mkdatetime 1899 12 31 0 0 0 0)
                  ["on "; "Day"])
           eq_refl (ex_intro _ "Day" (conj (or_intror (or_introl eq_refl)) eq_refl))).
Defined.

End ExtraResolution.

(** ** Differences and absolute times *)

Section ExtraAbsolute.

Local Open Scope string_scope.
Local Open Scope Z_scope.

(** X14: for two dates given as lists that [_Date] accepts, [DateDifference]
    in seconds returns the signed elapsed time from the first date to the
    second, tagged [Second]: the microseconds between them over 10^6 (as a
    double: the true division of [total_seconds]), an integer exactly when
    the two dates are a whole number of seconds apart, and negative exactly
    when the second date precedes the first. *)
Theorem X14_difference_of_lists_is_signed :
  forall H l1 l2 d1 d2,
    Date.init H l1 None None = inr d1 ->
    Date.init H l2 None None = inr d2 ->
    exists secs,
      DateDifference.apply H (VList l1) (VList l2) (VStr (Str.quoted "Second"))
      = ([], Return (VList [VNum secs; VStr "Second"]))
      /\ (to_Q secs
          == double (inject_Z (to_us d2 - to_us d1) / inject_Z US_PER_SECOND))%Q
      /\ (is_int secs = true <-> (to_us d2 - to_us d1) mod US_PER_SECOND = 0)
      /\ ((to_Q secs < 0)%Q <-> precedes d2 d1).
Proof. exact DateDifference_lists_signed. Qed.

Lemma X14_difference_of_lists_is_signed_witness :
  exists secs,
    DateDifference.apply silent_host
      (VList [VI 2057; VI 1; VI 1]) (VList [VI 2042; VI 1; VI 4])
      (VStr (Str.quoted "Second"))
    = ([], Return (VList [VNum secs; VStr "Second"]))
    /\ (to_Q secs
        == double (inject_Z (to_us (mkdatetime 2042 1 4 0 0 0 0)
                             - to_us (mkdatetime 2057 1 1 0 0 0 0))
                   / inject_Z US_PER_SECOND))%Q
    /\ (is_int secs = true
        <-> (to_us (mkdatetime 2042 1 4 0 0 0 0)
             - to_us (mkdatetime 2057 1 1 0 0 0 0)) mod US_PER_SECOND = 0)
    /\ ((to_Q secs < 0)%Q
        <-> precedes (mkdatetime 2042 1 4 0 0 0 0) (mkdatetime 2057 1 1 0 0 0 0)).
Proof.
  exact (X14_difference_of_lists_is_signed silent_host
           [VI 2057; VI 1; VI 1] [VI 2042; VI 1; VI 4]
           (mkdatetime 2057 1 1 0 0 0 0) (mkdatetime 2042 1 4 0 0 0 0)
           eq_refl eq_refl).
Defined.

(** An instant a whole number of seconds after the epoch has no
    microseconds. *)
Lemma whole_second_instant x :
  microsecond (of_us (to_us AbsoluteTime.epoch + x * US_PER_SECOND)) = 0.
Proof.
  rewrite microsecond_of_us.
  assert (He : to_us AbsoluteTime.epoch = 59926608000 * US_PER_SECOND)
    by reflexivity.
  rewrite He, <- Z.mul_add_distr_r. apply Z_mod_mult.
Qed.

(** [_Date(absolute = x)] for an integer [x]: the date [x] seconds after
    1900-01-01T00:00:00. *)
Lemma init_absolute_int H x :
  0 <= to_us AbsoluteTime.epoch + x * US_PER_SECOND < US_END ->
  Date.init H [] (Some (PInt x)) None
  = inr (of_us (to_us AbsoluteTime.epoch + x * US_PER_SECOND)).
Proof.
  intros Hr. unfold Date.init.
  cbn [Date.pad List.length skipn app default_date].
  change (Date.second_args (VF 0)) with (@inr pyexn (Z * Z) (0, 0)).
  cbn [bind Date.int_arg VI].
  change (fits_int 1900) with true. change (fits_int 1) with true.
  change (fits_int 0) with true. cbv iota. cbn [bind].
  change (datetime_new 1900 1 1 0 0 0 0)
    with (@inr pyexn datetime AbsoluteTime.epoch).
  cbn [bind].
  destruct (timedelta_new_cases (PInt 0) (PInt 0) (PInt 0) (PInt x)) as [E|[_ E]].
  - rewrite E. cbn [bind]. rewrite delta_us_int.
    replace (0 * US_PER_DAY + 0 * US_PER_HOUR + 0 * US_PER_MINUTE + x * US_PER_SECOND)
      with (x * US_PER_SECOND) by lia.
    rewrite (add_delta_in_range _ _ Hr). reflexivity.
  - exfalso. rewrite delta_us_int in E.
    change (to_us AbsoluteTime.epoch) with 59926608000000000 in Hr.
    unfold US_END, MAXORDINAL, US_PER_DAY, US_PER_HOUR, US_PER_MINUTE,
      US_PER_SECOND in *. lia.
Qed.

(** X15: for two absolute times given as integers, [DateDifference] in
    seconds is their difference, an integer tagged [Second]. *)
Theorem X15_difference_of_absolute_times :
  forall H a b,
    0 <= to_us AbsoluteTime.epoch + a * US_PER_SECOND < US_END ->
    0 <= to_us AbsoluteTime.epoch + b * US_PER_SECOND < US_END ->
    DateDifference.apply H (VI a) (VI b) (VStr (Str.quoted "Second"))
    = ([], Return (VList [VI (b - a); VStr "Second"])).
Proof.
  intros H a b Ha Hb.
  unfold DateDifference.apply, DateDifference.initial_date,
    DateDifference.final_date, VI.
  rewrite (init_absolute_int H a Ha), (init_absolute_int H b Hb).
  cbn [DateDifference.process_units].
  change (Str.unquote (Str.quoted "Second")) with "Second".
  change (forallb (fun p => Str.mem p (Str.keys TIME_INCREMENTS)) ["Second"])
    with true.
  cbv iota. unfold diff. rewrite !to_us_of_us by assumption.
  replace (to_us AbsoluteTime.epoch + b * US_PER_SECOND
           - (to_us AbsoluteTime.epoch + a * US_PER_SECOND))
    with ((b - a) * US_PER_SECOND) by lia.
  assert (Hsmall : Z.abs (b - a) < 2 ^ 53).
  { apply (seconds_apart_small _ _ _ (of_us_valid _ Hb) (of_us_valid _ Ha)).
    rewrite !to_us_of_us by assumption. lia. }
  destruct (convert_whole_seconds (b - a) Hsmall) as (_ & _ & _ & _ & _ & _ & ->).
  reflexivity.
Qed.

Lemma X15_difference_of_absolute_times_witness :
  DateDifference.apply silent_host (VI 1000) (VI 3155673600)
    (VStr (Str.quoted "Second"))
  = ([], Return (VList [VI (3155673600 - 1000); VStr "Second"])).
Proof.
  exact (X15_difference_of_absolute_times silent_host 1000 3155673600
           ltac:(vm_compute; split; [discriminate|reflexivity])
           ltac:(vm_compute; split; [discriminate|reflexivity])).
Defined.

(** Lines 442-447 on the list of a date of whole seconds. *)
Lemma of_datelist_whole_second H d n :
  valid d = true ->
  to_us d = to_us AbsoluteTime.epoch + n * US_PER_SECOND ->
  AbsoluteTime.of_datelist H (Date.to_list d) = inr (VI n).
Proof.
  intros Hv Hn. unfold AbsoluteTime.of_datelist.
  assert (Hus : microsecond d = 0).
  { rewrite <- (of_us_to_us d Hv), Hn. apply whole_second_instant. }
  rewrite (init_to_list_whole H d Hv Hus). cbn [bind]. unfold diff. rewrite Hn.
  replace (to_us AbsoluteTime.epoch + n * US_PER_SECOND - to_us AbsoluteTime.epoch)
    with (n * US_PER_SECOND) by lia.
  unfold td_microseconds. rewrite Z_mod_mult. cbn [Z.eqb].
  rewrite total_seconds_whole; [reflexivity|].
  apply (seconds_apart_small d AbsoluteTime.epoch); [exact Hv|reflexivity|lia].
Qed.

(** X16: [DatePlus] on an absolute time [x] and [n] days, both integers,
    returns [AbsoluteTime] of a list of fields, and [AbsoluteTime] of that
    list is [x + 86400 n]: on absolute times a day is 86400 seconds. *)
Theorem X16_date_plus_on_absolute_time :
  forall H x n,
    0 <= to_us AbsoluteTime.epoch + x * US_PER_SECOND < US_END ->
    0 <= to_us AbsoluteTime.epoch + (x + 86400 * n) * US_PER_SECOND < US_END ->
    exists fields,
      DatePlus.apply H (VI x) (VI n)
      = ([], Return (VExpr "AbsoluteTime" [VList fields]))
      /\ AbsoluteTime.apply_spec H (VList fields)
         = ([], Return (VI (x + 86400 * n))).
Proof.
  intros H x n Hx Hn.
  set (d0 := of_us (to_us AbsoluteTime.epoch + x * US_PER_SECOND)).
  assert (Hv0 : valid d0 = true) by (apply of_us_valid; exact Hx).
  assert (Ht0 : to_us d0 = to_us AbsoluteTime.epoch + x * US_PER_SECOND)
    by (apply to_us_of_us; exact Hx).
  assert (Hm0 : microsecond d0 = 0).
  { unfold d0. rewrite microsecond_of_us.
    change (to_us AbsoluteTime.epoch) with (59926608000 * US_PER_SECOND).
    rewrite <- Z.mul_add_distr_r. apply Z_mod_mult. }
  destruct (valid_whole_second d0 Hv0) as [Hvb Htb].
  pose proof (init_absolute_int H x Hx) as Hinit. fold d0 in Hinit.
  clearbody d0.
  set (t := to_us AbsoluteTime.epoch + (x + 86400 * n) * US_PER_SECOND) in *.
  assert (Hsum : to_us (mkdatetime (year d0) (month d0) (day d0) (hour d0)
                          (minute d0) (second d0) 0) + elapsed_us n 0 0 0 = t).
  { rewrite Htb, Hm0, Ht0. unfold t, elapsed_us, US_PER_DAY. lia. }
  exists (Date.to_list (of_us t)). split.
  - unfold DatePlus.apply, DatePlus.process_date, VI.
    rewrite Hinit.
    cbn [DatePlus.normalise DatePlus.strip_offsets DatePlus.strip_pairs
         DatePlus.strip_pair bind].
    change (Str.unquote (Str.quoted "Day")) with "Day".
    cbn [forallb DatePlus.add_all].
    change (DatePlus.increment_ok (VNum (PInt n), "Day")) with true.
    cbv iota. cbn [andb].
    change (DatePlus.timevec (VNum (PInt n), "Day"))
      with [PInt (n * 0); PInt (n * 0); PInt (n * 1);
            PInt (n * 0); PInt (n * 0); PInt (n * 0)].
    rewrite !Z.mul_0_r, Z.mul_1_r.
    rewrite addself_int_ok; rewrite (carry_nothing _ Hv0).
    + rewrite Hsum. reflexivity.
    + exact Hvb.
    + rewrite Hsum. exact Hn.
  - unfold AbsoluteTime.apply_spec.
    rewrite (to_datelist_of_date H "AbsoluteTime" (of_us t) (of_us_valid t Hn)).
    rewrite (of_datelist_whole_second H (of_us t) (x + 86400 * n)
               (of_us_valid t Hn) (to_us_of_us t Hn)).
    reflexivity.
Qed.

Lemma X16_date_plus_on_absolute_time_witness :
  exists fields,
    DatePlus.apply silent_host (VI 3155673600) (VI 1)
    = ([], Return (VExpr "AbsoluteTime" [VList fields]))
    /\ AbsoluteTime.apply_spec silent_host (VList fields)
       = ([], Return (VI (3155673600 + 86400 * 1))).
Proof.
  exact (X16_date_plus_on_absolute_time silent_host 3155673600 1
           ltac:(vm_compute; split; [discriminate|reflexivity])
           ltac:(vm_compute; split; [discriminate|reflexivity])).
Defined.

(** Lines 434-447 on an integer, when [gmtime] returns the fields of a
    date [r] of whole seconds. *)
Lemma apply_spec_int_fields H x r :
  valid r = true ->
  microsecond r = 0 ->
  to_us r = to_us AbsoluteTime.epoch + x * US_PER_SECOND ->
  gmtime H (PInt (x - EPOCH_OFFSET))
  = Some (year r, month r, day r, hour r, minute r, second r) ->
  AbsoluteTime.apply_spec H (VI x) = ([], Return (VI x)).
Proof.
  intros Hv Hm Ht Hg.
  assert (Hx : Z.abs x < 2 ^ 53)
    by (apply (seconds_apart_small r AbsoluteTime.epoch);
        [exact Hv|reflexivity|lia]).
  pose proof (valid_fields r Hv) as (_ & _ & _ & Hsec & _).
  destruct (valid_whole_second r Hv) as [Hvb _].
  unfold AbsoluteTime.apply_spec, VI. cbn [DateFormat.to_datelist sub].
  rewrite Hg. cbn [add modulo as_double].
  rewrite (double_Z_eq x Hx), Qmod_Z.
  set (q := double (double (inject_Z (second r)) + 0)).
  assert (Eq : (q == inject_Z (second r))%Q).
  { unfold q.
    assert (E1 : (double (inject_Z (second r)) + 0 == inject_Z (second r))%Q)
      by (rewrite double_Z by lia; ring).
    rewrite (double_comp _ _ E1). apply double_Z. lia. }
  clearbody q.
  fold (VI (year r)) (VI (month r)) (VI (day r)) (VI (hour r)) (VI (minute r)).
  fold (VF q).
  rewrite (of_datelist_whole H (year r) (month r) (day r) (hour r) (minute r) q
             (second r) Eq Hvb).
  assert (He : to_us AbsoluteTime.epoch = (ymd2ord 1900 1 1 - 1) * US_PER_DAY)
    by reflexivity.
  rewrite He in Ht. unfold to_us in Ht. rewrite Hm in Ht.
  assert (Hs : seconds_since_1900 (year r) (month r) (day r) (hour r) (minute r)
                 (second r) = x).
  { unfold seconds_since_1900. clear He.
    revert Ht. generalize (ymd2ord 1900 1 1) as o. intros o Ht.
    unfold US_PER_DAY, US_PER_HOUR, US_PER_MINUTE, US_PER_SECOND in Ht. lia. }
  rewrite Hs. reflexivity.
Qed.

(** X17: [AbsoluteTime] gives an integer absolute time back: when the
    host's [gmtime] returns the fields of the instant [x] seconds after
    1900-01-01T00:00:00, [AbsoluteTime[x]] is [x]. *)
Theorem X17_absolute_time_of_absolute_time :
  forall H x,
    0 <= to_us AbsoluteTime.epoch + x * US_PER_SECOND < US_END ->
    (let r := of_us (to_us AbsoluteTime.epoch + x * US_PER_SECOND) in
     gmtime H (PInt (x - EPOCH_OFFSET))
     = Some (year r, month r, day r, hour r, minute r, second r)) ->
    AbsoluteTime.apply_spec H (VI x) = ([], Return (VI x)).
Proof.
  intros H x Hx Hg. cbv zeta in Hg.
  apply (apply_spec_int_fields H x
           (of_us (to_us AbsoluteTime.epoch + x * US_PER_SECOND))).
  - apply of_us_valid; exact Hx.
  - apply whole_second_instant.
  - apply to_us_of_us; exact Hx.
  - exact Hg.
Qed.

Lemma X17_absolute_time_of_absolute_time_witness :
  AbsoluteTime.apply_spec iso_host (VI 1000) = ([], Return (VI 1000)).
Proof.
  exact (X17_absolute_time_of_absolute_time iso_host 1000
           ltac:(vm_compute; split; [discriminate|reflexivity]) eq_refl).
Defined.

End ExtraAbsolute.

(** ** Offsets in months *)

Section ExtraMonths.

Local Open Scope string_scope.
Local Open Scope Z_scope.

(** X18: an offset of [n] months moves the month and the year of a calendar
    date [{y, m, d}] and keeps its day: [DatePlus] returns that date when
    the calendar has it; when it has not (the 31st in a month of 30 days, a
    year outside 1..9999) it raises [ValueError], or [OverflowError] when
    the new year does not fit a C int; the day is never clamped. *)
Theorem X18_date_plus_months_keep_the_day :
  forall H y m d n,
    valid_ymd y m d = true ->
    let y' := y + (m - 1 + n) / 12 in
    let m' := (m - 1 + n) mod 12 + 1 in
    DatePlus.apply H (VList [VI y; VI m; VI d]) (VList [VI n; VStr (Str.quoted "Month")])
    = if valid_ymd y' m' d
      then ([], Return (VList [VI y'; VI m'; VI d]))
      else if fits_int y' then ([], Raise ValueError)
           else ([], Raise OverflowError).
Proof.
  intros H y m d n Hv y' m'. unfold VI.
  rewrite (apply_single_offset H _ (PInt n) "Month" [0; 1; 0; 0; 0; 0]
             eq_refl eq_refl).
  cbn [DatePlus.process_date]. fold (VI y) (VI m) (VI d).
  rewrite (init_ymd H y m d Hv).
  cbn [map mul]. rewrite !Z.mul_0_r, Z.mul_1_r.
  rewrite addself_int_unfold. cbn [year month day hour minute second].
  replace (y + 0 + (m - 1 + n) / 12) with y' by (unfold y'; lia). fold m'.
  destruct (valid_ymd y' m' d) eqn:E.
  - assert (Hv' : valid (mkdatetime y' m' d 0 0 0 0) = true)
      by (apply valid_intro; [exact E|lia..]).
    pose proof (to_us_bounds _ Hv') as Hb.
    rewrite increment_chain_ok;
      [ | exact Hv' | unfold elapsed_us; lia ].
    replace (to_us (mkdatetime y' m' d 0 0 0 0) + elapsed_us 0 0 0 0)
      with (to_us (mkdatetime y' m' d 0 0 0 0)) by (unfold elapsed_us; lia).
    rewrite (of_us_to_us _ Hv'). reflexivity.
  - rewrite datetime_new_invalid.
    + destruct (fits_int y'); reflexivity.
    + assert (Hv0 : valid (mkdatetime y m d 0 0 0 0) = true)
        by (apply valid_intro; [exact Hv|lia..]).
      pose proof (valid_fits _ _ _ _ _ _ _ Hv0) as Hf.
      cbn [forallb] in Hf |- *.
      apply andb_true_iff in Hf as [_ Hf]. apply andb_true_iff in Hf as [_ Hf].
      rewrite Hf, andb_true_r.
      unfold fits_int, INT_MIN, INT_MAX, m'.
      apply andb_true_iff; split; apply Z.leb_le; Z.div_mod_to_equations; lia.
    + unfold valid. cbn [year month day]. rewrite E. reflexivity.
Qed.

Lemma X18_date_plus_months_keep_the_day_witness :
  DatePlus.apply silent_host (VList [VI 2010; VI 1; VI 31])
    (VList [VI 1; VStr (Str.quoted "Month")])
  = ([], Raise ValueError).
Proof.
  exact (X18_date_plus_months_keep_the_day silent_host 2010 1 31 1 eq_refl).
Defined.

(** [DatePlus[{2010, 1, 15}, {25769803776, "Month"}]]: the year, 2147485658,
    does not fit a C int. *)
Example DatePlus_months_overflow :
  forall H,
    DatePlus.apply H (VList [VI 2010; VI 1; VI 15])
      (VList [VI 25769803776; VStr (Str.quoted "Month")])
    = ([], Raise OverflowError).
Proof. intros H. vm_compute. reflexivity. Qed.

End ExtraMonths.
